(** * TaskFlow REST API: the task, note and statistics routes

    A shallow embedding of [src/routes/tasks.js], [src/routes/notes.js],
    [src/routes/stats.js] and of the Mongoose schemas they run on
    ([taskSchema], [noteSchema], [categorySchema]).

    The route handlers are transcribed statement by statement into a small
    state-and-exception monad.  The document store (Mongoose on MongoDB) is an
    external collaborator of the repository; the fragment of it that the
    handlers call is modelled in the first half of the file:

    - request bodies are JSON objects whose field values are [null],
      booleans or strings (numbers, arrays and nested objects as field
      values, and MongoDB update operators as keys, are outside the model);
      query-string parameters are strings;
    - schema paths are cast, defaulted and validated as Mongoose does for the
      four schema types the repository declares;
    - the version key [__v] is not modelled;
    - one request is served at one instant of the server clock;
    - sorting is stable with respect to insertion order. *)

From Stdlib Require Import ZArith NArith Ascii String List Lia.
From Stdlib Require Import Sorting.Sorted Sorting.Permutation.
From stdpp Require Import gmap strings.

Open Scope string_scope.

(** ** JavaScript values that reach the store *)

(** What [express.json()] leaves in a field of [req.body], plus the [Date]
    objects the handlers create with [new Date()]. *)
Inductive js : Type :=
| JNull
| JBool (b : bool)
| JStr (s : string)
| JDate (t : Z).

(** JavaScript truthiness of an optional query-string parameter:
    [undefined] and the empty string are falsy. *)
Definition truthy (p : option string) : bool :=
  match p with
  | Some s => negb (String.eqb s "")
  | None => false
  end.

(** ** The host platform

    Functions of the JavaScript runtime, of the BSON library and of the
    database server that the code relies on but does not define. *)
Class Host : Type := {
  (** [new ObjectId(s)]: [None] when [s] is not a valid identifier. *)
  ObjectId_of_string : string -> option N;
  (** Conversion of a non-empty string to a [Date], in milliseconds since
      the epoch; [None] for an invalid date. *)
  Date_of_string : string -> option Z;
  (** [Date.prototype.toString]. *)
  Date_toString : Z -> string;
  (** Whether the server accepts [pattern] with [options] as a regular
      expression. *)
  regex_valid : string -> string -> bool;
  (** [regex_search pattern options subject]: whether the expression matches
      somewhere in [subject]. *)
  regex_search : string -> string -> string -> bool
}.

Definition or_else {A} (o : option A) (a : A) : A :=
  match o with
  | Some x => x
  | None => a
  end.

(** ** Stored values and documents *)

Inductive value : Type :=
| VNull
| VStr (s : string)
| VOid (n : N)
| VBool (b : bool)
| VDate (t : Z).

#[global] Instance js_eq_dec : EqDecision js.
Proof. solve_decision. Defined.

#[global] Instance value_eq_dec : EqDecision value.
Proof. solve_decision. Defined.

(** A stored document: field name to value.  An absent key is a field that
    is [undefined]. *)
Abbreviation document := (gmap string value).

(** ** Errors *)

Inductive path_error : Type :=
| RequiredFailed
| EnumFailed
| CastFailed (kind : string) (v : js).

Inductive error : Type :=
| CastError (kind : string) (v : js) (path : string)
| ValidationError (errors : list (string * path_error))
| MongooseError (msg : string)
| MongoServerError (code : N)
| MongoNetworkError (msg : string).

(** Server error codes used below. *)
Definition DuplicateKey : N := 11000%N.
Definition ImmutableField : N := 66%N.
Definition InvalidRegex : N := 51091%N.

(** ** Schema types and casting *)

Inductive instance : Type :=
| SchemaString
| SchemaDate
| SchemaBoolean
| SchemaObjectId.

Definition instance_name (i : instance) : string :=
  match i with
  | SchemaString => "string"
  | SchemaDate => "date"
  | SchemaBoolean => "Boolean"
  | SchemaObjectId => "ObjectId"
  end.

Section Casting.
Context `{Host}.

Definition castString (v : js) : option value :=
  match v with
  | JNull => Some VNull
  | JStr s => Some (VStr s)
  | JBool b => Some (VStr (if b then "true" else "false"))
  | JDate t => Some (VStr (Date_toString t))
  end.

Definition castDate (v : js) : option value :=
  match v with
  | JNull => Some VNull
  | JStr s =>
      if String.eqb s "" then Some VNull
      else match Date_of_string s with
           | Some t => Some (VDate t)
           | None => None
           end
  | JBool _ => None
  | JDate t => Some (VDate t)
  end.

Definition convertToTrue : list string := ["true"; "1"; "yes"].
Definition convertToFalse : list string := ["false"; "0"; "no"].

Definition castBoolean (v : js) : option value :=
  match v with
  | JNull => Some VNull
  | JBool b => Some (VBool b)
  | JStr s =>
      if existsb (String.eqb s) convertToTrue then Some (VBool true)
      else if existsb (String.eqb s) convertToFalse then Some (VBool false)
      else None
  | JDate _ => None
  end.

Definition castObjectId (v : js) : option value :=
  match v with
  | JNull => Some VNull
  | JStr s =>
      match ObjectId_of_string s with
      | Some n => Some (VOid n)
      | None => None
      end
  | JBool _ => None
  | JDate _ => None
  end.

(** Cast [v] for the path [path] of type [i]; a failed cast is a
    [CastError]. *)
Definition cast (i : instance) (path : string) (v : js) : error + value :=
  let r := match i with
           | SchemaString => castString v
           | SchemaDate => castDate v
           | SchemaBoolean => castBoolean v
           | SchemaObjectId => castObjectId v
           end in
  match r with
  | Some x => inr x
  | None => inl (CastError (instance_name i) v path)
  end.
End Casting.

(** ** Schemas *)

Inductive default_spec : Type :=
| NoDefault
| Default (v : value)
| DefaultNow        (* default: Date.now *)
| DefaultObjectId.  (* the automatic _id *)

Record SchemaType : Type := {
  type : instance;
  required : bool;
  enum : option (list string);
  default : default_spec
}.

Definition Schema : Type := list (string * SchemaType).

(** Every schema gets the automatic [_id] path in front. *)
Definition id_path : string * SchemaType :=
  ("_id", {| type := SchemaObjectId; required := false; enum := None;
             default := DefaultObjectId |}).

Definition paths (S : Schema) : Schema := id_path :: S.

(** [src/models/Category.js] *)
Definition categorySchema : Schema := [
  ("name",  {| type := SchemaString; required := true;  enum := None;
               default := NoDefault |});
  ("color", {| type := SchemaString; required := false; enum := None;
               default := Default (VStr "#3498db") |});
  ("icon",  {| type := SchemaString; required := false; enum := None;
               default := Default (VStr "folder") |})
].

(** [src/models/Task.js] *)
Definition taskSchema : Schema := [
  ("title",       {| type := SchemaString; required := true;  enum := None;
                     default := NoDefault |});
  ("description", {| type := SchemaString; required := false; enum := None;
                     default := Default (VStr "") |});
  ("category",    {| type := SchemaString; required := false; enum := None;
                     default := Default (VStr "general") |});
  ("priority",    {| type := SchemaString; required := false;
                     enum := Some ["low"; "medium"; "high"];
                     default := Default (VStr "medium") |});
  ("status",      {| type := SchemaString; required := false;
                     enum := Some ["pending"; "in-progress"; "completed"];
                     default := Default (VStr "pending") |});
  ("dueDate",     {| type := SchemaDate; required := false; enum := None;
                     default := Default VNull |});
  ("createdAt",   {| type := SchemaDate; required := false; enum := None;
                     default := DefaultNow |});
  ("updatedAt",   {| type := SchemaDate; required := false; enum := None;
                     default := DefaultNow |})
].

(** [src/models/Note.js] *)
Definition noteSchema : Schema := [
  ("taskId",    {| type := SchemaObjectId; required := false; enum := None;
                   default := Default VNull |});
  ("title",     {| type := SchemaString; required := false; enum := None;
                   default := Default (VStr "") |});
  ("content",   {| type := SchemaString; required := true;  enum := None;
                   default := NoDefault |});
  ("color",     {| type := SchemaString; required := false; enum := None;
                   default := Default (VStr "#ffffa5") |});
  ("pinned",    {| type := SchemaBoolean; required := false; enum := None;
                   default := Default (VBool false) |});
  ("createdAt", {| type := SchemaDate; required := false; enum := None;
                   default := DefaultNow |});
  ("updatedAt", {| type := SchemaDate; required := false; enum := None;
                   default := DefaultNow |})
].

(** A model: a collection name, a schema and its [pre('save')] hook, which
    receives the current time and the document being saved. *)
Record Model : Type := {
  modelName : string;
  schema : Schema;
  pre_save : Z -> document -> document
}.

Definition Category : Model :=
  {| modelName := "Category"; schema := categorySchema;
     pre_save := fun _ this => this |}.

(** [taskSchema.pre('save', function(next) { this.updatedAt = new Date(); next(); })] *)
Definition Task : Model :=
  {| modelName := "Task"; schema := taskSchema;
     pre_save := fun now this => <["updatedAt" := VDate now]> this |}.

(** [noteSchema.pre('save', ...)]: the same hook. *)
Definition Note : Model :=
  {| modelName := "Note"; schema := noteSchema;
     pre_save := fun now this => <["updatedAt" := VDate now]> this |}.

(** ** The world: store contents, server clock, store faults *)

(** [db] maps a model name to its collection, in insertion order.  [clock]
    is the reading of the server clock while the request is served.
    [faults] scripts the availability of the store: every round trip to the
    database consumes one entry, and [Some e] makes that round trip fail with
    [e]; an exhausted script means a healthy store. *)
Record world : Type := World {
  db : gmap string (list document);
  clock : Z;
  faults : list (option error)
}.

(** A reachable store holding [d], at time [now]. *)
Definition online (d : gmap string (list document)) (now : Z) : world :=
  World d now [].

(** Computations that read and write the world and may throw. *)
Definition M (A : Type) : Type := world -> (error + A) * world.

Definition ret {A} (a : A) : M A := fun w => (inr a, w).

Definition throw {A} (e : error) : M A := fun w => (inl e, w).

Definition bind {A B} (m : M A) (k : A -> M B) : M B :=
  fun w =>
    match m w with
    | (inr a, w') => k a w'
    | (inl e, w') => (inl e, w')
    end.

(** [try { m } catch (err) { h err }] *)
Definition try_catch {A} (m : M A) (h : error -> M A) : M A :=
  fun w =>
    match m w with
    | (inr a, w') => (inr a, w')
    | (inl e, w') => h e w'
    end.

Notation "'let*' x ':=' m 'in' k" := (bind m (fun x => k))
  (at level 10, x name, m at level 100, k at level 200).
Notation "m1 ';;' m2" := (bind m1 (fun _ => m2))
  (at level 100, m2 at level 200, right associativity).

Definition lift {A} (r : error + A) : M A :=
  match r with
  | inl e => throw e
  | inr a => ret a
  end.

(** [Date.now()] and [new Date()]. *)
Definition Date_now : M Z := fun w => (inr (clock w), w).

(** One round trip to the database. *)
Definition roundtrip : M unit :=
  fun w =>
    match faults w with
    | [] => (inr tt, w)
    | None :: fs => (inr tt, World (db w) (clock w) fs)
    | Some e :: fs => (inl e, World (db w) (clock w) fs)
    end.

Definition docs_of (d : gmap string (list document)) (m : Model) : list document :=
  or_else (d !! modelName m) [].

Definition collection (m : Model) : M (list document) :=
  fun w => (inr (docs_of (db w) m), w).

Definition set_collection (m : Model) (l : list document) : M unit :=
  fun w => (inr tt, World (<[modelName m := l]> (db w)) (clock w) (faults w)).

(** Identifiers held by a list of documents. *)
Definition oid_of (d : document) : option N :=
  match d !! "_id" with
  | Some (VOid n) => Some n
  | _ => None
  end.

Definition has_id (n : N) (d : document) : bool :=
  bool_decide (d !! "_id" = Some (VOid n)).

Definition max_oid (l : list document) : N :=
  fold_right (fun d acc => N.max (or_else (oid_of d) 0%N) acc) 0%N l.

(** [new ObjectId()]: an identifier no stored document carries. *)
Definition ObjectId_new (m : Model) : M N :=
  fun w => (inr (N.succ (max_oid (docs_of (db w) m))), w).

(** ** Creating documents: [new Model(body)] and [save()] *)

Definition default_value (d : default_spec) (now : Z) (oid : N) : option value :=
  match d with
  | NoDefault => None
  | Default v => Some v
  | DefaultNow => Some (VDate now)
  | DefaultObjectId => Some (VOid oid)
  end.

Section Documents.
Context `{Host}.

(** The fields of a new document and the cast errors met while setting
    them: a path the body supplies is cast, a path it omits takes its
    default; keys that are not schema paths are dropped (strict mode). *)
Fixpoint hydrate (S : Schema) (body : gmap string js) (now : Z) (oid : N)
  : document * list (string * path_error) :=
  match S with
  | [] => (∅, [])
  | (p, st) :: S' =>
      let '(d, errs) := hydrate S' body now oid in
      match body !! p with
      | Some v =>
          match cast (type st) p v with
          | inr x => (<[p := x]> d, errs)
          | inl _ => (d, (p, CastFailed (instance_name (type st)) v) :: errs)
          end
      | None =>
          match default_value (default st) now oid with
          | Some x => (<[p := x]> d, errs)
          | None => (d, errs)
          end
      end
  end.

(** The [required] validator: absent, [null] and the empty string fail. *)
Definition checkRequired (v : option value) : bool :=
  match v with
  | None => false
  | Some VNull => false
  | Some (VStr s) => negb (String.eqb s "")
  | Some _ => true
  end.

(** The [enum] validator: [null] and [undefined] pass. *)
Definition enumValidator (vals : list string) (v : option value) : bool :=
  match v with
  | Some (VStr s) => existsb (String.eqb s) vals
  | _ => true
  end.

(** The validators of one path: [required] first, then [enum]. *)
Definition validate_path (p : string) (st : SchemaType) (v : option value)
  : list (string * path_error) :=
  if required st && negb (checkRequired v) then [(p, RequiredFailed)]
  else match enum st with
       | Some vals => if enumValidator vals v then [] else [(p, EnumFailed)]
       | None => []
       end.

Fixpoint validate (S : Schema) (d : document) : list (string * path_error) :=
  match S with
  | [] => []
  | (p, st) :: S' => (validate_path p st (d !! p) ++ validate S' d)%list
  end.

(** [new Model(body)]: the draft document with its pending cast errors. *)
Definition Model_new (m : Model) (body : gmap string js)
  : M (document * list (string * path_error)) :=
  let* now := Date_now in
  let* oid := ObjectId_new m in
  ret (hydrate (paths (schema m)) body now oid).

(** [doc.save()]: validation, then the [pre('save')] hook, then the
    insertion. *)
Definition save (m : Model) (draft : document * list (string * path_error))
  : M document :=
  let '(d, cast_errors) := draft in
  match (cast_errors ++ validate (paths (schema m)) d)%list with
  | _ :: _ as errs => throw (ValidationError errs)
  | [] =>
      let* now := Date_now in
      let this := pre_save m now d in
      match oid_of this with
      | None => throw (MongooseError "document must have an _id before saving")
      | Some n =>
          roundtrip ;;
          let* docs := collection m in
          if existsb (has_id n) docs then throw (MongoServerError DuplicateKey)
          else set_collection m (docs ++ [this])%list ;; ret this
      end
  end.
End Documents.

(** ** Queries, updates and deletions *)

(** A condition on one path of a query filter: a plain value (equality) or
    [{ $regex: pattern, $options: options }]. *)
Inductive cond : Type :=
| Equals (v : js)
| Regex (pattern options : string).

Inductive cast_cond : Type :=
| CEquals (v : value)
| CRegex (pattern options : string).

(** The order in which the server compares values of different types, and
    values within a type. *)
Definition bson_rank (v : value) : nat :=
  match v with
  | VNull => 0
  | VStr _ => 1
  | VOid _ => 2
  | VBool _ => 3
  | VDate _ => 4
  end.

Definition bson_compare (a b : value) : comparison :=
  match a, b with
  | VStr x, VStr y => String.compare x y
  | VOid x, VOid y => N.compare x y
  | VBool x, VBool y => Bool.compare x y
  | VDate x, VDate y => Z.compare x y
  | _, _ => Nat.compare (bson_rank a) (bson_rank b)
  end.

(** A field as the server sees it when sorting: a missing field is [null]. *)
Definition field (d : document) (p : string) : value :=
  or_else (d !! p) VNull.

(** Comparison of two documents under a sort specification such as
    [{ pinned: -1, createdAt: -1 }]. *)
Fixpoint compare_docs (spec : list (string * Z)) (a b : document) : comparison :=
  match spec with
  | [] => Eq
  | (p, dir) :: spec' =>
      match bson_compare (field a p) (field b p) with
      | Eq => compare_docs spec' a b
      | c => if (dir <? 0)%Z then CompOpp c else c
      end
  end.

Definition precedes (spec : list (string * Z)) (a b : document) : bool :=
  match compare_docs spec a b with
  | Gt => false
  | _ => true
  end.

Fixpoint insert_by {A} (le : A -> A -> bool) (x : A) (l : list A) : list A :=
  match l with
  | [] => [x]
  | y :: l' => if le x y then x :: y :: l' else y :: insert_by le x l'
  end.

(** Stable sort. *)
Definition sort_by {A} (le : A -> A -> bool) (l : list A) : list A :=
  fold_right (insert_by le) [] l.

Fixpoint update_first {A} (P : A -> bool) (f : A -> A) (l : list A) : list A :=
  match l with
  | [] => []
  | x :: l' => if P x then f x :: l' else x :: update_first P f l'
  end.

Fixpoint remove_first {A} (P : A -> bool) (l : list A) : list A :=
  match l with
  | [] => []
  | x :: l' => if P x then l' else x :: remove_first P l'
  end.

Section Queries.
Context `{Host}.

Definition cast_condition (i : instance) (p : string) (c : cond)
  : error + cast_cond :=
  match c with
  | Equals v =>
      match cast i p v with
      | inr x => inr (CEquals x)
      | inl e => inl e
      end
  | Regex pattern options =>
      match i with
      | SchemaString => inr (CRegex pattern options)
      | _ => inl (CastError (instance_name i) (JStr pattern) p)
      end
  end.

(** The conditions of a filter, cast path by path. *)
Fixpoint castFilter (S : Schema) (filter : gmap string cond)
  : error + list (string * cast_cond) :=
  match S with
  | [] => inr []
  | (p, st) :: S' =>
      match filter !! p with
      | None => castFilter S' filter
      | Some c =>
          match cast_condition (type st) p c with
          | inl e => inl e
          | inr c' =>
              match castFilter S' filter with
              | inl e => inl e
              | inr q => inr ((p, c') :: q)
              end
          end
      end
  end.

Definition satisfies (c : cast_cond) (v : option value) : bool :=
  match c with
  | CEquals x => bool_decide (or_else v VNull = x)
  | CRegex pattern options =>
      match v with
      | Some (VStr s) => regex_search pattern options s
      | _ => false
      end
  end.

Definition matches (q : list (string * cast_cond)) (d : document) : bool :=
  forallb (fun pc => satisfies (snd pc) (d !! fst pc)) q.

Definition accepted (q : list (string * cast_cond)) : bool :=
  forallb (fun pc => match snd pc with
                     | CRegex pattern options => regex_valid pattern options
                     | CEquals _ => true
                     end) q.

(** The documents of [m] that match [filter], as the server returns them. *)
Definition query (m : Model) (filter : gmap string cond) : M (list document) :=
  let* q := lift (castFilter (paths (schema m)) filter) in
  roundtrip ;;
  if accepted q then
    let* docs := collection m in
    ret (List.filter (matches q) docs)
  else throw (MongoServerError InvalidRegex).

(** [Model.find(filter).sort(spec)] *)
Definition find (m : Model) (filter : gmap string cond) (spec : list (string * Z))
  : M (list document) :=
  let* docs := query m filter in
  ret (sort_by (precedes spec) docs).

(** [Model.countDocuments(filter)] *)
Definition countDocuments (m : Model) (filter : gmap string cond) : M nat :=
  let* docs := query m filter in
  ret (length docs).

Definition castId (id : string) : error + N :=
  match ObjectId_of_string id with
  | Some n => inr n
  | None => inl (CastError "ObjectId" (JStr id) "_id")
  end.

(** [Model.findById(id)]: [None] is JavaScript's [null]. *)
Definition findById (m : Model) (id : string) : M (option document) :=
  let* n := lift (castId id) in
  roundtrip ;;
  let* docs := collection m in
  ret (List.find (has_id n) docs).

(** The fields of an update, cast path by path; keys that are not schema
    paths are dropped (strict mode). *)
Fixpoint castUpdate (S : Schema) (update : gmap string js) : error + document :=
  match S with
  | [] => inr ∅
  | (p, st) :: S' =>
      match update !! p with
      | None => castUpdate S' update
      | Some v =>
          match cast (type st) p v with
          | inl e => inl e
          | inr x =>
              match castUpdate S' update with
              | inl e => inl e
              | inr d => inr (<[p := x]> d)
              end
          end
      end
  end.

(** [Model.findByIdAndUpdate(id, update, { new: true })]: the fields of
    [update] are set on the first document with that identifier, without
    running the validators; the updated document is returned.  The server
    refuses a change of [_id]. *)
Definition findByIdAndUpdate (m : Model) (id : string) (update : gmap string js)
  : M (option document) :=
  let* n := lift (castId id) in
  let* set := lift (castUpdate (paths (schema m)) update) in
  roundtrip ;;
  let* docs := collection m in
  match List.find (has_id n) docs with
  | None => ret None
  | Some d =>
      if bool_decide (or_else (set !! "_id") (VOid n) = VOid n) then
        let d' := set ∪ d in
        set_collection m (update_first (has_id n) (fun _ => d') docs) ;;
        ret (Some d')
      else throw (MongoServerError ImmutableField)
  end.

(** [Model.findByIdAndDelete(id)]: removes and returns the first document
    with that identifier. *)
Definition findByIdAndDelete (m : Model) (id : string) : M (option document) :=
  let* n := lift (castId id) in
  roundtrip ;;
  let* docs := collection m in
  match List.find (has_id n) docs with
  | None => ret None
  | Some d => set_collection m (remove_first (has_id n) docs) ;; ret (Some d)
  end.
End Queries.

(** ** HTTP responses *)

(** The string sent under the [error] key: a literal of the handler, or
    [err.message] of the error it caught. *)
Inductive error_message : Type :=
| Text (s : string)
| message (err : error).

Record task_counts : Type := {
  total : nat;
  pending : nat;
  inProgress : nat;
  completed : nat
}.

Record priority_counts : Type := {
  high : nat;
  medium : nat;
  low : nat
}.

Record stats : Type := {
  tasks : task_counts;
  priority : priority_counts;
  categories : nat;
  notes : nat
}.

Inductive json : Type :=
| JsonDoc (d : document)
| JsonDocs (l : list document)
| JsonError (m : error_message)     (* { error: m } *)
| JsonMessage (s : string)          (* { message: s } *)
| JsonStats (s : stats).

Record response : Type := Response {
  status : nat;
  body : json
}.

(** [res.status(code).json(b)] and [res.json(b)]. *)
Definition res_status_json (code : nat) (b : json) : M response :=
  ret (Response code b).

Definition res_json (b : json) : M response := res_status_json 200 b.

(** A query-string parameter used as a value: [undefined] when absent. *)
Definition js_of_param (p : option string) : js :=
  match p with
  | Some s => JStr s
  | None => JNull
  end.

(** [Promise.all]: every promise runs; the result is the list of their
    values, or the error of the first one in the list that was rejected. *)
Fixpoint settle {A} (ps : list (M A)) (w : world) : list (error + A) * world :=
  match ps with
  | [] => ([], w)
  | p :: ps' =>
      let '(r, w1) := p w in
      let '(rs, w2) := settle ps' w1 in
      (r :: rs, w2)
  end.

Fixpoint fulfilled {A} (rs : list (error + A)) : error + list A :=
  match rs with
  | [] => inr []
  | inl e :: _ => inl e
  | inr a :: rs' =>
      match fulfilled rs' with
      | inl e => inl e
      | inr l => inr (a :: l)
      end
  end.

Definition Promise_all {A} (ps : list (M A)) : M (list A) :=
  fun w => let '(rs, w') := settle ps w in (fulfilled rs, w').

(** ** [src/routes/tasks.js] *)

Module TaskRoutes.
Section Routes.
Context `{Host}.

(** [router.get('/')] *)
Definition get_all (query : gmap string string) : M response :=
  try_catch
    (let filter : gmap string cond := ∅ in
     let filter :=
       if truthy (query !! "category")
       then <["category" := Equals (js_of_param (query !! "category"))]> filter
       else filter in
     let filter :=
       if truthy (query !! "status")
       then <["status" := Equals (js_of_param (query !! "status"))]> filter
       else filter in
     let filter :=
       if truthy (query !! "priority")
       then <["priority" := Equals (js_of_param (query !! "priority"))]> filter
       else filter in
     let filter :=
       if truthy (query !! "search")
       then <["title" := Regex (or_else (query !! "search") "") "i"]> filter
       else filter in
     let* tasks := find Task filter [("createdAt", (-1)%Z)] in
     res_json (JsonDocs tasks))
    (fun err => res_status_json 500 (JsonError (message err))).

(** [router.get('/:id')] *)
Definition get_by_id (id : string) : M response :=
  try_catch
    (let* task := findById Task id in
     match task with
     | None => res_status_json 404 (JsonError (Text "Task not found"))
     | Some task => res_json (JsonDoc task)
     end)
    (fun err => res_status_json 500 (JsonError (message err))).

(** [router.post('/')] *)
Definition post (body : gmap string js) : M response :=
  try_catch
    (let* task := Model_new Task body in
     let* task := save Task task in
     res_status_json 201 (JsonDoc task))
    (fun err => res_status_json 400 (JsonError (message err))).

(** [router.put('/:id')] *)
Definition put (id : string) (body : gmap string js) : M response :=
  try_catch
    (let* now := Date_now in
     let* task :=
       findByIdAndUpdate Task id (<["updatedAt" := JDate now]> body) in
     match task with
     | None => res_status_json 404 (JsonError (Text "Task not found"))
     | Some task => res_json (JsonDoc task)
     end)
    (fun err => res_status_json 400 (JsonError (message err))).

(** [router.delete('/:id')] *)
Definition delete (id : string) : M response :=
  try_catch
    (let* task := findByIdAndDelete Task id in
     match task with
     | None => res_status_json 404 (JsonError (Text "Task not found"))
     | Some _ => res_json (JsonMessage "Task deleted successfully")
     end)
    (fun err => res_status_json 500 (JsonError (message err))).
End Routes.
End TaskRoutes.

(** ** [src/routes/notes.js] *)

Module NoteRoutes.
Section Routes.
Context `{Host}.

(** [router.get('/')] *)
Definition get_all (query : gmap string string) : M response :=
  try_catch
    (let filter : gmap string cond := ∅ in
     let filter :=
       if truthy (query !! "taskId")
       then <["taskId" := Equals (js_of_param (query !! "taskId"))]> filter
       else filter in
     let filter :=
       if truthy (query !! "search")
       then <["content" := Regex (or_else (query !! "search") "") "i"]> filter
       else filter in
     let* notes :=
       find Note filter [("pinned", (-1)%Z); ("createdAt", (-1)%Z)] in
     res_json (JsonDocs notes))
    (fun err => res_status_json 500 (JsonError (message err))).

(** [router.get('/:id')] *)
Definition get_by_id (id : string) : M response :=
  try_catch
    (let* note := findById Note id in
     match note with
     | None => res_status_json 404 (JsonError (Text "Note not found"))
     | Some note => res_json (JsonDoc note)
     end)
    (fun err => res_status_json 500 (JsonError (message err))).

(** [router.post('/')] *)
Definition post (body : gmap string js) : M response :=
  try_catch
    (let* note := Model_new Note body in
     let* note := save Note note in
     res_status_json 201 (JsonDoc note))
    (fun err => res_status_json 400 (JsonError (message err))).

(** [router.put('/:id')] *)
Definition put (id : string) (body : gmap string js) : M response :=
  try_catch
    (let* now := Date_now in
     let* note :=
       findByIdAndUpdate Note id (<["updatedAt" := JDate now]> body) in
     match note with
     | None => res_status_json 404 (JsonError (Text "Note not found"))
     | Some note => res_json (JsonDoc note)
     end)
    (fun err => res_status_json 400 (JsonError (message err))).

(** [router.delete('/:id')] *)
Definition delete (id : string) : M response :=
  try_catch
    (let* note := findByIdAndDelete Note id in
     match note with
     | None => res_status_json 404 (JsonError (Text "Note not found"))
     | Some _ => res_json (JsonMessage "Note deleted successfully")
     end)
    (fun err => res_status_json 500 (JsonError (message err))).
End Routes.
End NoteRoutes.

(** ** [src/routes/stats.js] *)

Module StatsRoutes.
Section Routes.
Context `{Host}.

(** [router.get('/')] *)
Definition get : M response :=
  try_catch
    (let* counts := Promise_all [
         countDocuments Task ∅;
         countDocuments Task {["status" := Equals (JStr "pending")]};
         countDocuments Task {["status" := Equals (JStr "in-progress")]};
         countDocuments Task {["status" := Equals (JStr "completed")]};
         countDocuments Task {["priority" := Equals (JStr "high")]};
         countDocuments Task {["priority" := Equals (JStr "medium")]};
         countDocuments Task {["priority" := Equals (JStr "low")]};
         countDocuments Category ∅;
         countDocuments Note ∅
       ] in
     let totalTasks := nth 0 counts 0 in
     let pendingTasks := nth 1 counts 0 in
     let inProgressTasks := nth 2 counts 0 in
     let completedTasks := nth 3 counts 0 in
     let highPriority := nth 4 counts 0 in
     let mediumPriority := nth 5 counts 0 in
     let lowPriority := nth 6 counts 0 in
     let totalCategories := nth 7 counts 0 in
     let totalNotes := nth 8 counts 0 in
     res_json (JsonStats {|
       tasks := {| total := totalTasks;
                   pending := pendingTasks;
                   inProgress := inProgressTasks;
                   completed := completedTasks |};
       priority := {| high := highPriority;
                      medium := mediumPriority;
                      low := lowPriority |};
       categories := totalCategories;
       notes := totalNotes |}))
    (fun err => res_status_json 500 (JsonError (message err))).
End Routes.
End StatsRoutes.

(** ASCII lower case. *)
Definition lower (c : ascii) : ascii :=
  let n := N_of_ascii c in
  if ((65 <=? n) && (n <=? 90))%N then ascii_of_N (n + 32) else c.

(** ** A concrete host, to run the handlers on examples

    Identifiers are 24 hexadecimal digits; date strings are read in the
    ISO format [YYYY-MM-DDTHH:mm:ss.sssZ] that [JSON.stringify] writes;
    regular expressions are read in the fragment of literal characters and
    [.], and every other metacharacter is rejected. *)

Module Node.

Definition digit_of (base : N) (c : ascii) : option N :=
  let n := N_of_ascii c in
  let v :=
    if ((48 <=? n) && (n <=? 57))%N then Some (n - 48)%N
    else if ((97 <=? n) && (n <=? 102))%N then Some (n - 87)%N
    else if ((65 <=? n) && (n <=? 70))%N then Some (n - 55)%N
    else None in
  match v with
  | Some d => if (d <? base)%N then Some d else None
  | None => None
  end.

Fixpoint number_of (base : N) (acc : N) (s : string) : option N :=
  match s with
  | EmptyString => Some acc
  | String c s' =>
      match digit_of base c with
      | Some d => number_of base (acc * base + d)%N s'
      | None => None
      end
  end.

Definition parse_ObjectId (s : string) : option N :=
  if Nat.eqb (String.length s) 24 then number_of 16 0 s else None.

(** Days from 1970-01-01 to the civil date [y]-[m]-[d]. *)
Definition days_from_civil (y m d : Z) : Z :=
  let y := (if m <=? 2 then y - 1 else y)%Z in
  let era := (y / 400)%Z in
  let yoe := (y - era * 400)%Z in
  let doy := ((153 * (if 2 <? m then m - 3 else m + 9) + 2) / 5 + d - 1)%Z in
  let doe := (yoe * 365 + yoe / 4 - yoe / 100 + doy)%Z in
  (era * 146097 + doe - 719468)%Z.

(** The civil date ([year], [month], [day]) of a day count. *)
Definition civil_from_days (z : Z) : Z * Z * Z :=
  let z := (z + 719468)%Z in
  let era := (z / 146097)%Z in
  let doe := (z - era * 146097)%Z in
  let yoe := ((doe - doe / 1460 + doe / 36524 - doe / 146096) / 365)%Z in
  let doy := (doe - (365 * yoe + yoe / 4 - yoe / 100))%Z in
  let mp := ((5 * doy + 2) / 153)%Z in
  let d := (doy - (153 * mp + 2) / 5 + 1)%Z in
  let m := (if mp <? 10 then mp + 3 else mp - 9)%Z in
  let y := (yoe + era * 400 + (if m <=? 2 then 1 else 0))%Z in
  (y, m, d).

Definition is_leap (y : Z) : bool :=
  ((y mod 4 =? 0) && (negb (y mod 100 =? 0) || (y mod 400 =? 0)))%Z.

Definition days_in_month (y m : Z) : Z :=
  if (m =? 2)%Z then (if is_leap y then 29 else 28)%Z
  else if ((m =? 4) || (m =? 6) || (m =? 9) || (m =? 11))%Z then 30%Z
  else 31%Z.

Definition decimal (s : string) (from len : nat) : option Z :=
  match number_of 10 0 (String.substring from len s) with
  | Some n => Some (Z.of_N n)
  | None => None
  end.

Definition char_is (s : string) (i : nat) (c : string) : bool :=
  String.eqb (String.substring i 1 s) c.

Definition parse_Date (s : string) : option Z :=
  if Nat.eqb (String.length s) 24
     && char_is s 4 "-" && char_is s 7 "-" && char_is s 10 "T"
     && char_is s 13 ":" && char_is s 16 ":" && char_is s 19 "."
     && char_is s 23 "Z"
  then
    match decimal s 0 4, decimal s 5 2, decimal s 8 2,
          decimal s 11 2, decimal s 14 2, decimal s 17 2, decimal s 20 3 with
    | Some y, Some mo, Some d, Some h, Some mi, Some sec, Some ms =>
        if ((1 <=? mo) && (mo <=? 12) && (1 <=? d) && (d <=? days_in_month y mo)
            && (h <=? 23) && (mi <=? 59) && (sec <=? 59))%Z
        then Some ((((days_from_civil y mo d * 24 + h) * 60 + mi) * 60 + sec)
                   * 1000 + ms)%Z
        else None
    | _, _, _, _, _, _, _ => None
    end
  else None.

Definition digit_char (d : Z) : string :=
  String (ascii_of_N (Z.to_N (48 + d mod 10))) EmptyString.

Fixpoint digits (width : nat) (n : Z) : string :=
  match width with
  | O => ""
  | S w => digits w (n / 10) ++ digit_char n
  end.

Definition day_name (d : Z) : string :=
  nth (Z.to_nat d) ["Sun"; "Mon"; "Tue"; "Wed"; "Thu"; "Fri"; "Sat"] "".

Definition month_name (m : Z) : string :=
  nth (Z.to_nat (m - 1))
      ["Jan"; "Feb"; "Mar"; "Apr"; "May"; "Jun";
       "Jul"; "Aug"; "Sep"; "Oct"; "Nov"; "Dec"] "".

(** [Date.prototype.toString] of a server whose time zone is UTC, for years
    0 to 9999. *)
Definition show_Date (t : Z) : string :=
  let day := (t / 86400000)%Z in
  let ms := (t mod 86400000)%Z in
  let '(y, m, d) := civil_from_days day in
  day_name ((day + 4) mod 7) ++ " " ++ month_name m ++ " " ++ digits 2 d
  ++ " " ++ digits 4 y ++ " " ++ digits 2 (ms / 3600000) ++ ":"
  ++ digits 2 (ms / 60000 mod 60) ++ ":" ++ digits 2 (ms / 1000 mod 60)
  ++ " GMT+0000 (Coordinated Universal Time)".

Definition metacharacters : list ascii :=
  list_ascii_of_string "\^$.|?*+()[]{}".

Definition is_meta (c : ascii) : bool :=
  existsb (Ascii.eqb c) metacharacters.

Definition valid (pattern options : string) : bool :=
  forallb (fun c => negb (is_meta c) || Ascii.eqb c ".")
          (list_ascii_of_string pattern)
  && (String.eqb options "" || String.eqb options "i").

Definition char_matches (ci : bool) (p c : ascii) : bool :=
  if Ascii.eqb p "." then negb (Ascii.eqb c "010")
  else if ci then Ascii.eqb (lower p) (lower c)
  else Ascii.eqb p c.

Fixpoint matches_here (ci : bool) (p s : string) : bool :=
  match p, s with
  | EmptyString, _ => true
  | String _ _, EmptyString => false
  | String a p', String c s' => char_matches ci a c && matches_here ci p' s'
  end.

Fixpoint search_from (ci : bool) (p s : string) : bool :=
  matches_here ci p s
  || match s with
     | EmptyString => false
     | String _ s' => search_from ci p s'
     end.

Definition search (pattern options subject : string) : bool :=
  search_from (String.eqb options "i") pattern subject.

#[export] Instance host : Host := {|
  ObjectId_of_string := parse_ObjectId;
  Date_of_string := parse_Date;
  Date_toString := show_Date;
  regex_valid := valid;
  regex_search := search
|}.

End Node.

(** ** Vocabulary of the properties *)

(** [schema.path(p)]: the declaration of the path [p]. *)
Fixpoint Schema_path (S : Schema) (p : string) : option SchemaType :=
  match S with
  | [] => None
  | (q, st) :: S' => if String.eqb p q then Some st else Schema_path S' p
  end.

(** Every field of [o] that is a path of [S] can be cast to the type of
    that path. *)
Definition castable `{Host} (S : Schema) (o : gmap string js) : bool :=
  forallb (fun ps =>
             match o !! fst ps with
             | Some v =>
                 match cast (type (snd ps)) (fst ps) v with
                 | inr _ => true
                 | inl _ => false
                 end
             | None => true
             end) S.

(** A field of a request body that is left out, or is one of the strings
    [vals]. *)
Definition omitted_or_among (o : option js) (vals : list string) : Prop :=
  match o with
  | None => True
  | Some (JStr s) => In s vals
  | Some _ => False
  end.

(** A body from which [POST /notes] creates a note that is pinned or not,
    as [pinned] says, and that leaves [createdAt] to the server. *)
Definition note_body `{Host} (b : gmap string js) (pinned : bool) : Prop :=
  (exists content, b !! "content" = Some (JStr content) /\ content <> "")
  /\ b !! "_id" = None
  /\ b !! "createdAt" = None
  /\ castable (paths noteSchema) b = true
  /\ (b !! "pinned" = Some (JBool pinned)
      \/ (pinned = false /\ b !! "pinned" = None)).

(** The stored tasks and notes. *)
Definition tasks_of (d : gmap string (list document)) : list document :=
  docs_of d Task.

Definition notes_of (d : gmap string (list document)) : list document :=
  docs_of d Note.

Definition categories_of (d : gmap string (list document)) : list document :=
  docs_of d Category.

(** [x] is not after [y] in the order of the store. *)
Definition bson_le (x y : value) : Prop := bson_compare x y <> Gt.

Definition bson_lt (x y : value) : Prop := bson_compare x y = Lt.

(** [a] may come before [b] in a list ordered by [createdAt] descending. *)
Definition newest_first (a b : document) : Prop :=
  bson_le (field b "createdAt") (field a "createdAt").

(** [a] may come before [b] in a list ordered by [pinned] descending, then
    [createdAt] descending. *)
Definition pinned_then_newest (a b : document) : Prop :=
  bson_lt (field b "pinned") (field a "pinned")
  \/ (bson_compare (field a "pinned") (field b "pinned") = Eq
      /\ newest_first a b).

(** The filter [GET /tasks] builds from the query string. *)
Definition tasks_filter (query : gmap string string) : gmap string cond :=
  let filter : gmap string cond := ∅ in
  let filter :=
    if truthy (query !! "category")
    then <["category" := Equals (js_of_param (query !! "category"))]> filter
    else filter in
  let filter :=
    if truthy (query !! "status")
    then <["status" := Equals (js_of_param (query !! "status"))]> filter
    else filter in
  let filter :=
    if truthy (query !! "priority")
    then <["priority" := Equals (js_of_param (query !! "priority"))]> filter
    else filter in
  let filter :=
    if truthy (query !! "search")
    then <["title" := Regex (or_else (query !! "search") "") "i"]> filter
    else filter in
  filter.

(** An equality filter given as an optional query parameter: omitted or
    empty, it selects every document. *)
Definition selects_equal (p : option string) (v : option value) : bool :=
  match p with
  | Some s => if String.eqb s "" then true else bool_decide (v = Some (VStr s))
  | None => true
  end.

(** The search parameter read as a case-insensitive regular expression
    that must match somewhere in the title. *)
Definition selects_regex `{Host} (p : option string) (v : option value) : bool :=
  match p with
  | Some s =>
      if String.eqb s "" then true
      else match v with
           | Some (VStr title) => regex_search s "i" title
           | _ => false
           end
  | None => true
  end.

(** The tasks [GET /tasks] selects for the query [q]. *)
Definition selected `{Host} (q : gmap string string) (t : document) : bool :=
  selects_equal (q !! "category") (t !! "category")
  && selects_equal (q !! "status") (t !! "status")
  && selects_equal (q !! "priority") (t !! "priority")
  && selects_regex (q !! "search") (t !! "title").

Fixpoint starts_with_ci (sub s : string) : bool :=
  match sub, s with
  | EmptyString, _ => true
  | String _ _, EmptyString => false
  | String a sub', String c s' =>
      Ascii.eqb (lower a) (lower c) && starts_with_ci sub' s'
  end.

(** [s] contains [sub] as a substring, letter case ignored. *)
Fixpoint contains_ci (s sub : string) : bool :=
  starts_with_ci sub s
  || match s with
     | EmptyString => false
     | String _ s' => contains_ci s' sub
     end.

(** The search parameter read as a case-insensitive substring of the
    title. *)
Definition selects_substring (p : option string) (v : option value) : bool :=
  match p with
  | Some s =>
      if String.eqb s "" then true
      else match v with
           | Some (VStr title) => contains_ci title s
           | _ => false
           end
  | None => true
  end.

(** The tasks selected for the query [q] when the search is a substring
    search, as the specification describes it. *)
Definition selected_by_substring (q : gmap string string) (t : document) : bool :=
  selects_equal (q !! "category") (t !! "category")
  && selects_equal (q !! "status") (t !! "status")
  && selects_equal (q !! "priority") (t !! "priority")
  && selects_substring (q !! "search") (t !! "title").

(** Whether the search parameter, when supplied, is an expression the
    server accepts. *)
Definition search_accepted `{Host} (q : gmap string string) : bool :=
  match q !! "search" with
  | Some s => String.eqb s "" || regex_valid s "i"
  | None => true
  end.

(** Number of documents whose field [p] is the string [s]. *)
Definition count_where (p s : string) (l : list document) : nat :=
  length (List.filter (fun d => bool_decide (d !! p = Some (VStr s))) l).

(** The outcome of a round trip that yields [v] unless the store fails. *)
Definition outcome {A} (f : option (option error)) (v : A) : error + A :=
  match f with
  | Some (Some e) => inl e
  | _ => inr v
  end.

(** The outcomes of successive round trips that would yield [vs]. *)
Fixpoint outcomes {A} (fs : list (option error)) (vs : list A)
  : list (error + A) :=
  match vs with
  | [] => []
  | v :: vs' => outcome (head fs) v :: outcomes (tail fs) vs'
  end.

(** A store fault among the first [n] entries of the script. *)
Definition faulty (n : nat) (fs : list (option error)) : Prop :=
  Exists (fun f => f <> None) (firstn n fs).

Definition healthy (n : nat) (fs : list (option error)) : Prop :=
  Forall (fun f => f = None) (firstn n fs).

(** ** Example data *)

Module Examples.

Definition an_id : string := "507f1f77bcf86cd799439011".
Definition another_id : string := "507f191e810c19729de860ea".
Definition a_malformed_id : string := "invalid-id-format".

(** [an_id] as a number. *)
Definition an_oid : N := 24912482966938930280208240657%N.

(** A stored task, as [POST /tasks] with [{ title: "Write report" }]
    leaves it. *)
Definition a_task : document :=
  <["_id" := VOid an_oid]> (
  <["title" := VStr "Write report"]> (
  <["description" := VStr ""]> (
  <["category" := VStr "general"]> (
  <["priority" := VStr "medium"]> (
  <["status" := VStr "pending"]> (
  <["dueDate" := VNull]> (
  <["createdAt" := VDate 1700000000000]> (
  <["updatedAt" := VDate 1700000000000]> ∅)))))))).

Definition a_store : gmap string (list document) :=
  {[ "Task" := [a_task] ]}.

Definition later : Z := 1700000600000%Z.

End Examples.

(** * Further vocabulary

    Notions used by the further properties of the code. *)
(** No two documents of [l] carry the same [_id]. *)
Definition distinct_ids (l : list document) : Prop :=
  NoDup ((fun t : document => t !! "_id") <$> l).

(** The filter [GET /notes] builds from the query string. *)
Definition notes_filter (query : gmap string string) : gmap string cond :=
  let filter : gmap string cond := ∅ in
  let filter :=
    if truthy (query !! "taskId")
    then <["taskId" := Equals (js_of_param (query !! "taskId"))]> filter
    else filter in
  let filter :=
    if truthy (query !! "search")
    then <["content" := Regex (or_else (query !! "search") "") "i"]> filter
    else filter in
  filter.

(** The [taskId] filter given as an optional query parameter: omitted or
    empty, it selects every note; otherwise it selects the notes whose
    [taskId] is the identifier the parameter denotes. *)
Definition selects_taskId `{Host} (p : option string) (v : option value) : bool :=
  match p with
  | Some s =>
      if String.eqb s "" then true
      else match ObjectId_of_string s with
           | Some n => bool_decide (v = Some (VOid n))
           | None => false
           end
  | None => true
  end.

(** The notes [GET /notes] selects for the query [q]: the search string is
    a case-insensitive regular expression matched against the content. *)
Definition selected_note `{Host} (q : gmap string string) (t : document) : bool :=
  selects_taskId (q !! "taskId") (t !! "taskId")
  && selects_regex (q !! "search") (t !! "content").

(** Whether the [taskId] parameter, when supplied, is an identifier the
    store can parse. *)
Definition taskId_accepted `{Host} (q : gmap string string) : bool :=
  match q !! "taskId" with
  | Some s =>
      String.eqb s ""
      || match ObjectId_of_string s with
         | Some _ => true
         | None => false
         end
  | None => true
  end.

(** What a writing handler of the model [m] leaves behind: the other
    collections as they were, and distinct identifiers still distinct. *)
Definition well_kept (m : Model) (w w' : world) : Prop :=
  (forall k, k <> modelName m -> db w' !! k = db w !! k)
  /\ (distinct_ids (docs_of (db w) m) -> distinct_ids (docs_of (db w') m)).

(** A store that also holds a note. *)
Module Notebook.

Definition a_note_id : string := "64b7f0c2a1d3e4f5a6b7c8d9".

(** [a_note_id] as a number. *)
Definition a_note_oid : N := 31170871365409138629861165273%N.

(** A stored note, as [POST /notes] with [{ content: "Buy milk" }] leaves
    it. *)
Definition a_note : document :=
  <["_id" := VOid a_note_oid]> (
  <["taskId" := VNull]> (
  <["title" := VStr ""]> (
  <["content" := VStr "Buy milk"]> (
  <["color" := VStr "#ffffa5"]> (
  <["pinned" := VBool false]> (
  <["createdAt" := VDate 1700000000000]> (
  <["updatedAt" := VDate 1700000000000]> ∅))))))).

Definition a_notebook : gmap string (list document) :=
  <["Note" := [a_note]]> Examples.a_store.


Definition a_fault : error := MongoNetworkError "connection lost".

End Notebook.

(** * The browser-side cache: [public/js/modules/DataManager.js]

    The single-page application keeps the lists it has fetched in a
    [DataManager] and tells its subscribers about every change. *)
Module DataManager.

(** A cached item is an object parsed from a JSON response. *)
Definition item : Type := gmap string js.

(** A subscriber is a function object; [indexOf] compares such objects by
    identity, so it is represented by its name. *)
Definition callback : Type := nat.

(** A thrown [Error], by its message. *)
Definition exn : Type := string.

(** What [notify] passes to the subscribers. *)
Inductive data : Type :=
| Items (l : list item)
| Item (t : item)
| Id (id : string)
| Failure (type : string) (error : exn).

(** The fields of a [DataManager] that the methods below read or write
    ([stats] and [currentUser] are left alone by them). *)
Record t : Type := Make {
  tasks : list item;
  categories : list item;
  notes : list item;
  subscribers : gmap string (list callback)
}.

(** [constructor()] *)
Definition new : t := Make [] [] [] ∅.

Definition with_tasks (l : list item) (this : t) : t :=
  Make l (categories this) (notes this) (subscribers this).

Definition with_categories (l : list item) (this : t) : t :=
  Make (tasks this) l (notes this) (subscribers this).

Definition with_subscribers (s : gmap string (list callback)) (this : t) : t :=
  Make (tasks this) (categories this) (notes this) s.

(** [Array.prototype.indexOf] and [findIndex]: the first position, if any. *)
Fixpoint findIndex {A} (P : A -> bool) (l : list A) : option nat :=
  match l with
  | [] => None
  | x :: l' => if P x then Some 0 else S <$> findIndex P l'
  end.

Definition indexOf (cb : callback) (subs : list callback) : option nat :=
  findIndex (Nat.eqb cb) subs.

(** [unsubscribe(event, callback)]: removes the first registration of the
    callback, when there is one. *)
Definition unsubscribe (event : string) (cb : callback) (this : t) : t :=
  match subscribers this !! event with
  | Some subs =>
      match indexOf cb subs with
      | Some index =>
          with_subscribers (<[event := delete index subs]> (subscribers this))
                           this
      | None => this
      end
  | None => this
  end.

(** [subscribe(event, callback)]: appends the callback to the subscribers
    of the event and returns the function that unsubscribes it. *)
Definition subscribe (event : string) (cb : callback) (this : t)
  : (t -> t) * t :=
  let subs := or_else (subscribers this !! event) [] in
  (unsubscribe event cb,
   with_subscribers (<[event := (subs ++ [cb])%list]> (subscribers this)) this).

(** The subscribers of an event, in the order [notify] calls them. *)
Definition listeners (event : string) (this : t) : list callback :=
  or_else (subscribers this !! event) [].

(** [t._id === id || t.id === id], for a string [id]. *)
Definition goes_by (id : string) (t : item) : bool :=
  bool_decide (t !! "_id" = Some (JStr id))
  || bool_decide (t !! "id" = Some (JStr id)).

(** [getTaskById(id)], [getCategoryById(id)]: [None] is [undefined]. *)
Definition getTaskById (id : string) (this : t) : option item :=
  List.find (goes_by id) (tasks this).

Definition getCategoryById (id : string) (this : t) : option item :=
  List.find (goes_by id) (categories this).

(** A call made to a subscriber. *)
Definition call : Type := callback * data.

(** What a method leaves behind: its result or the error it throws, the
    DataManager, and the calls made to subscribers, in order. *)
Definition result (A : Type) : Type := (exn + A) * t * list call.

Section Methods.

(** What a subscriber does when it is called with some data: it returns
    ([None]) or throws.  Subscribers do not call back into the
    DataManager. *)
Variable run : callback -> data -> option exn.

(** [subs.forEach(callback => callback(data))]: stops at the first
    subscriber that throws. *)
Fixpoint forEach (subs : list callback) (d : data) : list call * option exn :=
  match subs with
  | [] => ([], None)
  | cb :: subs' =>
      match run cb d with
      | Some error => ([(cb, d)], Some error)
      | None => let (log, thrown) := forEach subs' d in ((cb, d) :: log, thrown)
      end
  end.

(** [notify(event, data)] *)
Definition notify (event : string) (d : data) (this : t)
  : list call * option exn :=
  match subscribers this !! event with
  | Some subs => forEach subs d
  | None => ([], None)
  end.

(** [catch (error) { this.notify('error', { type, error }); throw error; }],
    entered with the calls [log] already made. *)
Definition caught {A} (type : string) (error : exn) (this : t)
           (log : list call) : result A :=
  match notify "error" (Failure type error) this with
  | (log', Some error') => (inl error', this, (log ++ log')%list)
  | (log', None) => (inl error, this, (log ++ log')%list)
  end.

(** [loadTasks(filters)]; [response] is what [apiService.getTasks(filters)]
    settles to. *)
Definition loadTasks (response : exn + list item) (this : t)
  : result (list item) :=
  match response with
  | inl error => caught "loadTasks" error this []
  | inr l =>
      let this := with_tasks l this in
      match notify "tasksLoaded" (Items (tasks this)) this with
      | (log, Some error) => caught "loadTasks" error this log
      | (log, None) => (inr (tasks this), this, log)
      end
  end.

(** [createTask(data)]; [response] is what [apiService.createTask(data)]
    settles to. *)
Definition createTask (response : exn + item) (this : t) : result item :=
  match response with
  | inl error => caught "createTask" error this []
  | inr task =>
      let this := with_tasks (task :: tasks this) this in
      match notify "taskCreated" (Item task) this with
      | (log, Some error) => caught "createTask" error this log
      | (log, None) => (inr task, this, log)
      end
  end.

(** [updateTask(id, data)] *)
Definition updateTask (id : string) (response : exn + item) (this : t)
  : result item :=
  match response with
  | inl error => caught "updateTask" error this []
  | inr task =>
      let this :=
        match findIndex (goes_by id) (tasks this) with
        | Some index => with_tasks (<[index := task]> (tasks this)) this
        | None => this
        end in
      match notify "taskUpdated" (Item task) this with
      | (log, Some error) => caught "updateTask" error this log
      | (log, None) => (inr task, this, log)
      end
  end.

(** [deleteTask(id)] *)
Definition deleteTask (id : string) (response : exn + unit) (this : t)
  : result bool :=
  match response with
  | inl error => caught "deleteTask" error this []
  | inr _ =>
      let this :=
        with_tasks
          (List.filter
             (fun t : item =>
                negb (bool_decide (t !! "_id" = Some (JStr id)))
                && negb (bool_decide (t !! "id" = Some (JStr id))))
             (tasks this))
          this in
      match notify "taskDeleted" (Id id) this with
      | (log, Some error) => caught "deleteTask" error this log
      | (log, None) => (inr true, this, log)
      end
  end.

(** [createCategory(data)]: the new category goes last. *)
Definition createCategory (response : exn + item) (this : t) : result item :=
  match response with
  | inl error => caught "createCategory" error this []
  | inr category =>
      let this := with_categories (categories this ++ [category])%list this in
      match notify "categoryCreated" (Item category) this with
      | (log, Some error) => caught "createCategory" error this log
      | (log, None) => (inr category, this, log)
      end
  end.

End Methods.

End DataManager.

(** A DataManager with subscribers and cached tasks. *)
Module Browser.

Definition one_subscriber : DataManager.t :=
  (DataManager.subscribe "taskCreated" 7 DataManager.new).2.

Definition two_subscribers : DataManager.t :=
  (DataManager.subscribe "taskCreated" 8 one_subscriber).2.

(** A task as the API returns it. *)
Definition a_cached_task : DataManager.item :=
  <["_id" := JStr Examples.an_id]> {[ "title" := JStr "Write report" ]}.

Definition a_newer_task : DataManager.item :=
  <["_id" := JStr Examples.an_id]> {[ "title" := JStr "Write the report" ]}.

Definition another_task : DataManager.item :=
  <["_id" := JStr Examples.another_id]> {[ "title" := JStr "Review" ]}.

Definition a_cache : DataManager.t :=
  DataManager.with_tasks [another_task; a_cached_task] two_subscribers.

(** Subscriber 8 throws on whatever it is given; the others return. *)
Definition run (cb : DataManager.callback) (d : DataManager.data)
  : option DataManager.exn :=
  if Nat.eqb cb 8 then Some "subscriber failed" else None.

(** Every subscriber returns. *)
Definition quiet (cb : DataManager.callback) (d : DataManager.data)
  : option DataManager.exn := None.

End Browser.

(** * Properties *)

(** ** Sorting *)

Section Sorting.
Context {A : Type} (le : A -> A -> bool).

Lemma insert_by_perm (x : A) (l : list A) :
  Permutation (insert_by le x l) (x :: l).
Proof.
  induction l as [|y l IH]; simpl; [reflexivity|].
  destruct (le x y); [reflexivity|].
  rewrite IH. apply perm_swap.
Qed.

Lemma sort_by_perm (l : list A) : Permutation (sort_by le l) l.
Proof.
  induction l as [|x l IH]; simpl; [constructor|].
  etransitivity; [apply insert_by_perm|]. now constructor.
Qed.

Hypothesis le_total : forall a b, le a b = false -> le b a = true.

Lemma insert_by_sorted (x : A) (l : list A) :
  Sorted (fun a b => le a b = true) l ->
  Sorted (fun a b => le a b = true) (insert_by le x l).
Proof.
  induction l as [|y l IH]; simpl; intros Hs.
  - repeat constructor.
  - destruct (le x y) eqn:Hxy.
    + constructor; [assumption|]. now constructor.
    + apply Sorted_inv in Hs as [Hs Hhd].
      constructor; [now apply IH|].
      destruct l as [|z l]; simpl.
      * constructor. now apply le_total.
      * destruct (le x z); constructor.
        -- now apply le_total.
        -- now inversion Hhd.
Qed.

Lemma sort_by_sorted (l : list A) :
  Sorted (fun a b => le a b = true) (sort_by le l).
Proof.
  induction l as [|x l IH]; simpl; [constructor|].
  now apply insert_by_sorted.
Qed.
End Sorting.

Lemma Sorted_impl {A} (R1 R2 : A -> A -> Prop) (l : list A) :
  (forall a b, R1 a b -> R2 a b) -> Sorted R1 l -> Sorted R2 l.
Proof.
  intros HR. induction 1 as [|x l Hs IH Hhd]; constructor; [assumption|].
  destruct Hhd; constructor. now apply HR.
Qed.

Lemma bool_compare_antisym (x y : bool) :
  Bool.compare x y = CompOpp (Bool.compare y x).
Proof. now destruct x, y. Qed.

Lemma bson_compare_antisym (a b : value) :
  bson_compare a b = CompOpp (bson_compare b a).
Proof.
  destruct a, b; simpl; try reflexivity.
  - apply String.compare_antisym.
  - apply N.compare_antisym.
  - apply bool_compare_antisym.
  - apply Z.compare_antisym.
Qed.

Lemma compare_docs_antisym (spec : list (string * Z)) (a b : document) :
  compare_docs spec a b = CompOpp (compare_docs spec b a).
Proof.
  induction spec as [|[p dir] spec IH]; simpl; [reflexivity|].
  rewrite (bson_compare_antisym (field a p) (field b p)).
  destruct (bson_compare (field b p) (field a p)); simpl;
    [assumption| |]; now destruct (dir <? 0)%Z.
Qed.

Lemma precedes_total (spec : list (string * Z)) (a b : document) :
  precedes spec a b = false -> precedes spec b a = true.
Proof.
  unfold precedes. rewrite (compare_docs_antisym spec b a).
  now destruct (compare_docs spec a b).
Qed.

Lemma precedes_createdAt (a b : document) :
  precedes [("createdAt", (-1)%Z)] a b = true -> newest_first a b.
Proof.
  unfold precedes, newest_first, bson_le. simpl.
  rewrite (bson_compare_antisym (field b "createdAt")).
  now destruct (bson_compare (field a "createdAt") (field b "createdAt")).
Qed.

Lemma precedes_pinned_createdAt (a b : document) :
  precedes [("pinned", (-1)%Z); ("createdAt", (-1)%Z)] a b = true ->
  pinned_then_newest a b.
Proof.
  unfold precedes, pinned_then_newest, newest_first, bson_le, bson_lt. simpl.
  rewrite (bson_compare_antisym (field b "pinned")).
  rewrite (bson_compare_antisym (field b "createdAt")).
  destruct (bson_compare (field a "pinned") (field b "pinned")); simpl.
  - destruct (bson_compare (field a "createdAt") (field b "createdAt"));
      simpl; intros Hc; try discriminate; right; split; congruence.
  - discriminate.
  - intros _. now left.
Qed.

Lemma sort_newest_first (l : list document) :
  Sorted newest_first (sort_by (precedes [("createdAt", (-1)%Z)]) l).
Proof.
  eapply Sorted_impl; [apply precedes_createdAt|].
  apply sort_by_sorted, precedes_total.
Qed.

Lemma sort_pinned_then_newest (l : list document) :
  Sorted pinned_then_newest
         (sort_by (precedes [("pinned", (-1)%Z); ("createdAt", (-1)%Z)]) l).
Proof.
  eapply Sorted_impl; [apply precedes_pinned_createdAt|].
  apply sort_by_sorted, precedes_total.
Qed.

(** ** Running store operations on a reachable store *)

(** Unfolds the monad and the accessors of the world, and nothing of the
    store operations themselves. *)
Ltac run :=
  cbv beta iota zeta delta
      [bind lift ret throw try_catch roundtrip collection set_collection
       Date_now online faults db clock res_status_json res_json].

Section Store.
Context `{Host}.

Lemma castId_Some (id : string) (n : N) :
  ObjectId_of_string id = Some n -> castId id = inr n.
Proof. unfold castId. now intros ->. Qed.

Lemma castId_None (id : string) :
  ObjectId_of_string id = None ->
  castId id = inl (CastError "ObjectId" (JStr id) "_id").
Proof. unfold castId. now intros ->. Qed.

Lemma find_has_id_None (n : N) (l : list document) :
  Forall (fun t : document => t !! "_id" <> Some (VOid n)) l ->
  List.find (has_id n) l = None.
Proof.
  induction 1 as [|t l Ht _ IH]; simpl; [reflexivity|].
  unfold has_id at 1. now rewrite bool_decide_eq_false_2.
Qed.

Lemma castUpdate_castable (S : Schema) (u : gmap string js) :
  castable S u = true -> exists set, castUpdate S u = inr set.
Proof.
  induction S as [|[p st] S IH]; simpl; [now eexists|].
  destruct (u !! p) as [v|]; simpl.
  - destruct (cast (type st) p v); [discriminate|].
    intros [set ->]%IH. now eexists.
  - exact IH.
Qed.

Lemma findById_online (m : Model) (id : string) (n : N)
      (d : gmap string (list document)) (now : Z) :
  ObjectId_of_string id = Some n ->
  findById m id (online d now)
  = (inr (List.find (has_id n) (docs_of d m)), online d now).
Proof.
  intros Hid. unfold findById. rewrite (castId_Some _ _ Hid). now run.
Qed.

Lemma findById_malformed (m : Model) (id : string) (w : world) :
  ObjectId_of_string id = None ->
  findById m id w = (inl (CastError "ObjectId" (JStr id) "_id"), w).
Proof.
  intros Hid. unfold findById. rewrite (castId_None _ Hid). now run.
Qed.

Lemma findByIdAndDelete_malformed (m : Model) (id : string) (w : world) :
  ObjectId_of_string id = None ->
  findByIdAndDelete m id w = (inl (CastError "ObjectId" (JStr id) "_id"), w).
Proof.
  intros Hid. unfold findByIdAndDelete. rewrite (castId_None _ Hid).
  now run.
Qed.

Lemma findByIdAndUpdate_malformed (m : Model) (id : string)
      (u : gmap string js) (w : world) :
  ObjectId_of_string id = None ->
  findByIdAndUpdate m id u w
  = (inl (CastError "ObjectId" (JStr id) "_id"), w).
Proof.
  intros Hid. unfold findByIdAndUpdate. rewrite (castId_None _ Hid).
  now run.
Qed.

Lemma findByIdAndDelete_absent (m : Model) (id : string) (n : N)
      (d : gmap string (list document)) (now : Z) :
  ObjectId_of_string id = Some n ->
  List.find (has_id n) (docs_of d m) = None ->
  findByIdAndDelete m id (online d now) = (inr None, online d now).
Proof.
  intros Hid Hfind. unfold findByIdAndDelete.
  rewrite (castId_Some _ _ Hid). run. now rewrite Hfind.
Qed.

Lemma findByIdAndUpdate_absent (m : Model) (id : string) (n : N)
      (u : gmap string js) (d : gmap string (list document)) (now : Z) :
  ObjectId_of_string id = Some n ->
  castable (paths (schema m)) u = true ->
  List.find (has_id n) (docs_of d m) = None ->
  findByIdAndUpdate m id u (online d now) = (inr None, online d now).
Proof.
  intros Hid [set Hset]%castUpdate_castable Hfind.
  unfold findByIdAndUpdate.
  rewrite (castId_Some _ _ Hid), Hset. run. now rewrite Hfind.
Qed.

(** An update on a stored document: every field of the cast update is
    set, the other fields are kept, and the first document with the
    identifier is replaced in place. *)
Lemma findByIdAndUpdate_found (m : Model) (id : string) (n : N)
      (u : gmap string js) (set t : document)
      (d : gmap string (list document)) (now : Z) :
  ObjectId_of_string id = Some n ->
  castUpdate (paths (schema m)) u = inr set ->
  set !! "_id" = None ->
  List.find (has_id n) (docs_of d m) = Some t ->
  findByIdAndUpdate m id u (online d now)
  = (inr (Some (set ∪ t)),
     online (<[modelName m :=
                 update_first (has_id n) (fun _ => set ∪ t) (docs_of d m)]> d)
            now).
Proof.
  intros Hid Hset Hno Hfind. unfold findByIdAndUpdate.
  rewrite (castId_Some _ _ Hid), Hset. run.
  rewrite Hfind, Hno. unfold or_else.
  now rewrite bool_decide_eq_true_2.
Qed.
End Store.

(** ** C1: identifiers and status codes *)

(** C1.  For a Task identifier the store cannot parse, [GET /tasks/:id] and
    [DELETE /tasks/:id] answer 500 with an [error] body, and
    [PUT /tasks/:id] answers 400 with an [error] body, whatever its body.
    For an identifier that parses and that no stored Task carries, the three
    answer 404 with [{ error: "Task not found" }]; for [PUT] this is so
    whenever the fields of the update can be cast to the schema.  Nothing is
    written in any of these cases. *)
Theorem C1_identifier_status `{Host}
        (d : gmap string (list document)) (now : Z) (id : string) :
  (ObjectId_of_string id = None ->
     (exists m, TaskRoutes.get_by_id id (online d now)
                = (inr (Response 500 (JsonError m)), online d now))
     /\ (exists m, TaskRoutes.delete id (online d now)
                   = (inr (Response 500 (JsonError m)), online d now))
     /\ (forall body, exists m,
            TaskRoutes.put id body (online d now)
            = (inr (Response 400 (JsonError m)), online d now)))
  /\ (forall n,
        ObjectId_of_string id = Some n ->
        Forall (fun t : document => t !! "_id" <> Some (VOid n)) (tasks_of d) ->
        TaskRoutes.get_by_id id (online d now)
        = (inr (Response 404 (JsonError (Text "Task not found"))), online d now)
        /\ TaskRoutes.delete id (online d now)
           = (inr (Response 404 (JsonError (Text "Task not found"))),
              online d now)
        /\ (forall body,
              castable (paths taskSchema) (<["updatedAt" := JDate now]> body)
              = true ->
              TaskRoutes.put id body (online d now)
              = (inr (Response 404 (JsonError (Text "Task not found"))),
                 online d now))).
Proof.
  split.
  - intros Hid. repeat split.
    + eexists. unfold TaskRoutes.get_by_id, try_catch, bind.
      rewrite (findById_malformed _ _ _ Hid). reflexivity.
    + eexists. unfold TaskRoutes.delete, try_catch, bind.
      rewrite (findByIdAndDelete_malformed _ _ _ Hid). reflexivity.
    + intros body. eexists. unfold TaskRoutes.put, try_catch, bind, Date_now.
      rewrite (findByIdAndUpdate_malformed _ _ _ _ Hid). reflexivity.
  - intros n Hid Habs. apply find_has_id_None in Habs. repeat split.
    + unfold TaskRoutes.get_by_id, try_catch, bind.
      rewrite (findById_online _ _ _ _ _ Hid). unfold tasks_of in Habs.
      now rewrite Habs.
    + unfold TaskRoutes.delete, try_catch, bind.
      now rewrite (findByIdAndDelete_absent _ _ _ _ _ Hid Habs).
    + intros body Hbody. unfold TaskRoutes.put, try_catch, bind, Date_now.
      now rewrite (findByIdAndUpdate_absent Task _ _ _ _ _ Hid Hbody Habs).
Qed.

Lemma C1_identifier_status_witness :
  (exists m, TaskRoutes.get_by_id (H := Node.host) Examples.a_malformed_id
                                  (online Examples.a_store Examples.later)
             = (inr (Response 500 (JsonError m)),
                online Examples.a_store Examples.later))
  /\ TaskRoutes.put (H := Node.host) Examples.another_id
                    {[ "title" := JStr "Updated" ]}
                    (online Examples.a_store Examples.later)
     = (inr (Response 404 (JsonError (Text "Task not found"))),
        online Examples.a_store Examples.later).
Proof.
  split.
  - apply (C1_identifier_status (H := Node.host) Examples.a_store
             Examples.later Examples.a_malformed_id).
    vm_compute. reflexivity.
  - eapply (C1_identifier_status (H := Node.host) Examples.a_store
              Examples.later Examples.another_id).
    + vm_compute. reflexivity.
    + repeat constructor. intros Heq. vm_compute in Heq. discriminate.
    + vm_compute. reflexivity.
Defined.

(** ** Casting updates and hydrating documents, path by path *)

Section Paths.
Context `{Host}.

Lemma castUpdate_lookup_None (S : Schema) (u : gmap string js)
      (set : document) (p : string) :
  castUpdate S u = inr set -> u !! p = None -> set !! p = None.
Proof.
  revert set. induction S as [|[q st] S IH]; simpl; intros set Hc Hp.
  - injection Hc as <-. apply lookup_empty.
  - destruct (u !! q) as [v|] eqn:Hq; [|now apply IH].
    destruct (cast (type st) q v) as [|x]; [discriminate|].
    destruct (castUpdate S u) as [|set']; [discriminate|].
    injection Hc as <-.
    rewrite lookup_insert_ne; [now apply IH|].
    intros ->. congruence.
Qed.

Lemma castUpdate_lookup_Some (S : Schema) (u : gmap string js)
      (set : document) (p : string) (st : SchemaType) (v : js) :
  castUpdate S u = inr set ->
  Schema_path S p = Some st ->
  u !! p = Some v ->
  exists x, cast (type st) p v = inr x /\ set !! p = Some x.
Proof.
  revert set. induction S as [|[q st'] S IH]; simpl; intros set Hc Hs Hp;
    [discriminate|].
  destruct (String.eqb_spec p q) as [->|Hne].
  - injection Hs as ->. rewrite Hp in Hc.
    destruct (cast (type st) q v) as [|x]; [discriminate|].
    destruct (castUpdate S u) as [|set']; [discriminate|].
    injection Hc as <-. exists x. split; [reflexivity|].
    apply lookup_insert_eq.
  - destruct (u !! q) as [w|] eqn:Hq; [|now apply IH].
    destruct (cast (type st') q w) as [|y]; [discriminate|].
    destruct (castUpdate S u) as [|set']; [discriminate|].
    injection Hc as <-.
    destruct (IH set' eq_refl Hs Hp) as (x & Hx & Hl).
    exists x. split; [assumption|].
    rewrite lookup_insert_ne; [assumption|congruence].
Qed.

Lemma hydrate_fresh (S : Schema) (body : gmap string js) (now : Z) (oid : N)
      (p : string) :
  p ∉ S.*1 -> (hydrate S body now oid).1 !! p = None.
Proof.
  induction S as [|[q st] S IH]; simpl; [intros _; apply lookup_empty|].
  rewrite not_elem_of_cons. intros [Hne Hnin]. specialize (IH Hnin).
  destruct (hydrate S body now oid) as [d errs]. simpl in IH.
  destruct (body !! q) as [v|].
  - destruct (cast (type st) q v); simpl; [assumption|].
    now rewrite lookup_insert_ne.
  - destruct (default_value (default st) now oid); simpl; [|assumption].
    now rewrite lookup_insert_ne.
Qed.

(** A field of a new document: the cast of what the body supplies for the
    path, or else the default of the path. *)
Lemma hydrate_lookup (S : Schema) (body : gmap string js) (now : Z) (oid : N)
      (p : string) (st : SchemaType) :
  NoDup S.*1 ->
  Schema_path S p = Some st ->
  (hydrate S body now oid).1 !! p
  = match body !! p with
    | Some v => match cast (type st) p v with
                | inr x => Some x
                | inl _ => None
                end
    | None => default_value (default st) now oid
    end.
Proof.
  induction S as [|[q st'] S IH]; simpl; [discriminate|].
  rewrite NoDup_cons. intros [Hnin Hnd].
  destruct (String.eqb_spec p q) as [->|Hne].
  - intros [= ->].
    pose proof (hydrate_fresh S body now oid q Hnin) as Hfresh.
    destruct (hydrate S body now oid) as [d errs]. simpl in Hfresh.
    destruct (body !! q) as [v|].
    + destruct (cast (type st) q v); simpl; [assumption|].
      apply lookup_insert_eq.
    + destruct (default_value (default st) now oid); simpl; [|assumption].
      apply lookup_insert_eq.
  - intros Hs. specialize (IH Hnd Hs).
    destruct (hydrate S body now oid) as [d errs]. simpl in IH.
    destruct (body !! q) as [v|].
    + destruct (cast (type st') q v); simpl; [assumption|].
      now rewrite lookup_insert_ne.
    + destruct (default_value (default st') now oid); simpl; [|assumption].
      now rewrite lookup_insert_ne.
Qed.

(** A body whose fields can all be cast leaves no cast error. *)
Lemma hydrate_castable (S : Schema) (body : gmap string js) (now : Z)
      (oid : N) :
  castable S body = true -> (hydrate S body now oid).2 = [].
Proof.
  induction S as [|[q st] S IH]; simpl; [reflexivity|].
  rewrite andb_true_iff. intros [Hq HS]. specialize (IH HS).
  destruct (hydrate S body now oid) as [d errs]. simpl in IH.
  destruct (body !! q) as [v|].
  - now destruct (cast (type st) q v).
  - now destruct (default_value (default st) now oid).
Qed.

Lemma hydrate_errors_castable (S : Schema) (body : gmap string js) (now : Z)
      (oid : N) :
  (hydrate S body now oid).2 = [] -> castable S body = true.
Proof.
  induction S as [|[q st] S IH]; simpl; [reflexivity|].
  destruct (hydrate S body now oid) as [d errs]. simpl in IH.
  destruct (body !! q) as [v|].
  - destruct (cast (type st) q v); simpl; [discriminate|].
    intros ->. now rewrite IH.
  - destruct (default_value (default st) now oid); simpl;
      intros ->; now rewrite IH.
Qed.

Lemma taskSchema_NoDup : NoDup (paths taskSchema).*1.
Proof. compute_done. Qed.

Lemma noteSchema_NoDup : NoDup (paths noteSchema).*1.
Proof. compute_done. Qed.
End Paths.

(** ** Updating a stored task *)

Section Update.
Context `{Host}.

Lemma docs_of_insert (d : gmap string (list document)) (m : Model)
      (l : list document) :
  docs_of (<[modelName m := l]> d) m = l.
Proof. unfold docs_of. now rewrite lookup_insert_eq. Qed.

Lemma find_update_first {A} (P : A -> bool) (l : list A) (x y : A) :
  List.find P l = Some x -> P y = true ->
  List.find P (update_first P (fun _ => y) l) = Some y.
Proof.
  intros Hfind Hy. induction l as [|z l IH]; simpl in *; [discriminate|].
  destruct (P z) eqn:Hz; simpl.
  - now rewrite Hy.
  - rewrite Hz. now apply IH.
Qed.

Lemma find_has_id (n : N) (l : list document) (t : document) :
  List.find (has_id n) l = Some t -> t !! "_id" = Some (VOid n).
Proof.
  intros [_ Hid]%find_some. unfold has_id in Hid.
  now apply bool_decide_eq_true_1 in Hid.
Qed.

(** [PUT /tasks/:id] on a stored task whose update casts: the answer is
    200 with the merged document, which replaces the stored one. *)
Lemma put_found (d : gmap string (list document)) (now : Z) (id : string)
      (n : N) (t : document) (body : gmap string js) :
  ObjectId_of_string id = Some n ->
  List.find (has_id n) (tasks_of d) = Some t ->
  body !! "_id" = None ->
  castable (paths taskSchema) (<["updatedAt" := JDate now]> body) = true ->
  exists set,
    castUpdate (paths taskSchema) (<["updatedAt" := JDate now]> body)
    = inr set
    /\ set !! "_id" = None
    /\ set !! "updatedAt" = Some (VDate now)
    /\ List.find (has_id n)
                 (tasks_of (<["Task" := update_first (has_id n)
                                          (fun _ => set ∪ t) (tasks_of d)]> d))
       = Some (set ∪ t)
    /\ TaskRoutes.put id body (online d now)
       = (inr (Response 200 (JsonDoc (set ∪ t))),
          online (<["Task" := update_first (has_id n) (fun _ => set ∪ t)
                                           (tasks_of d)]> d) now).
Proof.
  intros Hid Hfind Hno Hcast.
  destruct (castUpdate_castable _ _ Hcast) as [set Hset].
  assert (Hset_id : set !! "_id" = None).
  { apply (castUpdate_lookup_None _ _ _ _ Hset).
    now rewrite lookup_insert_ne. }
  exists set. split; [assumption|]. split; [assumption|]. split; [|split].
  - destruct (castUpdate_lookup_Some _ _ _ "updatedAt" _ (JDate now) Hset
                eq_refl) as (x & Hx & Hl).
    + apply lookup_insert_eq.
    + injection Hx as <-. exact Hl.
  - unfold tasks_of at 1. rewrite (docs_of_insert d Task).
    apply (find_update_first _ _ t); [assumption|].
    unfold has_id. apply bool_decide_eq_true_2.
    rewrite lookup_union_r by assumption. now apply (find_has_id n (tasks_of d)).
  - unfold TaskRoutes.put, try_catch, bind, Date_now.
    now rewrite (findByIdAndUpdate_found Task _ _ _ _ _ _ _ Hid Hset Hset_id
                   Hfind).
Qed.
End Update.

(** ** C2: the update path does not validate enums *)

(** C2.  For every stored Task, a [PUT /tasks/:id] whose body sets
    [priority] to a string [v] — such as ["invalid-priority"], outside
    low, medium and high — answers 200, and the returned document, which is
    also the stored one afterwards, carries [v] as its priority.  The body
    does not touch [_id] and its other fields can be cast to the schema. *)
Theorem C2_update_keeps_invalid_priority `{Host}
        (d : gmap string (list document)) (now : Z) (id : string) (n : N)
        (t : document) (body : gmap string js) (v : string) :
  ObjectId_of_string id = Some n ->
  List.find (has_id n) (tasks_of d) = Some t ->
  body !! "priority" = Some (JStr v) ->
  body !! "_id" = None ->
  castable (paths taskSchema) (<["updatedAt" := JDate now]> body) = true ->
  exists t' d',
    TaskRoutes.put id body (online d now)
    = (inr (Response 200 (JsonDoc t')), online d' now)
    /\ t' !! "priority" = Some (VStr v)
    /\ List.find (has_id n) (tasks_of d') = Some t'.
Proof.
  intros Hid Hfind Hprio Hno Hcast.
  destruct (put_found d now id n t body Hid Hfind Hno Hcast)
    as (set & Hset & _ & _ & Hstored & Hput).
  eexists _, _. split; [exact Hput|]. split; [|exact Hstored].
  destruct (castUpdate_lookup_Some _ _ _ "priority" _ (JStr v) Hset eq_refl)
    as (x & Hx & Hl).
  - now rewrite lookup_insert_ne.
  - injection Hx as <-. now apply lookup_union_Some_l.
Qed.

Lemma C2_update_keeps_invalid_priority_witness :
  exists t' d',
    TaskRoutes.put (H := Node.host) Examples.an_id
                   {[ "priority" := JStr "invalid-priority" ]}
                   (online Examples.a_store Examples.later)
    = (inr (Response 200 (JsonDoc t')), online d' Examples.later)
    /\ t' !! "priority" = Some (VStr "invalid-priority")
    /\ List.find (has_id Examples.an_oid) (tasks_of d') = Some t'.
Proof.
  apply (C2_update_keeps_invalid_priority (H := Node.host) Examples.a_store
           Examples.later Examples.an_id Examples.an_oid Examples.a_task).
  - vm_compute. reflexivity.
  - vm_compute. reflexivity.
  - vm_compute. reflexivity.
  - vm_compute. reflexivity.
  - vm_compute. reflexivity.
Defined.

(** ** C10: the update path overwrites [createdAt] and forces [updatedAt] *)

(** C10.  For every stored Task, a [PUT /tasks/:id] whose body includes a
    [createdAt] value overwrites the stored [createdAt] with that value,
    cast to a date, whereas [updatedAt] is set to the server's current time
    whatever the body supplies for it. *)
Theorem C10_update_overwrites_createdAt `{Host}
        (d : gmap string (list document)) (now : Z) (id : string) (n : N)
        (t : document) (body : gmap string js) (v : js) :
  ObjectId_of_string id = Some n ->
  List.find (has_id n) (tasks_of d) = Some t ->
  body !! "createdAt" = Some v ->
  body !! "_id" = None ->
  castable (paths taskSchema) (<["updatedAt" := JDate now]> body) = true ->
  exists t' d' x,
    TaskRoutes.put id body (online d now)
    = (inr (Response 200 (JsonDoc t')), online d' now)
    /\ castDate v = Some x
    /\ t' !! "createdAt" = Some x
    /\ t' !! "updatedAt" = Some (VDate now)
    /\ List.find (has_id n) (tasks_of d') = Some t'.
Proof.
  intros Hid Hfind Hcreated Hno Hcast.
  destruct (put_found d now id n t body Hid Hfind Hno Hcast)
    as (set & Hset & _ & Hupd & Hstored & Hput).
  destruct (castUpdate_lookup_Some _ _ _ "createdAt" _ v Hset eq_refl)
    as (x & Hx & Hl).
  { now rewrite lookup_insert_ne. }
  eexists (set ∪ t), _, x. split; [exact Hput|].
  split; [|split; [|split]].
  - unfold cast in Hx. simpl in Hx. now destruct (castDate v); inversion Hx.
  - now apply lookup_union_Some_l.
  - now apply lookup_union_Some_l.
  - exact Hstored.
Qed.

Lemma C10_update_overwrites_createdAt_witness :
  exists t' d' x,
    TaskRoutes.put (H := Node.host) Examples.an_id
                   (<["createdAt" := JStr "2000-01-01T00:00:00.000Z"]>
                      {[ "updatedAt" := JStr "1999-12-31T00:00:00.000Z" ]})
                   (online Examples.a_store Examples.later)
    = (inr (Response 200 (JsonDoc t')), online d' Examples.later)
    /\ castDate (H := Node.host) (JStr "2000-01-01T00:00:00.000Z") = Some x
    /\ t' !! "createdAt" = Some x
    /\ t' !! "updatedAt" = Some (VDate Examples.later)
    /\ List.find (has_id Examples.an_oid) (tasks_of d') = Some t'.
Proof.
  apply (C10_update_overwrites_createdAt (H := Node.host) Examples.a_store
           Examples.later Examples.an_id Examples.an_oid Examples.a_task).
  - vm_compute. reflexivity.
  - vm_compute. reflexivity.
  - vm_compute. reflexivity.
  - vm_compute. reflexivity.
  - vm_compute. reflexivity.
Defined.

(** ** Creating documents *)

Section Create.
Context `{Host}.

Lemma max_oid_bound (l : list document) (t : document) (k : N) :
  In t l -> oid_of t = Some k -> (k <= max_oid l)%N.
Proof.
  induction l as [|x l IH]; simpl; [contradiction|].
  intros [->|Hin] Hk.
  - rewrite Hk. simpl. lia.
  - specialize (IH Hin Hk). lia.
Qed.

(** A new identifier is carried by no stored document. *)
Lemma fresh_oid_unused (l : list document) :
  existsb (has_id (N.succ (max_oid l))) l = false.
Proof.
  apply not_true_is_false. intros (t & Hin & Hid)%existsb_exists.
  unfold has_id in Hid. apply bool_decide_eq_true_1 in Hid.
  pose proof (max_oid_bound l t (N.succ (max_oid l)) Hin) as Hb.
  unfold oid_of in Hb. rewrite Hid in Hb. specialize (Hb eq_refl). lia.
Qed.

(** [new Model(body)] followed by [save()], on a reachable store. *)
Lemma create_online (m : Model) (body : gmap string js)
      (d : gmap string (list document)) (now : Z) :
  bind (Model_new m body) (save m) (online d now)
  = let draft := hydrate (paths (schema m)) body now
                         (N.succ (max_oid (docs_of d m))) in
    match (draft.2 ++ validate (paths (schema m)) draft.1)%list with
    | _ :: _ as errs => (inl (ValidationError errs), online d now)
    | [] =>
        let this := pre_save m now draft.1 in
        match oid_of this with
        | None =>
            (inl (MongooseError "document must have an _id before saving"),
             online d now)
        | Some n =>
            if existsb (has_id n) (docs_of d m)
            then (inl (MongoServerError DuplicateKey), online d now)
            else (inr this,
                  online (<[modelName m := (docs_of d m ++ [this])%list]> d)
                         now)
        end
    end.
Proof.
  unfold Model_new, ObjectId_new, save. run.
  destruct (hydrate (paths (schema m)) body now
                    (N.succ (max_oid (docs_of d m)))) as [doc errs].
  cbn [fst snd].
  destruct (errs ++ validate (paths (schema m)) doc)%list; [|reflexivity].
  destruct (oid_of (pre_save m now doc)); [|reflexivity].
  now destruct (existsb (has_id n) (docs_of d m)).
Qed.
End Create.

Section CreateAny.
Context `{Host}.

(** What a successful creation returns is the hydrated body after the
    [pre('save')] hook, and it is appended to the collection. *)
Lemma created_inv (m : Model) (body : gmap string js)
      (d : gmap string (list document)) (now : Z) (doc : document)
      (w' : world) :
  bind (Model_new m body) (save m) (online d now) = (inr doc, w') ->
  doc = pre_save m now
          (hydrate (paths (schema m)) body now
                   (N.succ (max_oid (docs_of d m)))).1
  /\ castable (paths (schema m)) body = true
  /\ w' = online (<[modelName m := (docs_of d m ++ [doc])%list]> d) now.
Proof.
  rewrite create_online. cbn zeta.
  destruct (hydrate (paths (schema m)) body now
              (N.succ (max_oid (docs_of d m)))) as [draft errs] eqn:Hh.
  cbn [fst snd].
  destruct (errs ++ validate (paths (schema m)) draft)%list eqn:Herrs;
    [|discriminate].
  apply app_eq_nil in Herrs as [-> _].
  destruct (oid_of (pre_save m now draft)); [|discriminate].
  destruct (existsb (has_id n) (docs_of d m)); [discriminate|].
  intros [= <- <-]. split; [reflexivity|]. split; [|reflexivity].
  apply (hydrate_errors_castable _ _ now (N.succ (max_oid (docs_of d m)))).
  now rewrite Hh.
Qed.

Lemma create_succeeds (m : Model) (body : gmap string js)
      (d : gmap string (list document)) (now : Z) :
  let fresh := N.succ (max_oid (docs_of d m)) in
  let draft := (hydrate (paths (schema m)) body now fresh).1 in
  castable (paths (schema m)) body = true ->
  validate (paths (schema m)) draft = [] ->
  oid_of (pre_save m now draft) = Some fresh ->
  bind (Model_new m body) (save m) (online d now)
  = (inr (pre_save m now draft),
     online (<[modelName m := (docs_of d m ++ [pre_save m now draft])%list]> d)
            now).
Proof.
  intros fresh draft Hcast Hval Hoid. rewrite create_online. cbn zeta.
  rewrite (hydrate_castable _ _ _ _ Hcast). fold fresh. fold draft.
  rewrite Hval, Hoid. cbn [app]. unfold fresh.
  now rewrite fresh_oid_unused.
Qed.

Lemma enumValidator_In (vals : list string) (s : string) :
  In s vals -> enumValidator vals (Some (VStr s)) = true.
Proof.
  intros Hin. simpl. apply existsb_exists. exists s.
  split; [assumption|apply String.eqb_refl].
Qed.

Lemma enumValidator_not_In (vals : list string) (s : string) :
  ~ In s vals -> enumValidator vals (Some (VStr s)) = false.
Proof.
  intros Hnin. simpl. apply not_true_is_false.
  intros (x & Hin & Heq)%existsb_exists.
  apply String.eqb_eq in Heq as <-. contradiction.
Qed.

Lemma enumValidator_among (vals : list string) (o : option js)
      (p dflt : string) :
  omitted_or_among o vals ->
  In dflt vals ->
  enumValidator vals
    match o with
    | Some v => match cast SchemaString p v with
                | inr x => Some x
                | inl _ => None
                end
    | None => Some (VStr dflt)
    end = true.
Proof.
  intros Ho Hd. destruct o as [[| |s|]|]; try contradiction.
  - now apply enumValidator_In.
  - now apply enumValidator_In.
Qed.
End CreateAny.

Section CreateTask.
Context `{Host}.

Lemma validate_task (d : document) :
  validate (paths taskSchema) d
  = ((if negb (checkRequired (d !! "title"))
      then [("title", RequiredFailed)] else [])
     ++ (if enumValidator ["low"; "medium"; "high"] (d !! "priority")
         then [] else [("priority", EnumFailed)])
     ++ (if enumValidator ["pending"; "in-progress"; "completed"]
                          (d !! "status")
         then [] else [("status", EnumFailed)])
     ++ [])%list.
Proof. reflexivity. Qed.

Lemma post_task_run (body : gmap string js) (w : world) :
  TaskRoutes.post body w
  = match bind (Model_new Task body) (save Task) w with
    | (inr task, w') => (inr (Response 201 (JsonDoc task)), w')
    | (inl err, w') => (inr (Response 400 (JsonError (message err))), w')
    end.
Proof.
  unfold TaskRoutes.post. run.
  destruct (Model_new Task body w) as [[e|draft] w1]; [reflexivity|].
  now destruct (save Task draft w1) as [[e|task] w2].
Qed.

(** The fields of a draft task other than [updatedAt] survive the
    [pre('save')] hook. *)
Lemma new_task_field (body : gmap string js) (now : Z) (oid : N)
      (p : string) (st : SchemaType) :
  p <> "updatedAt" ->
  Schema_path (paths taskSchema) p = Some st ->
  (pre_save Task now (hydrate (paths taskSchema) body now oid).1) !! p
  = match body !! p with
    | Some v => match cast (type st) p v with
                | inr x => Some x
                | inl _ => None
                end
    | None => default_value (default st) now oid
    end.
Proof.
  intros Hne Hs. cbn [pre_save Task]. rewrite lookup_insert_ne by congruence.
  now apply hydrate_lookup; [apply taskSchema_NoDup|].
Qed.

(** [POST /tasks] with a non-empty title, valid or omitted enums, no
    [_id] and castable fields stores the new task and answers 201. *)
Lemma post_task_succeeds (body : gmap string js)
      (d : gmap string (list document)) (now : Z) (title : string) :
  body !! "title" = Some (JStr title) ->
  title <> "" ->
  omitted_or_among (body !! "priority") ["low"; "medium"; "high"] ->
  omitted_or_among (body !! "status")
                   ["pending"; "in-progress"; "completed"] ->
  body !! "_id" = None ->
  castable (paths taskSchema) body = true ->
  let task : document :=
    pre_save Task now
      (hydrate (paths taskSchema) body now
               (N.succ (max_oid (tasks_of d)))).1 in
  TaskRoutes.post body (online d now)
  = (inr (Response 201 (JsonDoc task)),
     online (<["Task" := (tasks_of d ++ [task])%list]> d) now).
Proof.
  intros Htitle Hne Hprio Hstatus Hid Hcast task.
  rewrite post_task_run, (create_succeeds Task); [reflexivity|assumption| |].
  - cbn [schema Task]. rewrite validate_task.
    rewrite (hydrate_lookup _ _ _ _ "title" _ taskSchema_NoDup eq_refl).
    rewrite (hydrate_lookup _ _ _ _ "priority" _ taskSchema_NoDup eq_refl).
    rewrite (hydrate_lookup _ _ _ _ "status" _ taskSchema_NoDup eq_refl).
    rewrite Htitle. cbn [cast type castString checkRequired].
    destruct (String.eqb_spec title ""); [contradiction|].
    cbn [negb app type default default_value].
    rewrite (enumValidator_among _ _ "priority" "medium" Hprio)
      by (simpl; tauto).
    rewrite (enumValidator_among _ _ "status" "pending" Hstatus)
      by (simpl; tauto).
    reflexivity.
  - cbn [schema]. unfold oid_of.
    rewrite (new_task_field _ _ _ "_id" _ ltac:(discriminate) eq_refl), Hid.
    reflexivity.
Qed.

Lemma post_task_created (body : gmap string js)
      (d : gmap string (list document)) (now : Z) (task : document)
      (w' : world) :
  TaskRoutes.post body (online d now)
  = (inr (Response 201 (JsonDoc task)), w') ->
  task = pre_save Task now
           (hydrate (paths taskSchema) body now
                    (N.succ (max_oid (tasks_of d)))).1
  /\ castable (paths taskSchema) body = true
  /\ w' = online (<["Task" := (tasks_of d ++ [task])%list]> d) now.
Proof.
  rewrite post_task_run.
  destruct (bind (Model_new Task body) (save Task) (online d now))
    as [[e|doc] w1] eqn:Hrun; [discriminate|].
  intros [= <- <-]. now apply created_inv in Hrun.
Qed.
End CreateTask.

(** ** C3: defaults of the optional fields *)

(** C3.  For a [POST /tasks] whose body omits [description], [category],
    [priority] and [status], every document it creates has description
    [""], category ["general"], priority ["medium"] and status
    ["pending"]; and such a body does create a document when it supplies a
    non-empty title, no [_id], and fields that can be cast. *)
Theorem C3_defaults_on_create `{Host}
        (d : gmap string (list document)) (now : Z) (body : gmap string js) :
  body !! "description" = None ->
  body !! "category" = None ->
  body !! "priority" = None ->
  body !! "status" = None ->
  (forall task w',
      TaskRoutes.post body (online d now)
      = (inr (Response 201 (JsonDoc task)), w') ->
      task !! "description" = Some (VStr "")
      /\ task !! "category" = Some (VStr "general")
      /\ task !! "priority" = Some (VStr "medium")
      /\ task !! "status" = Some (VStr "pending"))
  /\ (forall title,
        body !! "title" = Some (JStr title) ->
        title <> "" ->
        body !! "_id" = None ->
        castable (paths taskSchema) body = true ->
        exists task,
          TaskRoutes.post body (online d now)
          = (inr (Response 201 (JsonDoc task)),
             online (<["Task" := (tasks_of d ++ [task])%list]> d) now)).
Proof.
  intros Hdesc Hcat Hprio Hstatus. split.
  - intros task w' (-> & _ & _)%post_task_created.
    rewrite (new_task_field _ _ _ "description" _ ltac:(discriminate) eq_refl).
    rewrite (new_task_field _ _ _ "category" _ ltac:(discriminate) eq_refl).
    rewrite (new_task_field _ _ _ "priority" _ ltac:(discriminate) eq_refl).
    rewrite (new_task_field _ _ _ "status" _ ltac:(discriminate) eq_refl).
    now rewrite Hdesc, Hcat, Hprio, Hstatus.
  - intros title Htitle Hne Hid Hcast. eexists.
    apply (post_task_succeeds body d now title); try assumption.
    + now rewrite Hprio.
    + now rewrite Hstatus.
Qed.

Lemma C3_defaults_on_create_witness :
  exists task,
    TaskRoutes.post (H := Node.host) {[ "title" := JStr "Minimal task" ]}
                    (online Examples.a_store Examples.later)
    = (inr (Response 201 (JsonDoc task)),
       online (<["Task" := (tasks_of Examples.a_store ++ [task])%list]>
                 Examples.a_store) Examples.later)
    /\ task !! "description" = Some (VStr "")
    /\ task !! "category" = Some (VStr "general")
    /\ task !! "priority" = Some (VStr "medium")
    /\ task !! "status" = Some (VStr "pending").
Proof.
  destruct (C3_defaults_on_create (H := Node.host) Examples.a_store
              Examples.later {[ "title" := JStr "Minimal task" ]})
    as [Hdefaults Hcreated].
  - vm_compute. reflexivity.
  - vm_compute. reflexivity.
  - vm_compute. reflexivity.
  - vm_compute. reflexivity.
  - destruct (Hcreated "Minimal task") as [task Htask].
    + vm_compute. reflexivity.
    + discriminate.
    + vm_compute. reflexivity.
    + vm_compute. reflexivity.
    + exists task. split; [exact Htask|]. exact (Hdefaults _ _ Htask).
Defined.

(** ** C4: the priority enum on creation *)

(** C4.  [POST /tasks] with a priority string outside low, medium and high
    — such as ["critical"] — answers 400 with an [error] body and stores
    nothing; [POST /tasks] with priority ["high"], a non-empty title, a
    valid or omitted status, no [_id] and castable fields answers 201 with a
    document whose priority is ["high"]. *)
Theorem C4_priority_enum_on_create `{Host}
        (d : gmap string (list document)) (now : Z) (body : gmap string js) :
  (forall v,
      body !! "priority" = Some (JStr v) ->
      ~ In v ["low"; "medium"; "high"] ->
      exists m,
        TaskRoutes.post body (online d now)
        = (inr (Response 400 (JsonError m)), online d now))
  /\ (forall title,
        body !! "priority" = Some (JStr "high") ->
        body !! "title" = Some (JStr title) ->
        title <> "" ->
        omitted_or_among (body !! "status")
                         ["pending"; "in-progress"; "completed"] ->
        body !! "_id" = None ->
        castable (paths taskSchema) body = true ->
        exists task,
          TaskRoutes.post body (online d now)
          = (inr (Response 201 (JsonDoc task)),
             online (<["Task" := (tasks_of d ++ [task])%list]> d) now)
          /\ task !! "priority" = Some (VStr "high")).
Proof.
  split.
  - intros v Hprio Hout. rewrite post_task_run, create_online. cbn zeta.
    destruct ((hydrate (paths (schema Task)) body now
                 (N.succ (max_oid (docs_of d Task)))).2
              ++ validate (paths (schema Task))
                   (hydrate (paths (schema Task)) body now
                      (N.succ (max_oid (docs_of d Task)))).1)%list
      eqn:Herrs; [|now eexists].
    exfalso. apply app_eq_nil in Herrs as [_ Hval].
    cbn [schema Task] in Hval. rewrite validate_task in Hval.
    rewrite (hydrate_lookup _ _ _ _ "priority" _ taskSchema_NoDup eq_refl)
      in Hval.
    rewrite Hprio in Hval. cbn [cast type castString] in Hval.
    rewrite (enumValidator_not_In _ _ Hout) in Hval.
    apply app_eq_nil in Hval as [_ Hval]. discriminate.
  - intros title Hprio Htitle Hne Hstatus Hid Hcast. eexists. split.
    + apply (post_task_succeeds body d now title); try assumption.
      rewrite Hprio. simpl. tauto.
    + rewrite (new_task_field _ _ _ "priority" _ ltac:(discriminate) eq_refl).
      now rewrite Hprio.
Qed.

Lemma C4_priority_enum_on_create_witness :
  (exists m,
      TaskRoutes.post (H := Node.host)
        (<["priority" := JStr "critical"]>
           {[ "title" := JStr "Invalid priority task" ]})
        (online Examples.a_store Examples.later)
      = (inr (Response 400 (JsonError m)),
         online Examples.a_store Examples.later))
  /\ (exists task,
         TaskRoutes.post (H := Node.host)
           (<["priority" := JStr "high"]>
              {[ "title" := JStr "Complete project proposal" ]})
           (online Examples.a_store Examples.later)
         = (inr (Response 201 (JsonDoc task)),
            online (<["Task" := (tasks_of Examples.a_store ++ [task])%list]>
                      Examples.a_store) Examples.later)
         /\ task !! "priority" = Some (VStr "high")).
Proof.
  split.
  - apply (C4_priority_enum_on_create (H := Node.host) Examples.a_store
             Examples.later _ ) with (v := "critical").
    + vm_compute. reflexivity.
    + simpl. intros [Hv|[Hv|[Hv|[]]]]; discriminate Hv.
  - apply (C4_priority_enum_on_create (H := Node.host) Examples.a_store
             Examples.later _ ) with (title := "Complete project proposal").
    + vm_compute. reflexivity.
    + vm_compute. reflexivity.
    + discriminate.
    + vm_compute. exact I.
    + vm_compute. reflexivity.
    + vm_compute. reflexivity.
Defined.

Section CreateNote.
Context `{Host}.

Lemma validate_note (d : document) :
  validate (paths noteSchema) d
  = ((if negb (checkRequired (d !! "content"))
      then [("content", RequiredFailed)] else [])
     ++ [])%list.
Proof. reflexivity. Qed.

Lemma post_note_run (body : gmap string js) (w : world) :
  NoteRoutes.post body w
  = match bind (Model_new Note body) (save Note) w with
    | (inr note, w') => (inr (Response 201 (JsonDoc note)), w')
    | (inl err, w') => (inr (Response 400 (JsonError (message err))), w')
    end.
Proof.
  unfold NoteRoutes.post. run.
  destruct (Model_new Note body w) as [[e|draft] w1]; [reflexivity|].
  now destruct (save Note draft w1) as [[e|note] w2].
Qed.

Lemma new_note_field (body : gmap string js) (now : Z) (oid : N)
      (p : string) (st : SchemaType) :
  p <> "updatedAt" ->
  Schema_path (paths noteSchema) p = Some st ->
  (pre_save Note now (hydrate (paths noteSchema) body now oid).1) !! p
  = match body !! p with
    | Some v => match cast (type st) p v with
                | inr x => Some x
                | inl _ => None
                end
    | None => default_value (default st) now oid
    end.
Proof.
  intros Hne Hs. cbn [pre_save Note]. rewrite lookup_insert_ne by congruence.
  now apply hydrate_lookup; [apply noteSchema_NoDup|].
Qed.

(** [POST /notes] with a non-empty content, no [_id] and castable fields
    stores the new note and answers 201. *)
Lemma post_note_succeeds (body : gmap string js)
      (d : gmap string (list document)) (now : Z) (content : string) :
  body !! "content" = Some (JStr content) ->
  content <> "" ->
  body !! "_id" = None ->
  castable (paths noteSchema) body = true ->
  let note : document :=
    pre_save Note now
      (hydrate (paths noteSchema) body now
               (N.succ (max_oid (notes_of d)))).1 in
  NoteRoutes.post body (online d now)
  = (inr (Response 201 (JsonDoc note)),
     online (<["Note" := (notes_of d ++ [note])%list]> d) now).
Proof.
  intros Hcontent Hne Hid Hcast note.
  rewrite post_note_run, (create_succeeds Note); [reflexivity|assumption| |].
  - cbn [schema Note]. rewrite validate_note.
    rewrite (hydrate_lookup _ _ _ _ "content" _ noteSchema_NoDup eq_refl).
    rewrite Hcontent. cbn [cast type castString checkRequired].
    now destruct (String.eqb_spec content "").
  - cbn [schema]. unfold oid_of.
    rewrite (new_note_field _ _ _ "_id" _ ltac:(discriminate) eq_refl), Hid.
    reflexivity.
Qed.

Lemma post_note_created (body : gmap string js)
      (d : gmap string (list document)) (now : Z) (note : document)
      (w' : world) :
  NoteRoutes.post body (online d now)
  = (inr (Response 201 (JsonDoc note)), w') ->
  note = pre_save Note now
           (hydrate (paths noteSchema) body now
                    (N.succ (max_oid (notes_of d)))).1
  /\ castable (paths noteSchema) body = true
  /\ w' = online (<["Note" := (notes_of d ++ [note])%list]> d) now.
Proof.
  rewrite post_note_run.
  destruct (bind (Model_new Note body) (save Note) (online d now))
    as [[e|doc] w1] eqn:Hrun; [discriminate|].
  intros [= <- <-]. now apply created_inv in Hrun.
Qed.

(** The [createdAt] of a hydrated document: what the body supplies, cast to
    a date, or else the server time. *)
Lemma createdAt_cases (body : gmap string js) (now : Z) (doc : document) :
  castable [("createdAt",
             {| type := SchemaDate; required := false; enum := None;
                default := DefaultNow |})] body = true ->
  doc !! "createdAt"
  = match body !! "createdAt" with
    | Some v => match cast SchemaDate "createdAt" v with
                | inr x => Some x
                | inl _ => None
                end
    | None => Some (VDate now)
    end ->
  match body !! "createdAt" with
  | None => doc !! "createdAt" = Some (VDate now)
  | Some v => exists x, castDate v = Some x /\ doc !! "createdAt" = Some x
  end.
Proof.
  unfold castable, cast. cbn [forallb fst snd type].
  destruct (body !! "createdAt") as [v|]; [|now intros _].
  destruct (castDate v) as [x|]; [|discriminate].
  intros _ ->. now exists x.
Qed.

Lemma castable_createdAt (S : Schema) (body : gmap string js) (st : SchemaType) :
  castable S body = true ->
  In ("createdAt", st) S ->
  castable [("createdAt", st)] body = true.
Proof.
  unfold castable. rewrite forallb_forall. intros Hall Hin.
  cbn [forallb]. now rewrite (Hall _ Hin).
Qed.
End CreateNote.

(** ** C8: timestamps on creation *)

(** C8, as the code has it.  For every document that [POST /tasks] or
    [POST /notes] creates, [updatedAt] is the server's time of creation
    whatever the body supplies; [createdAt] is the server's time of creation
    when the body does not supply it, and otherwise the value the body
    supplies, cast to a date.  Documents are created from every body that
    passes validation, whether or not it carries timestamps. *)
Theorem C8_timestamps_on_create `{Host}
        (d : gmap string (list document)) (now : Z) (body : gmap string js) :
  (forall task w',
      TaskRoutes.post body (online d now)
      = (inr (Response 201 (JsonDoc task)), w') ->
      task !! "updatedAt" = Some (VDate now)
      /\ match body !! "createdAt" with
         | None => task !! "createdAt" = Some (VDate now)
         | Some v => exists x, castDate v = Some x
                               /\ task !! "createdAt" = Some x
         end)
  /\ (forall note w',
        NoteRoutes.post body (online d now)
        = (inr (Response 201 (JsonDoc note)), w') ->
        note !! "updatedAt" = Some (VDate now)
        /\ match body !! "createdAt" with
           | None => note !! "createdAt" = Some (VDate now)
           | Some v => exists x, castDate v = Some x
                                 /\ note !! "createdAt" = Some x
           end)
  /\ (forall title,
        body !! "title" = Some (JStr title) ->
        title <> "" ->
        omitted_or_among (body !! "priority") ["low"; "medium"; "high"] ->
        omitted_or_among (body !! "status")
                         ["pending"; "in-progress"; "completed"] ->
        body !! "_id" = None ->
        castable (paths taskSchema) body = true ->
        exists task,
          TaskRoutes.post body (online d now)
          = (inr (Response 201 (JsonDoc task)),
             online (<["Task" := (tasks_of d ++ [task])%list]> d) now))
  /\ (forall content,
        body !! "content" = Some (JStr content) ->
        content <> "" ->
        body !! "_id" = None ->
        castable (paths noteSchema) body = true ->
        exists note,
          NoteRoutes.post body (online d now)
          = (inr (Response 201 (JsonDoc note)),
             online (<["Note" := (notes_of d ++ [note])%list]> d) now)).
Proof.
  split; [|split; [|split]].
  - intros task w' (-> & Hcast & _)%post_task_created. split.
    + cbn [pre_save Task]. apply lookup_insert_eq.
    + apply createdAt_cases.
      * apply (castable_createdAt _ _ _ Hcast). simpl. tauto.
      * apply (new_task_field _ _ _ "createdAt" _ ltac:(discriminate) eq_refl).
  - intros note w' (-> & Hcast & _)%post_note_created. split.
    + cbn [pre_save Note]. apply lookup_insert_eq.
    + apply createdAt_cases.
      * apply (castable_createdAt _ _ _ Hcast). simpl. tauto.
      * apply (new_note_field _ _ _ "createdAt" _ ltac:(discriminate) eq_refl).
  - intros title Htitle Hne Hprio Hstatus Hid Hcast. eexists.
    now apply (post_task_succeeds body d now title).
  - intros content Hcontent Hne Hid Hcast. eexists.
    now apply (post_note_succeeds body d now content).
Qed.

Lemma tasks_of_insert (d : gmap string (list document)) (l : list document) :
  tasks_of (<["Task" := l]> d) = l.
Proof. apply (docs_of_insert d Task). Qed.

Lemma notes_of_insert (d : gmap string (list document)) (l : list document) :
  notes_of (<["Note" := l]> d) = l.
Proof. apply (docs_of_insert d Note). Qed.

Lemma C8_timestamps_on_create_witness :
  exists task w',
    TaskRoutes.post (H := Node.host)
      (<["updatedAt" := JStr "1999-12-31T00:00:00.000Z"]>
         {[ "title" := JStr "Backdated" ]})
      (online Examples.a_store Examples.later)
    = (inr (Response 201 (JsonDoc task)), w')
    /\ task !! "updatedAt" = Some (VDate Examples.later)
    /\ task !! "createdAt" = Some (VDate Examples.later).
Proof.
  assert (Hpost := post_task_succeeds (H := Node.host)
            (<["updatedAt" := JStr "1999-12-31T00:00:00.000Z"]>
               {[ "title" := JStr "Backdated" ]})
            Examples.a_store Examples.later "Backdated").
  cbv zeta in Hpost.
  specialize (Hpost ltac:(vm_compute; reflexivity) ltac:(discriminate)
                    ltac:(vm_compute; exact I) ltac:(vm_compute; exact I)
                    ltac:(vm_compute; reflexivity)
                    ltac:(vm_compute; reflexivity)).
  destruct (proj1 (C8_timestamps_on_create (H := Node.host) Examples.a_store
                     Examples.later _) _ _ Hpost) as [Hupdated Hcreated].
  assert (Homitted : (<["updatedAt" := JStr "1999-12-31T00:00:00.000Z"]>
                        {[ "title" := JStr "Backdated" ]} : gmap string js)
                     !! "createdAt" = None).
  { vm_compute. reflexivity. }
  rewrite Homitted in Hcreated.
  eexists _, _. split; [exact Hpost|]. split; assumption.
Defined.

(** C8, as the specification words it, fails for [createdAt]: a creation payload
    that carries [createdAt] gets it stored, not the server's time. *)
Lemma C8_client_createdAt_is_stored :
  exists task d',
    TaskRoutes.post (H := Node.host)
      (<["createdAt" := JStr "2000-01-01T00:00:00.000Z"]>
         {[ "title" := JStr "Backdated" ]})
      (online Examples.a_store Examples.later)
    = (inr (Response 201 (JsonDoc task)), online d' Examples.later)
    /\ In task (tasks_of d')
    /\ task !! "createdAt" = Some (VDate 946684800000)
    /\ task !! "createdAt" <> Some (VDate Examples.later).
Proof.
  eexists _, _. split; [|split; [|split]].
  - apply (post_task_succeeds (H := Node.host) _ Examples.a_store
             Examples.later "Backdated").
    + vm_compute. reflexivity.
    + discriminate.
    + vm_compute. exact I.
    + vm_compute. exact I.
    + vm_compute. reflexivity.
    + vm_compute. reflexivity.
  - rewrite tasks_of_insert. apply in_or_app. right. now left.
  - vm_compute. reflexivity.
  - vm_compute. discriminate.
Qed.

(** ** C9: empty query parameters *)

(** C9.  In [GET /tasks], a [category], [status], [priority] or [search]
    parameter supplied with the empty string as its value gives the same
    response, in every state of the world, as the request without that
    parameter. *)
Theorem C9_empty_parameter_is_omitted `{Host}
        (q : gmap string string) (w : world) :
  TaskRoutes.get_all (<["category" := ""]> q) w
  = TaskRoutes.get_all (delete "category" q) w
  /\ TaskRoutes.get_all (<["status" := ""]> q) w
     = TaskRoutes.get_all (delete "status" q) w
  /\ TaskRoutes.get_all (<["priority" := ""]> q) w
     = TaskRoutes.get_all (delete "priority" q) w
  /\ TaskRoutes.get_all (<["search" := ""]> q) w
     = TaskRoutes.get_all (delete "search" q) w.
Proof.
  repeat split; unfold TaskRoutes.get_all;
    rewrite lookup_insert_eq, lookup_delete_eq;
    rewrite !lookup_insert_ne, !lookup_delete_ne by discriminate;
    reflexivity.
Qed.

(** ** Listing tasks *)

Ltac map_lookups :=
  repeat first [ rewrite lookup_insert_eq
               | rewrite lookup_insert_ne by discriminate
               | rewrite lookup_empty ].

Section ListTasks.
Context `{Host}.

Lemma get_all_tasks_filter (q : gmap string string) :
  TaskRoutes.get_all q
  = try_catch
      (let* tasks := find Task (tasks_filter q) [("createdAt", (-1)%Z)] in
       res_json (JsonDocs tasks))
      (fun err => res_status_json 500 (JsonError (message err))).
Proof. reflexivity. Qed.

Lemma tasks_filter_lookup (q : gmap string string) :
  tasks_filter q !! "category"
  = (if truthy (q !! "category")
     then Some (Equals (js_of_param (q !! "category"))) else None)
  /\ tasks_filter q !! "status"
     = (if truthy (q !! "status")
        then Some (Equals (js_of_param (q !! "status"))) else None)
  /\ tasks_filter q !! "priority"
     = (if truthy (q !! "priority")
        then Some (Equals (js_of_param (q !! "priority"))) else None)
  /\ tasks_filter q !! "title"
     = (if truthy (q !! "search")
        then Some (Regex (or_else (q !! "search") "") "i") else None)
  /\ tasks_filter q !! "_id" = None
  /\ tasks_filter q !! "description" = None
  /\ tasks_filter q !! "dueDate" = None
  /\ tasks_filter q !! "createdAt" = None
  /\ tasks_filter q !! "updatedAt" = None.
Proof.
  unfold tasks_filter. cbv zeta.
  destruct (truthy (q !! "category")), (truthy (q !! "status")),
    (truthy (q !! "priority")), (truthy (q !! "search"));
    repeat split; map_lookups; reflexivity.
Qed.

Lemma satisfies_equals (s : string) (v : option value) :
  satisfies (CEquals (VStr s)) v = bool_decide (v = Some (VStr s)).
Proof.
  unfold satisfies, or_else. apply bool_decide_ext.
  destruct v as [x|]; split; intros Heq; congruence.
Qed.

(** The filter of [GET /tasks] always casts; the server accepts it when the
    search expression is valid; it matches the tasks that [selected]
    describes. *)
Lemma tasks_filter_cast (q : gmap string string) :
  exists cq,
    castFilter (paths taskSchema) (tasks_filter q) = inr cq
    /\ accepted cq = search_accepted q
    /\ forall t, matches cq t = selected q t.
Proof.
  destruct (tasks_filter_lookup q)
    as (Hc & Hs & Hp & Ht & Hi & Hd & Hdue & Hca & Hua).
  unfold paths, taskSchema, id_path. cbn [castFilter].
  rewrite Hc, Hs, Hp, Ht, Hi, Hd, Hdue, Hca, Hua.
  unfold selected, search_accepted, selects_equal, selects_regex, truthy.
  generalize (q !! "category") (q !! "status") (q !! "priority")
             (q !! "search").
  intros [c|] [s|] [p|] [r|];
    try destruct (String.eqb_spec c ""); try destruct (String.eqb_spec s "");
    try destruct (String.eqb_spec p ""); try destruct (String.eqb_spec r "");
    cbn [negb js_of_param or_else type cast_condition cast castString orb];
    (eexists; split; [reflexivity|]; split;
     [unfold accepted; cbn [forallb snd]; now rewrite ?andb_true_r|]);
    intros t; unfold matches; cbn [forallb fst snd];
    rewrite ?satisfies_equals; cbn [satisfies];
    set (title_matches := match t !! "title" with
                          | Some (VStr title) => _
                          | _ => false
                          end) || idtac;
    repeat match goal with
           | |- context [bool_decide ?P] =>
               let b := fresh "b" in set (b := bool_decide P); clearbody b
           end;
    try clearbody title_matches;
    repeat match goal with
           | b : bool |- _ => destruct b
           end;
    reflexivity.
Qed.
End ListTasks.

Section RunQueries.
Context `{Host}.

Lemma query_online (m : Model) (filter : gmap string cond)
      (cq : list (string * cast_cond)) (d : gmap string (list document))
      (now : Z) :
  castFilter (paths (schema m)) filter = inr cq ->
  query m filter (online d now)
  = if accepted cq
    then (inr (List.filter (matches cq) (docs_of d m)), online d now)
    else (inl (MongoServerError InvalidRegex), online d now).
Proof.
  intros Hcq. unfold query. rewrite Hcq. run. now destruct (accepted cq).
Qed.

Lemma find_online (m : Model) (filter : gmap string cond)
      (cq : list (string * cast_cond)) (spec : list (string * Z))
      (d : gmap string (list document)) (now : Z) :
  castFilter (paths (schema m)) filter = inr cq ->
  find m filter spec (online d now)
  = if accepted cq
    then (inr (sort_by (precedes spec) (List.filter (matches cq) (docs_of d m))),
          online d now)
    else (inl (MongoServerError InvalidRegex), online d now).
Proof.
  intros Hcq. unfold find, bind. rewrite (query_online _ _ _ _ _ Hcq).
  now destruct (accepted cq).
Qed.

(** [GET /tasks] on a reachable store. *)
Lemma get_all_tasks_online (q : gmap string string)
      (d : gmap string (list document)) (now : Z) :
  TaskRoutes.get_all q (online d now)
  = if search_accepted q
    then (inr (Response 200
                 (JsonDocs (sort_by (precedes [("createdAt", (-1)%Z)])
                                    (List.filter (selected q) (tasks_of d))))),
          online d now)
    else (inr (Response 500
                 (JsonError (message (MongoServerError InvalidRegex)))),
          online d now).
Proof.
  destruct (tasks_filter_cast q) as (cq & Hcq & Hacc & Hsel).
  rewrite get_all_tasks_filter. unfold try_catch, bind.
  rewrite (find_online Task _ _ _ _ _ Hcq), Hacc.
  destruct (search_accepted q); [|reflexivity].
  unfold tasks_of. now rewrite (List.filter_ext _ _ Hsel).
Qed.

Lemma selected_empty (t : document) : selected ∅ t = true.
Proof. unfold selected. now rewrite !lookup_empty. Qed.

Lemma filter_all {A} (f : A -> bool) (l : list A) :
  (forall x, f x = true) -> List.filter f l = l.
Proof.
  intros Hf. induction l as [|x l IH]; simpl; [reflexivity|].
  now rewrite Hf, IH.
Qed.
End RunQueries.

(** ** C5: listing and filtering tasks *)

(** C5, as the code has it.  [GET /tasks] with string query parameters
    answers 200 with exactly the Tasks that satisfy every filter supplied
    with a non-empty value — [category], [status] and [priority] by
    equality, [search] by matching the title against the search string read
    as a case-insensitive regular expression — ordered by [createdAt]
    descending; with no match the list is empty; with no filter the list
    holds every Task.  When the search string is not a regular expression
    the server accepts, the answer is 500 with an [error] body.  The store
    is left as it was. *)
Theorem C5_list_tasks `{Host}
        (d : gmap string (list document)) (now : Z) (q : gmap string string) :
  (search_accepted q = true ->
   exists l,
     TaskRoutes.get_all q (online d now)
     = (inr (Response 200 (JsonDocs l)), online d now)
     /\ Permutation l (List.filter (selected q) (tasks_of d))
     /\ Sorted newest_first l
     /\ (List.filter (selected q) (tasks_of d) = [] -> l = []))
  /\ (search_accepted q = false ->
      exists m,
        TaskRoutes.get_all q (online d now)
        = (inr (Response 500 (JsonError m)), online d now))
  /\ (exists l,
        TaskRoutes.get_all ∅ (online d now)
        = (inr (Response 200 (JsonDocs l)), online d now)
        /\ Permutation l (tasks_of d)
        /\ Sorted newest_first l).
Proof.
  split; [|split].
  - intros Hacc. rewrite get_all_tasks_online, Hacc. eexists.
    split; [reflexivity|]. split; [apply sort_by_perm|].
    split; [apply sort_newest_first|]. now intros ->.
  - intros Hacc. rewrite get_all_tasks_online, Hacc. now eexists.
  - rewrite get_all_tasks_online. unfold search_accepted.
    rewrite lookup_empty. eexists. split; [reflexivity|].
    rewrite (filter_all _ _ selected_empty).
    split; [apply sort_by_perm|apply sort_newest_first].
Qed.

Lemma C5_list_tasks_witness :
  exists l,
    TaskRoutes.get_all (H := Node.host)
      (<["search" := "REPORT"]> {[ "priority" := "medium" ]})
      (online Examples.a_store Examples.later)
    = (inr (Response 200 (JsonDocs l)),
       online Examples.a_store Examples.later)
    /\ Permutation l
         (List.filter
            (selected (H := Node.host)
               (<["search" := "REPORT"]> {[ "priority" := "medium" ]}))
            (tasks_of Examples.a_store))
    /\ Sorted newest_first l
    /\ (List.filter
          (selected (H := Node.host)
             (<["search" := "REPORT"]> {[ "priority" := "medium" ]}))
          (tasks_of Examples.a_store) = [] -> l = []).
Proof.
  apply (C5_list_tasks (H := Node.host) Examples.a_store Examples.later).
  vm_compute. reflexivity.
Defined.

(** C5, as the specification words it, fails: the search string is a regular
    expression, not a substring.  Searching for ["."] returns the task
    titled ["Write report"], whose title does not contain a dot. *)
Lemma C5_search_is_not_substring :
  TaskRoutes.get_all (H := Node.host) {[ "search" := "." ]}
                     (online Examples.a_store Examples.later)
  = (inr (Response 200 (JsonDocs [Examples.a_task])),
     online Examples.a_store Examples.later)
  /\ Examples.a_task !! "title" = Some (VStr "Write report")
  /\ contains_ci "Write report" "." = false
  /\ List.filter (selected_by_substring {[ "search" := "." ]})
                 (tasks_of Examples.a_store) = [].
Proof.
  repeat split; vm_compute; reflexivity.
Qed.

(** ** Listing notes *)

Section ListNotes.
Context `{Host}.

Lemma castFilter_empty (S : Schema) : castFilter S ∅ = inr [].
Proof.
  induction S as [|[p st] S IH]; simpl; [reflexivity|].
  now rewrite lookup_empty.
Qed.

(** [GET /notes] without query parameters, on a reachable store. *)
Lemma get_all_notes_online (d : gmap string (list document)) (now : Z) :
  NoteRoutes.get_all ∅ (online d now)
  = (inr (Response 200
            (JsonDocs (sort_by (precedes [("pinned", (-1)%Z);
                                          ("createdAt", (-1)%Z)])
                               (notes_of d)))),
     online d now).
Proof.
  unfold NoteRoutes.get_all. rewrite !lookup_empty. cbn [truthy].
  unfold try_catch, bind.
  rewrite (find_online Note _ _ _ _ _ (castFilter_empty _)).
  cbn [accepted forallb]. unfold notes_of.
  now rewrite (filter_all (matches []) _ (fun _ => eq_refl)).
Qed.

(** The note a [note_body] creates: its [pinned] and [createdAt] fields. *)
Lemma post_note_body (b : gmap string js) (pinned : bool)
      (d : gmap string (list document)) (now : Z) :
  note_body b pinned ->
  exists note,
    NoteRoutes.post b (online d now)
    = (inr (Response 201 (JsonDoc note)),
       online (<["Note" := (notes_of d ++ [note])%list]> d) now)
    /\ field note "pinned" = VBool pinned
    /\ field note "createdAt" = VDate now.
Proof.
  intros ((content & Hcontent & Hne) & Hid & Hcreated & Hcast & Hpinned).
  eexists. split; [|split].
  - now apply (post_note_succeeds b d now content).
  - unfold field.
    rewrite (new_note_field _ _ _ "pinned" _ ltac:(discriminate) eq_refl).
    destruct Hpinned as [->|[-> ->]]; reflexivity.
  - unfold field.
    rewrite (new_note_field _ _ _ "createdAt" _ ltac:(discriminate) eq_refl).
    now rewrite Hcreated.
Qed.
End ListNotes.

(** ** C6: the order of notes *)

(** C6.  [GET /notes] without query parameters answers 200 with all the
    stored Notes, pinned notes before unpinned ones and, among notes pinned
    alike, by [createdAt] descending.  In particular, when an empty
    collection receives three notes in the order A (unpinned), B (pinned),
    C (unpinned), C being created later than A, the list is [B, C, A]. *)
Theorem C6_list_notes `{Host} (d : gmap string (list document)) (now : Z) :
  (exists l,
      NoteRoutes.get_all ∅ (online d now)
      = (inr (Response 200 (JsonDocs l)), online d now)
      /\ Permutation l (notes_of d)
      /\ Sorted pinned_then_newest l)
  /\ (forall (bA bB bC : gmap string js) (tA tB tC : Z),
        notes_of d = [] ->
        note_body bA false ->
        note_body bB true ->
        note_body bC false ->
        (tA < tC)%Z ->
        exists A B C d1 d2 d3,
          NoteRoutes.post bA (online d tA)
          = (inr (Response 201 (JsonDoc A)), online d1 tA)
          /\ NoteRoutes.post bB (online d1 tB)
             = (inr (Response 201 (JsonDoc B)), online d2 tB)
          /\ NoteRoutes.post bC (online d2 tC)
             = (inr (Response 201 (JsonDoc C)), online d3 tC)
          /\ NoteRoutes.get_all ∅ (online d3 now)
             = (inr (Response 200 (JsonDocs [B; C; A])), online d3 now)).
Proof.
  split.
  - rewrite get_all_notes_online. eexists. split; [reflexivity|].
    split; [apply sort_by_perm|apply sort_pinned_then_newest].
  - intros bA bB bC tA tB tC Hempty HA HB HC Hlt.
    destruct (post_note_body bA false d tA HA) as (A & HpostA & HpA & HcA).
    rewrite Hempty in HpostA. cbn [app] in HpostA.
    destruct (post_note_body bB true (<["Note" := [A]]> d) tB HB)
      as (B & HpostB & HpB & HcB).
    rewrite notes_of_insert in HpostB. cbn [app] in HpostB.
    destruct (post_note_body bC false
                (<["Note" := [A; B]]> (<["Note" := [A]]> d)) tC HC)
      as (C & HpostC & HpC & HcC).
    rewrite notes_of_insert in HpostC. cbn [app] in HpostC.
    exists A, B, C. eexists _, _, _.
    split; [exact HpostA|]. split; [exact HpostB|]. split; [exact HpostC|].
    rewrite get_all_notes_online, notes_of_insert.
    unfold sort_by. cbn [fold_right insert_by].
    assert (HBC : precedes [("pinned", (-1)%Z); ("createdAt", (-1)%Z)] B C
                  = true).
    { unfold precedes, compare_docs. now rewrite HpB, HpC. }
    assert (HAB : precedes [("pinned", (-1)%Z); ("createdAt", (-1)%Z)] A B
                  = false).
    { unfold precedes, compare_docs. now rewrite HpA, HpB. }
    assert (HAC : precedes [("pinned", (-1)%Z); ("createdAt", (-1)%Z)] A C
                  = false).
    { unfold precedes, compare_docs. rewrite HpA, HpC, HcA, HcC.
      cbn [bson_compare Bool.compare]. now rewrite (proj2 (Z.compare_lt_iff _ _) Hlt). }
    rewrite HBC. cbn [insert_by]. rewrite HAB. cbn [insert_by].
    now rewrite HAC.
Qed.

Lemma C6_list_notes_witness :
  exists A B C d1 d2 d3,
    NoteRoutes.post (H := Node.host)
      (<["pinned" := JBool false]> {[ "content" := JStr "First regular" ]})
      (online Examples.a_store 1000)
    = (inr (Response 201 (JsonDoc A)), online d1 1000)
    /\ NoteRoutes.post (H := Node.host)
         (<["pinned" := JBool true]> {[ "content" := JStr "Pinned second" ]})
         (online d1 2000)
       = (inr (Response 201 (JsonDoc B)), online d2 2000)
    /\ NoteRoutes.post (H := Node.host)
         {[ "content" := JStr "Regular third" ]} (online d2 3000)
       = (inr (Response 201 (JsonDoc C)), online d3 3000)
    /\ NoteRoutes.get_all (H := Node.host) ∅ (online d3 4000)
       = (inr (Response 200 (JsonDocs [B; C; A])), online d3 4000).
Proof.
  apply (proj2 (C6_list_notes (H := Node.host) Examples.a_store 4000)).
  - vm_compute. reflexivity.
  - split; [exists "First regular"; split; [vm_compute; reflexivity|discriminate]|].
    split; [vm_compute; reflexivity|]. split; [vm_compute; reflexivity|].
    split; [vm_compute; reflexivity|]. left. vm_compute. reflexivity.
  - split; [exists "Pinned second"; split; [vm_compute; reflexivity|discriminate]|].
    split; [vm_compute; reflexivity|]. split; [vm_compute; reflexivity|].
    split; [vm_compute; reflexivity|]. left. vm_compute. reflexivity.
  - split; [exists "Regular third"; split; [vm_compute; reflexivity|discriminate]|].
    split; [vm_compute; reflexivity|]. split; [vm_compute; reflexivity|].
    split; [vm_compute; reflexivity|]. right. split; [reflexivity|].
    vm_compute. reflexivity.
  - reflexivity.
Defined.

(** ** Counting *)

Section Counting.
Context `{Host}.

Lemma roundtrip_run (d : gmap string (list document)) (now : Z)
      (fs : list (option error)) :
  roundtrip (World d now fs) = (outcome (head fs) tt, World d now (tail fs)).
Proof. unfold roundtrip. cbn [faults db clock]. now destruct fs as [|[e|] fs]. Qed.

(** A count is one round trip: it yields the number of matching documents
    unless the store fails, and writes nothing. *)
Lemma countDocuments_run (m : Model) (filter : gmap string cond)
      (cq : list (string * cast_cond)) (d : gmap string (list document))
      (now : Z) (fs : list (option error)) :
  castFilter (paths (schema m)) filter = inr cq ->
  accepted cq = true ->
  countDocuments m filter (World d now fs)
  = (outcome (head fs) (length (List.filter (matches cq) (docs_of d m))),
     World d now (tail fs)).
Proof.
  intros Hcq Hacc. unfold countDocuments, query, bind. rewrite Hcq.
  cbn [lift ret]. rewrite roundtrip_run, Hacc.
  unfold outcome, collection, ret. cbn [db].
  destruct (head fs) as [[e|]|]; reflexivity.
Qed.

Lemma settle_outcomes {A} (ps : list (M A)) (vs : list A)
      (d : gmap string (list document)) (now : Z) :
  Forall2 (fun p v => forall fs,
               p (World d now fs)
               = (outcome (head fs) v, World d now (tail fs))) ps vs ->
  forall fs,
    settle ps (World d now fs)
    = (outcomes fs vs, World d now (skipn (length vs) fs)).
Proof.
  induction 1 as [|p v ps vs Hp _ IH]; intros fs; cbn [settle outcomes].
  - reflexivity.
  - rewrite Hp, IH. cbn [length].
    destruct fs; cbn [tail skipn]; [now rewrite skipn_nil|reflexivity].
Qed.

Lemma fulfilled_healthy {A} (vs : list A) (fs : list (option error)) :
  healthy (length vs) fs -> fulfilled (outcomes fs vs) = inr vs.
Proof.
  unfold healthy. revert fs.
  induction vs as [|v vs IH]; intros fs Hfs; cbn [outcomes fulfilled];
    [reflexivity|].
  destruct fs as [|f fs]; cbn [head tail outcome length firstn] in *.
  - now rewrite (IH []) by (destruct (length vs); constructor).
  - apply Forall_cons_iff in Hfs as [-> Hfs]. now rewrite (IH fs).
Qed.

Lemma fulfilled_faulty {A} (vs : list A) (fs : list (option error)) :
  faulty (length vs) fs -> exists e, fulfilled (outcomes fs vs) = inl e.
Proof.
  unfold faulty. revert fs.
  induction vs as [|v vs IH]; intros fs Hfs; cbn [outcomes fulfilled length firstn] in *.
  - apply Exists_nil in Hfs. contradiction.
  - destruct fs as [|f fs]; cbn [head tail outcome firstn] in *.
    + apply Exists_nil in Hfs. contradiction.
    + destruct f as [e|]; [now exists e|].
      apply Exists_cons in Hfs as [Hf|Hfs]; [congruence|].
      destruct (IH fs Hfs) as [e ->]. now exists e.
Qed.

Lemma count_equals (p s : string) (l : list document) :
  length (List.filter (matches [(p, CEquals (VStr s))]) l) = count_where p s l.
Proof.
  unfold count_where. f_equal. apply List.filter_ext. intros t.
  unfold matches. cbn [forallb fst snd].
  now rewrite satisfies_equals, andb_true_r.
Qed.

Lemma count_all (l : list document) :
  length (List.filter (matches []) l) = length l.
Proof. now rewrite (filter_all (matches []) l (fun _ => eq_refl)). Qed.

Lemma castFilter_task_equals (p s : string) :
  In p ["status"; "priority"] ->
  castFilter (paths taskSchema) {[ p := Equals (JStr s) ]}
  = inr [(p, CEquals (VStr s))].
Proof.
  intros [<-|[<-|[]]]; unfold paths, taskSchema, id_path; cbn [castFilter];
    rewrite lookup_singleton_eq, !lookup_singleton_ne by discriminate;
    reflexivity.
Qed.
End Counting.

Section Stats.
Context `{Host}.

(** The nine counts of [GET /stats], in the order of the source. *)
Lemma stats_counts (d : gmap string (list document)) (now : Z) :
  Forall2 (fun (p : M nat) v =>
             forall fs, p (World d now fs)
                        = (outcome (head fs) v, World d now (tail fs)))
    [countDocuments Task ∅;
     countDocuments Task {["status" := Equals (JStr "pending")]};
     countDocuments Task {["status" := Equals (JStr "in-progress")]};
     countDocuments Task {["status" := Equals (JStr "completed")]};
     countDocuments Task {["priority" := Equals (JStr "high")]};
     countDocuments Task {["priority" := Equals (JStr "medium")]};
     countDocuments Task {["priority" := Equals (JStr "low")]};
     countDocuments Category ∅;
     countDocuments Note ∅]
    [length (tasks_of d);
     count_where "status" "pending" (tasks_of d);
     count_where "status" "in-progress" (tasks_of d);
     count_where "status" "completed" (tasks_of d);
     count_where "priority" "high" (tasks_of d);
     count_where "priority" "medium" (tasks_of d);
     count_where "priority" "low" (tasks_of d);
     length (categories_of d);
     length (notes_of d)].
Proof.
  repeat constructor; intros fs.
  - rewrite (countDocuments_run Task _ _ _ _ _ (castFilter_empty _) eq_refl).
    now rewrite count_all.
  - rewrite (countDocuments_run Task _ _ _ _ _
               (castFilter_task_equals "status" _ ltac:(simpl; tauto)) eq_refl).
    now rewrite count_equals.
  - rewrite (countDocuments_run Task _ _ _ _ _
               (castFilter_task_equals "status" _ ltac:(simpl; tauto)) eq_refl).
    now rewrite count_equals.
  - rewrite (countDocuments_run Task _ _ _ _ _
               (castFilter_task_equals "status" _ ltac:(simpl; tauto)) eq_refl).
    now rewrite count_equals.
  - rewrite (countDocuments_run Task _ _ _ _ _
               (castFilter_task_equals "priority" _ ltac:(simpl; tauto)) eq_refl).
    now rewrite count_equals.
  - rewrite (countDocuments_run Task _ _ _ _ _
               (castFilter_task_equals "priority" _ ltac:(simpl; tauto)) eq_refl).
    now rewrite count_equals.
  - rewrite (countDocuments_run Task _ _ _ _ _
               (castFilter_task_equals "priority" _ ltac:(simpl; tauto)) eq_refl).
    now rewrite count_equals.
  - rewrite (countDocuments_run Category _ _ _ _ _ (castFilter_empty _) eq_refl).
    now rewrite count_all.
  - rewrite (countDocuments_run Note _ _ _ _ _ (castFilter_empty _) eq_refl).
    now rewrite count_all.
Qed.
End Stats.

(** ** C7: the statistics *)

(** C7.  [GET /stats] makes nine count queries and writes nothing.  When
    none of them fails it answers 200 with the nested object whose fields
    are the counts over the store: all Tasks, Tasks of each status, Tasks of
    each priority, all Categories, all Notes.  When any one of them fails
    it answers 500 with an [error] body and no counts. *)
Theorem C7_stats `{Host} (d : gmap string (list document)) (now : Z)
        (fs : list (option error)) :
  exists r,
    StatsRoutes.get (World d now fs) = (inr r, World d now (skipn 9 fs))
    /\ (healthy 9 fs ->
        r = Response 200 (JsonStats {|
              tasks := {| total := length (tasks_of d);
                          pending := count_where "status" "pending" (tasks_of d);
                          inProgress :=
                            count_where "status" "in-progress" (tasks_of d);
                          completed :=
                            count_where "status" "completed" (tasks_of d) |};
              priority := {| high := count_where "priority" "high" (tasks_of d);
                             medium :=
                               count_where "priority" "medium" (tasks_of d);
                             low := count_where "priority" "low" (tasks_of d) |};
              categories := length (categories_of d);
              notes := length (notes_of d) |}))
    /\ (faulty 9 fs -> exists m, r = Response 500 (JsonError m)).
Proof.
  unfold StatsRoutes.get, try_catch, bind, Promise_all.
  rewrite (settle_outcomes _ _ d now (stats_counts d now) fs).
  cbn [length].
  match goal with
  | |- context [fulfilled (outcomes fs ?vs)] =>
      pose proof (fulfilled_healthy vs fs) as Hhealthy;
      pose proof (fulfilled_faulty vs fs) as Hfaulty;
      destruct (fulfilled (outcomes fs vs)) as [e|counts]
  end; cbn [length] in Hhealthy, Hfaulty.
  - eexists. split; [reflexivity|]. split.
    + intros Hh. now specialize (Hhealthy Hh).
    + intros _. now eexists.
  - eexists. split; [reflexivity|]. split.
    + intros Hh. specialize (Hhealthy Hh). injection Hhealthy as ->.
      reflexivity.
    + intros Hf. now destruct (Hfaulty Hf).
Qed.

Lemma C7_stats_witness :
  (exists m,
      StatsRoutes.get (H := Node.host)
        (World Examples.a_store Examples.later
               [None; None; Some (MongoNetworkError "connection lost")])
      = (inr (Response 500 (JsonError m)),
         World Examples.a_store Examples.later []))
  /\ StatsRoutes.get (H := Node.host) (online Examples.a_store Examples.later)
     = (inr (Response 200 (JsonStats {|
               tasks := {| total := 1; pending := 1; inProgress := 0;
                           completed := 0 |};
               priority := {| high := 0; medium := 1; low := 0 |};
               categories := 0;
               notes := 0 |})),
        online Examples.a_store Examples.later).
Proof.
  split.
  - destruct (C7_stats (H := Node.host) Examples.a_store Examples.later
                [None; None; Some (MongoNetworkError "connection lost")])
      as (r & Hrun & _ & Hfail).
    destruct Hfail as [m ->].
    + unfold faulty. cbn [firstn].
      apply Exists_cons_tl, Exists_cons_tl, Exists_cons_hd. discriminate.
    + exists m. exact Hrun.
  - destruct (C7_stats (H := Node.host) Examples.a_store Examples.later [])
      as (r & Hrun & Hok & _).
    rewrite Hok in Hrun by constructor. exact Hrun.
Defined.

(** * Further properties of the code *)

(** ** Every request is answered *)

(** X1.  The five handlers of [src/routes/tasks.js] answer every request,
    in every state of the world, store failures included: no exception
    escapes them.  [GET /tasks] answers 200 with a list or 500;
    [GET /tasks/:id] answers 200 with a document, 404 or 500; [POST /tasks]
    answers 201 with a document or 400; [PUT /tasks/:id] answers 200 with a
    document, 404 or 400; [DELETE /tasks/:id] answers 200 with a message,
    404 or 500.  Every answer that is not a success carries an [error]
    body. *)
Theorem X1_task_routes_always_respond `{Host}
        (w : world) (q : gmap string string) (id : string)
        (body : gmap string js) :
  (exists r w',
      TaskRoutes.get_all q w = (inr r, w')
      /\ ((exists l, r = Response 200 (JsonDocs l))
          \/ (exists m, r = Response 500 (JsonError m))))
  /\ (exists r w',
         TaskRoutes.get_by_id id w = (inr r, w')
         /\ ((exists t, r = Response 200 (JsonDoc t))
             \/ r = Response 404 (JsonError (Text "Task not found"))
             \/ (exists m, r = Response 500 (JsonError m))))
  /\ (exists r w',
         TaskRoutes.post body w = (inr r, w')
         /\ ((exists t, r = Response 201 (JsonDoc t))
             \/ (exists m, r = Response 400 (JsonError m))))
  /\ (exists r w',
         TaskRoutes.put id body w = (inr r, w')
         /\ ((exists t, r = Response 200 (JsonDoc t))
             \/ r = Response 404 (JsonError (Text "Task not found"))
             \/ (exists m, r = Response 400 (JsonError m))))
  /\ (exists r w',
         TaskRoutes.delete id w = (inr r, w')
         /\ (r = Response 200 (JsonMessage "Task deleted successfully")
             \/ r = Response 404 (JsonError (Text "Task not found"))
             \/ (exists m, r = Response 500 (JsonError m)))).
Proof.
  repeat split.
  - unfold TaskRoutes.get_all, try_catch, bind.
    match goal with
    | |- context [find ?m ?f ?s w] => destruct (find m f s w) as [[e|l] w']
    end; eexists _, _; (split; [reflexivity|]); eauto.
  - unfold TaskRoutes.get_by_id, try_catch, bind.
    destruct (findById Task id w) as [[e|[t|]] w'];
      eexists _, _; (split; [reflexivity|]); eauto.
  - rewrite post_task_run.
    destruct (bind (Model_new Task body) (save Task) w) as [[e|t] w'];
      eexists _, _; (split; [reflexivity|]); eauto.
  - unfold TaskRoutes.put, try_catch, bind, Date_now.
    match goal with
    | |- context [findByIdAndUpdate ?m ?i ?u w] =>
        destruct (findByIdAndUpdate m i u w) as [[e|[t|]] w']
    end; eexists _, _; (split; [reflexivity|]); eauto.
  - unfold TaskRoutes.delete, try_catch, bind.
    destruct (findByIdAndDelete Task id w) as [[e|[t|]] w'];
      eexists _, _; (split; [reflexivity|]); eauto.
Qed.

(** ** What each store operation may change *)

Section Effects.
Context `{Host}.

Lemma roundtrip_effect (w : world) :
  exists r fs, roundtrip w = (r, World (db w) (clock w) fs).
Proof.
  unfold roundtrip. destruct w as [d now [|[e|] fs]]; cbn [faults db clock];
    eexists _, _; reflexivity.
Qed.

(** A query reads: it leaves the collections and the clock as they are. *)
Lemma query_effect (m : Model) (filter : gmap string cond) (w : world) :
  exists r fs, query m filter w = (r, World (db w) (clock w) fs).
Proof.
  unfold query. destruct (castFilter (paths (schema m)) filter) as [e|q].
  - run. destruct w. now eexists _, _.
  - unfold bind at 1. cbn [lift ret]. unfold bind at 1.
    destruct (roundtrip_effect w) as (r & fs & ->).
    destruct r as [e|[]]; [now eexists _, _|].
    destruct (accepted q); run; now eexists _, _.
Qed.

Lemma find_effect (m : Model) (filter : gmap string cond)
      (spec : list (string * Z)) (w : world) :
  exists r fs, find m filter spec w = (r, World (db w) (clock w) fs).
Proof.
  unfold find, bind. destruct (query_effect m filter w) as (r & fs & ->).
  destruct r; now eexists _, _.
Qed.

Lemma findById_effect (m : Model) (id : string) (w : world) :
  exists r fs, findById m id w = (r, World (db w) (clock w) fs).
Proof.
  unfold findById. destruct (castId id) as [e|n].
  - run. destruct w. now eexists _, _.
  - unfold bind at 1. cbn [lift ret]. unfold bind at 1.
    destruct (roundtrip_effect w) as (r & fs & ->).
    destruct r as [e|[]]; [now eexists _, _|].
    run. now eexists _, _.
Qed.
End Effects.

(** ** Reading never writes *)

(** X2.  The read handlers — [GET /tasks], [GET /tasks/:id], [GET /notes],
    [GET /notes/:id] — leave every collection and the clock as they found
    them, for every query, identifier and state of the world, whatever they
    answer. *)
Theorem X2_reads_never_write `{Host}
        (w : world) (q : gmap string string) (id : string) :
  (exists r fs, TaskRoutes.get_all q w = (r, World (db w) (clock w) fs))
  /\ (exists r fs, TaskRoutes.get_by_id id w = (r, World (db w) (clock w) fs))
  /\ (exists r fs, NoteRoutes.get_all q w = (r, World (db w) (clock w) fs))
  /\ (exists r fs, NoteRoutes.get_by_id id w = (r, World (db w) (clock w) fs)).
Proof.
  repeat split.
  - unfold TaskRoutes.get_all, try_catch, bind.
    match goal with
    | |- context [find ?m ?f ?s w] =>
        destruct (find_effect m f s w) as (r & fs & ->)
    end.
    destruct r; now eexists _, _.
  - unfold TaskRoutes.get_by_id, try_catch, bind.
    destruct (findById_effect Task id w) as (r & fs & ->).
    destruct r as [e|[t|]]; now eexists _, _.
  - unfold NoteRoutes.get_all, try_catch, bind.
    match goal with
    | |- context [find ?m ?f ?s w] =>
        destruct (find_effect m f s w) as (r & fs & ->)
    end.
    destruct r; now eexists _, _.
  - unfold NoteRoutes.get_by_id, try_catch, bind.
    destruct (findById_effect Note id w) as (r & fs & ->).
    destruct r as [e|[t|]]; now eexists _, _.
Qed.

(** ** Store failures *)

Section Failures.
Context `{Host}.

(** [new Model(body)] followed by [save()], whatever the state of the
    store: the round trip that inserts the document may fail. *)
Lemma create_run (m : Model) (body : gmap string js)
      (d : gmap string (list document)) (now : Z) (fs : list (option error)) :
  bind (Model_new m body) (save m) (World d now fs)
  = let draft := hydrate (paths (schema m)) body now
                         (N.succ (max_oid (docs_of d m))) in
    match (draft.2 ++ validate (paths (schema m)) draft.1)%list with
    | _ :: _ as errs => (inl (ValidationError errs), World d now fs)
    | [] =>
        let this := pre_save m now draft.1 in
        match oid_of this with
        | None =>
            (inl (MongooseError "document must have an _id before saving"),
             World d now fs)
        | Some n =>
            match head fs with
            | Some (Some e) => (inl e, World d now (tail fs))
            | _ =>
                if existsb (has_id n) (docs_of d m)
                then (inl (MongoServerError DuplicateKey),
                      World d now (tail fs))
                else (inr this,
                      World (<[modelName m := (docs_of d m ++ [this])%list]> d)
                            now (tail fs))
            end
        end
    end.
Proof.
  unfold Model_new, ObjectId_new, save. run.
  destruct (hydrate (paths (schema m)) body now
                    (N.succ (max_oid (docs_of d m)))) as [doc errs].
  cbn [fst snd].
  destruct (errs ++ validate (paths (schema m)) doc)%list; [|reflexivity].
  destruct (oid_of (pre_save m now doc)); [|reflexivity].
  destruct fs as [|[e|] fs]; cbn [head tail]; try reflexivity;
    now destruct (existsb (has_id n) (docs_of d m)).
Qed.

(** A body that creates a document on a healthy store gets its round trip
    to the store whatever the state of the store. *)
Lemma create_reaches_store (m : Model) (body : gmap string js)
      (d : gmap string (list document)) (now : Z) (doc : document)
      (w' : world) (e : error) (fs : list (option error)) :
  bind (Model_new m body) (save m) (online d now) = (inr doc, w') ->
  bind (Model_new m body) (save m) (World d now (Some e :: fs))
  = (inl e, World d now fs).
Proof.
  rewrite create_online, create_run. cbn zeta.
  destruct ((hydrate (paths (schema m)) body now
               (N.succ (max_oid (docs_of d m)))).2
            ++ validate (paths (schema m))
                 (hydrate (paths (schema m)) body now
                    (N.succ (max_oid (docs_of d m)))).1)%list;
    [|discriminate].
  destruct (oid_of _); [|discriminate]. reflexivity.
Qed.

Lemma query_fails (m : Model) (filter : gmap string cond)
      (cq : list (string * cast_cond)) (d : gmap string (list document))
      (now : Z) (e : error) (fs : list (option error)) :
  castFilter (paths (schema m)) filter = inr cq ->
  query m filter (World d now (Some e :: fs)) = (inl e, World d now fs).
Proof. intros Hcq. unfold query. rewrite Hcq. now run. Qed.

Lemma findByIdAndUpdate_fails (m : Model) (id : string) (n : N)
      (u : gmap string js) (d : gmap string (list document)) (now : Z)
      (e : error) (fs : list (option error)) :
  ObjectId_of_string id = Some n ->
  castable (paths (schema m)) u = true ->
  findByIdAndUpdate m id u (World d now (Some e :: fs))
  = (inl e, World d now fs).
Proof.
  intros Hid [set Hset]%castUpdate_castable. unfold findByIdAndUpdate.
  rewrite (castId_Some _ _ Hid), Hset. now run.
Qed.
End Failures.

(** X3.  When the round trip to the store fails with an error [e], the
    handlers of [src/routes/tasks.js] report it with the status of their
    [catch] block and the message of [e], and write nothing: 500 for
    [GET /tasks], [GET /tasks/:id] and [DELETE /tasks/:id], but 400 for
    [PUT /tasks/:id] and [POST /tasks] — a store outage during a creation
    or an update is answered as a client error.  The identifier parses, the
    update casts, and the body is one that a healthy store accepts. *)
Theorem X3_store_failure_status `{Host}
        (d : gmap string (list document)) (now : Z) (e : error)
        (fs : list (option error)) (q : gmap string string) (id : string)
        (n : N) (body : gmap string js) :
  TaskRoutes.get_all q (World d now (Some e :: fs))
  = (inr (Response 500 (JsonError (message e))), World d now fs)
  /\ (ObjectId_of_string id = Some n ->
      TaskRoutes.get_by_id id (World d now (Some e :: fs))
      = (inr (Response 500 (JsonError (message e))), World d now fs)
      /\ TaskRoutes.delete id (World d now (Some e :: fs))
         = (inr (Response 500 (JsonError (message e))), World d now fs)
      /\ (castable (paths taskSchema) (<["updatedAt" := JDate now]> body)
          = true ->
          TaskRoutes.put id body (World d now (Some e :: fs))
          = (inr (Response 400 (JsonError (message e))), World d now fs)))
  /\ (forall task w',
        TaskRoutes.post body (online d now)
        = (inr (Response 201 (JsonDoc task)), w') ->
        TaskRoutes.post body (World d now (Some e :: fs))
        = (inr (Response 400 (JsonError (message e))), World d now fs)).
Proof.
  split; [|split].
  - destruct (tasks_filter_cast q) as (cq & Hcq & _).
    rewrite get_all_tasks_filter. unfold find, try_catch, bind.
    now rewrite (query_fails Task _ _ _ _ _ _ Hcq).
  - intros Hid. split; [|split].
    + unfold TaskRoutes.get_by_id, findById.
      rewrite (castId_Some _ _ Hid). now run.
    + unfold TaskRoutes.delete, findByIdAndDelete.
      rewrite (castId_Some _ _ Hid). now run.
    + intros Hcast. unfold TaskRoutes.put, try_catch, bind, Date_now.
      cbn [clock].
      now rewrite (findByIdAndUpdate_fails Task _ _ _ _ _ _ _ Hid Hcast).
  - intros task w'. rewrite !post_task_run.
    destruct (bind (Model_new Task body) (save Task) (online d now))
      as [[err|doc] w1] eqn:Hrun; [discriminate|]. intros _.
    now rewrite (create_reaches_store _ _ _ _ _ _ e fs Hrun).
Qed.

Lemma X3_store_failure_status_witness :
  TaskRoutes.get_by_id (H := Node.host) Examples.an_id
    (World Examples.a_store Examples.later [Some Notebook.a_fault])
  = (inr (Response 500 (JsonError (message Notebook.a_fault))),
     World Examples.a_store Examples.later [])
  /\ TaskRoutes.put (H := Node.host) Examples.an_id
       {[ "title" := JStr "Updated" ]}
       (World Examples.a_store Examples.later [Some Notebook.a_fault])
     = (inr (Response 400 (JsonError (message Notebook.a_fault))),
        World Examples.a_store Examples.later [])
  /\ TaskRoutes.post (H := Node.host) {[ "title" := JStr "Minimal task" ]}
       (World Examples.a_store Examples.later [Some Notebook.a_fault])
     = (inr (Response 400 (JsonError (message Notebook.a_fault))),
        World Examples.a_store Examples.later []).
Proof.
  destruct (X3_store_failure_status (H := Node.host) Examples.a_store
              Examples.later Notebook.a_fault [] ∅ Examples.an_id
              Examples.an_oid {[ "title" := JStr "Updated" ]})
    as (_ & Hid & _).
  destruct Hid as (Hget & _ & Hput); [vm_compute; reflexivity|].
  split; [exact Hget|]. split; [apply Hput; vm_compute; reflexivity|].
  assert (Hpost := post_task_succeeds (H := Node.host)
                     {[ "title" := JStr "Minimal task" ]}
                     Examples.a_store Examples.later "Minimal task").
  cbv zeta in Hpost.
  specialize (Hpost ltac:(vm_compute; reflexivity) ltac:(discriminate)
                    ltac:(vm_compute; reflexivity)
                    ltac:(vm_compute; reflexivity)
                    ltac:(vm_compute; reflexivity)
                    ltac:(vm_compute; reflexivity)).
  destruct (X3_store_failure_status (H := Node.host) Examples.a_store
              Examples.later Notebook.a_fault [] ∅ Examples.an_id
              Examples.an_oid {[ "title" := JStr "Minimal task" ]})
    as (_ & _ & Hfails).
  exact (Hfails _ _ Hpost).
Defined.

(** ** Deleting *)

Section Deleting.
Context `{Host}.

Lemma find_split {A} (P : A -> bool) (l : list A) (t : A) :
  List.find P l = Some t ->
  exists l1 l2,
    l = (l1 ++ t :: l2)%list
    /\ remove_first P l = (l1 ++ l2)%list
    /\ (forall f, update_first P f l = (l1 ++ f t :: l2)%list)
    /\ Forall (fun x => P x = false) l1.
Proof.
  induction l as [|x l IH]; simpl; [discriminate|].
  destruct (P x) eqn:Hx.
  - intros [= ->]. exists [], l. repeat split. constructor.
  - intros (l1 & l2 & -> & Hr & Hu & Hl1)%IH. exists (x :: l1), l2.
    cbn [app]. rewrite Hr. repeat split.
    + intros f. now rewrite Hu.
    + now constructor.
Qed.

Lemma distinct_ids_unique (l1 l2 : list document) (t : document) (n : N) :
  distinct_ids (l1 ++ t :: l2) ->
  t !! "_id" = Some (VOid n) ->
  List.find (has_id n) (l1 ++ l2) = None.
Proof.
  unfold distinct_ids. rewrite fmap_app, fmap_cons.
  intros Hnd Ht. apply NoDup_app in Hnd as (_ & Hdisj & Hnd2).
  apply NoDup_cons in Hnd2 as [Hnin2 _].
  apply find_has_id_None, Forall_app. split; apply Forall_forall;
    intros x Hin Hx.
  - apply (Hdisj (Some (VOid n))).
    + apply list_elem_of_fmap. exists x. split; [now symmetry|assumption].
    + rewrite <- Ht. apply list_elem_of_here.
  - apply Hnin2. rewrite Ht. apply list_elem_of_fmap. exists x.
    split; [now symmetry|assumption].
Qed.

Lemma findByIdAndDelete_found (m : Model) (id : string) (n : N) (t : document)
      (d : gmap string (list document)) (now : Z) :
  ObjectId_of_string id = Some n ->
  List.find (has_id n) (docs_of d m) = Some t ->
  findByIdAndDelete m id (online d now)
  = (inr (Some t),
     online (<[modelName m := remove_first (has_id n) (docs_of d m)]> d) now).
Proof.
  intros Hid Hfind. unfold findByIdAndDelete.
  rewrite (castId_Some _ _ Hid). run. now rewrite Hfind.
Qed.
End Deleting.

(** X4.  [DELETE /tasks/:id] on a stored Task answers 200 with
    [{ message: "Task deleted successfully" }] and takes exactly that
    document out of the collection: the documents before and after it keep
    their order, and the other collections are untouched.  When the stored
    identifiers are distinct, fetching or deleting the same identifier again
    answers 404. *)
Theorem X4_delete_task `{Host}
        (d : gmap string (list document)) (now : Z) (id : string) (n : N)
        (t : document) :
  ObjectId_of_string id = Some n ->
  List.find (has_id n) (tasks_of d) = Some t ->
  exists d' l1 l2,
    TaskRoutes.delete id (online d now)
    = (inr (Response 200 (JsonMessage "Task deleted successfully")),
       online d' now)
    /\ tasks_of d = (l1 ++ t :: l2)%list
    /\ tasks_of d' = (l1 ++ l2)%list
    /\ (forall k, k <> "Task" -> d' !! k = d !! k)
    /\ (distinct_ids (tasks_of d) ->
        forall later,
          TaskRoutes.get_by_id id (online d' later)
          = (inr (Response 404 (JsonError (Text "Task not found"))),
             online d' later)
          /\ TaskRoutes.delete id (online d' later)
             = (inr (Response 404 (JsonError (Text "Task not found"))),
                online d' later)).
Proof.
  intros Hid Hfind.
  destruct (find_split _ _ _ Hfind) as (l1 & l2 & Hl & Hrem & _ & _).
  exists (<["Task" := remove_first (has_id n) (tasks_of d)]> d), l1, l2.
  split; [|split; [exact Hl|split; [|split]]].
  - unfold TaskRoutes.delete, try_catch, bind.
    now rewrite (findByIdAndDelete_found Task _ _ _ _ _ Hid Hfind).
  - now rewrite tasks_of_insert.
  - intros k Hk. now rewrite lookup_insert_ne.
  - intros Hdistinct later.
    assert (Hgone : List.find (has_id n)
                      (docs_of (<["Task" := remove_first (has_id n)
                                              (tasks_of d)]> d) Task) = None).
    { rewrite (docs_of_insert d Task), Hrem. rewrite Hl in Hdistinct.
      apply (distinct_ids_unique _ _ t); [assumption|].
      now apply (find_has_id n (tasks_of d)). }
    split.
    + unfold TaskRoutes.get_by_id, try_catch, bind.
      rewrite (findById_online _ _ _ _ _ Hid). now rewrite Hgone.
    + unfold TaskRoutes.delete, try_catch, bind.
      now rewrite (findByIdAndDelete_absent _ _ _ _ _ Hid Hgone).
Qed.

Lemma X4_delete_task_witness :
  exists d',
    TaskRoutes.delete (H := Node.host) Examples.an_id
                      (online Examples.a_store Examples.later)
    = (inr (Response 200 (JsonMessage "Task deleted successfully")),
       online d' Examples.later)
    /\ tasks_of d' = []
    /\ TaskRoutes.get_by_id (H := Node.host) Examples.an_id
                            (online d' Examples.later)
       = (inr (Response 404 (JsonError (Text "Task not found"))),
          online d' Examples.later).
Proof.
  destruct (X4_delete_task (H := Node.host) Examples.a_store Examples.later
              Examples.an_id Examples.an_oid Examples.a_task)
    as (d' & l1 & l2 & Hrun & Hbefore & Hafter & _ & Hgone).
  - vm_compute. reflexivity.
  - reflexivity.
  - exists d'. split; [exact Hrun|]. split.
    + rewrite Hafter.
      assert (Hlen : length (l1 ++ Examples.a_task :: l2) = 1)
        by (rewrite <- Hbefore; vm_compute; reflexivity).
      rewrite length_app in Hlen. cbn [length] in Hlen.
      destruct l1, l2; cbn [length] in Hlen; try lia. reflexivity.
    + apply Hgone. unfold distinct_ids. apply NoDup_singleton.
Defined.

(** ** Creating, then reading *)

Section CreateRead.
Context `{Host}.



Lemma distinct_ids_snoc (n : N) (l : list document) (doc : document) :
  distinct_ids l ->
  List.find (has_id n) l = None ->
  doc !! "_id" = Some (VOid n) ->
  distinct_ids (l ++ [doc]).
Proof.
  unfold distinct_ids. intros Hnd Hnone Hdoc.
  rewrite fmap_app. apply NoDup_app. split; [assumption|]. split.
  - intros o (x & -> & Hin)%list_elem_of_fmap.
    intros [Heq|Hnil%elem_of_nil]%elem_of_cons; [|assumption].
    apply list_elem_of_In in Hin.
    assert (Hx : has_id n x = true).
    { unfold has_id. apply bool_decide_eq_true_2. congruence. }
    pose proof (find_none _ _ Hnone x Hin). congruence.
  - cbn. apply NoDup_singleton.
Qed.
End CreateRead.



(** ** Updating: what changes and what does not *)

Section UpdateFrame.
Context `{Host}.

Lemma castUpdate_lookup_stranger (S : Schema) (u : gmap string js)
      (set : document) (p : string) :
  castUpdate S u = inr set -> Schema_path S p = None -> set !! p = None.
Proof.
  revert set. induction S as [|[q st] S IH]; simpl; intros set Hc Hp.
  - injection Hc as <-. apply lookup_empty.
  - destruct (String.eqb_spec p q) as [->|Hne]; [discriminate|].
    destruct (u !! q) as [v|]; [|now apply IH].
    destruct (cast (type st) q v) as [|x]; [discriminate|].
    destruct (castUpdate S u) as [|set']; [discriminate|].
    injection Hc as <-. rewrite lookup_insert_ne by congruence. now apply IH.
Qed.

(** [findByIdAndUpdate] with [{ ...body, updatedAt: new Date() }] on a
    stored document, for a model whose [updatedAt] path is a date. *)
Lemma update_found (m : Model) (st : SchemaType)
      (d : gmap string (list document)) (now : Z) (id : string) (n : N)
      (t : document) (body : gmap string js) :
  Schema_path (paths (schema m)) "updatedAt" = Some st ->
  type st = SchemaDate ->
  ObjectId_of_string id = Some n ->
  List.find (has_id n) (docs_of d m) = Some t ->
  body !! "_id" = None ->
  castable (paths (schema m)) (<["updatedAt" := JDate now]> body) = true ->
  exists t' l1 l2,
    findByIdAndUpdate m id (<["updatedAt" := JDate now]> body) (online d now)
    = (inr (Some t'),
       online (<[modelName m := (l1 ++ t' :: l2)%list]> d) now)
    /\ docs_of d m = (l1 ++ t :: l2)%list
    /\ t' !! "_id" = Some (VOid n)
    /\ t' !! "updatedAt" = Some (VDate now)
    /\ (forall p, p <> "updatedAt" ->
                  body !! p = None \/ Schema_path (paths (schema m)) p = None ->
                  t' !! p = t !! p)
    /\ (forall p st' v,
          p <> "updatedAt" ->
          Schema_path (paths (schema m)) p = Some st' ->
          body !! p = Some v ->
          exists x, cast (type st') p v = inr x /\ t' !! p = Some x).
Proof.
  intros Hpath Hdate Hid Hfind Hno Hcast.
  destruct (castUpdate_castable _ _ Hcast) as [set Hset].
  assert (Hset_id : set !! "_id" = None).
  { apply (castUpdate_lookup_None _ _ _ _ Hset).
    now rewrite lookup_insert_ne. }
  destruct (find_split _ _ _ Hfind) as (l1 & l2 & Hl & _ & Hupd & _).
  exists (set ∪ t), l1, l2. split; [|split; [exact Hl|split; [|split; [|split]]]].
  - rewrite (findByIdAndUpdate_found m _ _ _ _ _ _ _ Hid Hset Hset_id Hfind).
    now rewrite Hupd.
  - rewrite lookup_union_r by assumption.
    now apply (find_has_id n (docs_of d m)).
  - destruct (castUpdate_lookup_Some _ _ _ "updatedAt" _ (JDate now) Hset
                Hpath) as (x & Hx & Hlook).
    + apply lookup_insert_eq.
    + rewrite Hdate in Hx. injection Hx as <-.
      now apply lookup_union_Some_l.
  - intros p Hp [Hbody|Hstranger]; apply lookup_union_r.
    + apply (castUpdate_lookup_None _ _ _ _ Hset).
      now rewrite lookup_insert_ne.
    + now apply (castUpdate_lookup_stranger _ _ _ _ Hset).
  - intros p st' v Hp Hst' Hbody.
    destruct (castUpdate_lookup_Some _ _ _ p _ v Hset Hst') as (x & Hx & Hlook).
    + now rewrite lookup_insert_ne.
    + exists x. split; [assumption|]. now apply lookup_union_Some_l.
Qed.
End UpdateFrame.

(** X6.  [PUT /tasks/:id] on a stored Task, with a body that does not touch
    [_id] and whose fields can be cast, answers 200 with the stored document
    changed as follows and in no other way: [updatedAt] is the time of the
    request; every schema path the body supplies holds the cast of the
    supplied value; every other field — a path the body omits, or a body key
    that is not a schema path — keeps its stored value, [_id] included.  The
    document keeps its place in the collection and every other document and
    collection is untouched. *)
Theorem X6_update_task_frame `{Host}
        (d : gmap string (list document)) (now : Z) (id : string) (n : N)
        (t : document) (body : gmap string js) :
  ObjectId_of_string id = Some n ->
  List.find (has_id n) (tasks_of d) = Some t ->
  body !! "_id" = None ->
  castable (paths taskSchema) (<["updatedAt" := JDate now]> body) = true ->
  exists t' l1 l2 d',
    TaskRoutes.put id body (online d now)
    = (inr (Response 200 (JsonDoc t')), online d' now)
    /\ tasks_of d = (l1 ++ t :: l2)%list
    /\ tasks_of d' = (l1 ++ t' :: l2)%list
    /\ (forall k, k <> "Task" -> d' !! k = d !! k)
    /\ t' !! "_id" = Some (VOid n)
    /\ t' !! "updatedAt" = Some (VDate now)
    /\ (forall p, p <> "updatedAt" ->
                  body !! p = None \/ Schema_path (paths taskSchema) p = None ->
                  t' !! p = t !! p)
    /\ (forall p st v,
          p <> "updatedAt" ->
          Schema_path (paths taskSchema) p = Some st ->
          body !! p = Some v ->
          exists x, cast (type st) p v = inr x /\ t' !! p = Some x).
Proof.
  intros Hid Hfind Hno Hcast.
  destruct (update_found Task _ d now id n t body eq_refl eq_refl Hid Hfind
              Hno Hcast)
    as (t' & l1 & l2 & Hrun & Hl & Hkeep_id & Hupdated & Hframe & Hset).
  exists t', l1, l2, (<["Task" := (l1 ++ t' :: l2)%list]> d).
  split; [|split; [exact Hl|split; [|split; [|repeat split]]]];
    try assumption.
  - unfold TaskRoutes.put, try_catch, bind, Date_now. cbn [clock online].
    now rewrite Hrun.
  - now rewrite tasks_of_insert.
  - intros k Hk. now rewrite lookup_insert_ne.
Qed.

Lemma X6_update_task_frame_witness :
  exists t' d',
    TaskRoutes.put (H := Node.host) Examples.an_id
                   {[ "priority" := JStr "high" ]}
                   (online Examples.a_store Examples.later)
    = (inr (Response 200 (JsonDoc t')), online d' Examples.later)
    /\ tasks_of d' = [t']
    /\ t' !! "priority" = Some (VStr "high")
    /\ t' !! "updatedAt" = Some (VDate Examples.later)
    /\ t' !! "title" = Some (VStr "Write report")
    /\ t' !! "createdAt" = Some (VDate 1700000000000).
Proof.
  destruct (X6_update_task_frame (H := Node.host) Examples.a_store
              Examples.later Examples.an_id Examples.an_oid Examples.a_task
              {[ "priority" := JStr "high" ]})
    as (t' & l1 & l2 & d' & Hrun & Hbefore & Hafter & _ & _ & Hupdated
        & Hkept & Hset).
  - vm_compute. reflexivity.
  - reflexivity.
  - vm_compute. reflexivity.
  - vm_compute. reflexivity.
  - exists t', d'. split; [exact Hrun|]. split.
    { rewrite Hafter.
      assert (Hlen : length (l1 ++ Examples.a_task :: l2) = 1)
        by (rewrite <- Hbefore; vm_compute; reflexivity).
      rewrite length_app in Hlen. cbn [length] in Hlen.
      destruct l1, l2; cbn [length] in Hlen; try lia. reflexivity. }
    split.
    { edestruct (Hset "priority") as (x & Hx & Hl).
      - discriminate.
      - vm_compute. reflexivity.
      - vm_compute. reflexivity.
      - vm_compute in Hx. injection Hx as <-. exact Hl. }
    split; [exact Hupdated|]. split.
    + rewrite (Hkept "title"); [reflexivity|discriminate|].
      left. vm_compute. reflexivity.
    + rewrite (Hkept "createdAt"); [reflexivity|discriminate|].
      left. vm_compute. reflexivity.
Defined.
(** X7.  [PUT /notes/:id] behaves in the same way on a stored Note: 200
    with the document in which [updatedAt] is the time of the request, the
    supplied schema paths hold the cast values — so that a body
    [{ pinned: true }] pins the note — and everything else is kept. *)
Theorem X7_update_note_frame `{Host}
        (d : gmap string (list document)) (now : Z) (id : string) (n : N)
        (t : document) (body : gmap string js) :
  ObjectId_of_string id = Some n ->
  List.find (has_id n) (notes_of d) = Some t ->
  body !! "_id" = None ->
  castable (paths noteSchema) (<["updatedAt" := JDate now]> body) = true ->
  exists t' l1 l2 d',
    NoteRoutes.put id body (online d now)
    = (inr (Response 200 (JsonDoc t')), online d' now)
    /\ notes_of d = (l1 ++ t :: l2)%list
    /\ notes_of d' = (l1 ++ t' :: l2)%list
    /\ (forall k, k <> "Note" -> d' !! k = d !! k)
    /\ t' !! "_id" = Some (VOid n)
    /\ t' !! "updatedAt" = Some (VDate now)
    /\ (forall b, body !! "pinned" = Some (JBool b) ->
                  t' !! "pinned" = Some (VBool b))
    /\ (forall p, p <> "updatedAt" ->
                  body !! p = None \/ Schema_path (paths noteSchema) p = None ->
                  t' !! p = t !! p).
Proof.
  intros Hid Hfind Hno Hcast.
  destruct (update_found Note _ d now id n t body eq_refl eq_refl Hid Hfind
              Hno Hcast)
    as (t' & l1 & l2 & Hrun & Hl & Hkeep_id & Hupdated & Hframe & Hset).
  exists t', l1, l2, (<["Note" := (l1 ++ t' :: l2)%list]> d).
  split; [|split; [exact Hl|split; [|split; [|repeat split]]]];
    try assumption.
  - unfold NoteRoutes.put, try_catch, bind, Date_now. cbn [clock online].
    now rewrite Hrun.
  - now rewrite notes_of_insert.
  - intros k Hk. now rewrite lookup_insert_ne.
  - intros b Hb.
    destruct (Hset "pinned" _ (JBool b) ltac:(discriminate) eq_refl Hb)
      as (x & Hx & Hlook).
    injection Hx as <-. exact Hlook.
Qed.

Lemma X7_update_note_frame_witness :
  exists t' d',
    NoteRoutes.put (H := Node.host) Notebook.a_note_id
                   {[ "pinned" := JBool true ]}
                   (online Notebook.a_notebook Examples.later)
    = (inr (Response 200 (JsonDoc t')), online d' Examples.later)
    /\ t' !! "pinned" = Some (VBool true)
    /\ t' !! "updatedAt" = Some (VDate Examples.later)
    /\ t' !! "content" = Some (VStr "Buy milk")
    /\ tasks_of d' = [Examples.a_task].
Proof.
  destruct (X7_update_note_frame (H := Node.host) Notebook.a_notebook
              Examples.later Notebook.a_note_id Notebook.a_note_oid
              Notebook.a_note {[ "pinned" := JBool true ]})
    as (t' & l1 & l2 & d' & Hrun & _ & _ & Hothers & _ & Hupdated
        & Hpinned & Hkept).
  - vm_compute. reflexivity.
  - reflexivity.
  - vm_compute. reflexivity.
  - vm_compute. reflexivity.
  - exists t', d'. split; [exact Hrun|].
    split; [apply Hpinned; vm_compute; reflexivity|].
    split; [exact Hupdated|]. split.
    + rewrite (Hkept "content"); [reflexivity|discriminate|].
      left. vm_compute. reflexivity.
    + unfold tasks_of, docs_of. cbn [modelName Task].
      rewrite (Hothers "Task") by discriminate. reflexivity.
Defined.

(** ** What creation rejects *)

Section Rejections.
Context `{Host}.

(** A draft with a validation error is answered 400 and not stored. *)
Lemma post_task_invalid (body : gmap string js)
      (d : gmap string (list document)) (now : Z) :
  validate (paths taskSchema)
           (hydrate (paths taskSchema) body now
                    (N.succ (max_oid (tasks_of d)))).1 <> [] ->
  exists errs,
    TaskRoutes.post body (online d now)
    = (inr (Response 400 (JsonError (message (ValidationError errs)))),
       online d now).
Proof.
  intros Hval. rewrite post_task_run, create_online. cbn zeta.
  destruct (_ ++ _)%list eqn:Herrs; [|now eexists].
  now apply app_eq_nil in Herrs as [_ Herrs].
Qed.

Lemma post_note_invalid (body : gmap string js)
      (d : gmap string (list document)) (now : Z) :
  validate (paths noteSchema)
           (hydrate (paths noteSchema) body now
                    (N.succ (max_oid (notes_of d)))).1 <> [] ->
  exists errs,
    NoteRoutes.post body (online d now)
    = (inr (Response 400 (JsonError (message (ValidationError errs)))),
       online d now).
Proof.
  intros Hval. rewrite post_note_run, create_online. cbn zeta.
  destruct (_ ++ _)%list eqn:Herrs; [|now eexists].
  now apply app_eq_nil in Herrs as [_ Herrs].
Qed.

Lemma required_fails (o : option js) (p : string) :
  o = None \/ o = Some JNull \/ o = Some (JStr "") ->
  checkRequired
    match o with
    | Some v => match cast SchemaString p v with
                | inr x => Some x
                | inl _ => None
                end
    | None => None
    end = false.
Proof. now intros [->|[->| ->]]. Qed.
End Rejections.

(** X8.  [POST /tasks] answers 400 with a validation error and stores
    nothing when the body has no title, a [null] title or an empty title,
    and also when its status is a string other than pending, in-progress
    and completed. *)
Theorem X8_create_task_rejects `{Host}
        (d : gmap string (list document)) (now : Z) (body : gmap string js) :
  (body !! "title" = None \/ body !! "title" = Some JNull
   \/ body !! "title" = Some (JStr "") ->
   exists errs,
     TaskRoutes.post body (online d now)
     = (inr (Response 400 (JsonError (message (ValidationError errs)))),
        online d now))
  /\ (forall s,
        body !! "status" = Some (JStr s) ->
        ~ In s ["pending"; "in-progress"; "completed"] ->
        exists errs,
          TaskRoutes.post body (online d now)
          = (inr (Response 400 (JsonError (message (ValidationError errs)))),
             online d now)).
Proof.
  split.
  - intros Htitle. apply post_task_invalid. rewrite validate_task.
    rewrite (hydrate_lookup _ _ _ _ "title" _ taskSchema_NoDup eq_refl).
    cbn [type default default_value].
    rewrite (required_fails _ "title" Htitle). discriminate.
  - intros s Hstatus Hout. apply post_task_invalid. rewrite validate_task.
    rewrite (hydrate_lookup _ _ _ _ "status" _ taskSchema_NoDup eq_refl).
    rewrite Hstatus. cbn [cast type castString].
    rewrite (enumValidator_not_In _ _ Hout).
    intros Hnil. apply app_eq_nil in Hnil as [_ Hnil].
    apply app_eq_nil in Hnil as [_ Hnil]. discriminate.
Qed.

Lemma X8_create_task_rejects_witness :
  (exists errs,
      TaskRoutes.post (H := Node.host) {[ "description" := JStr "No title" ]}
                      (online Examples.a_store Examples.later)
      = (inr (Response 400 (JsonError (message (ValidationError errs)))),
         online Examples.a_store Examples.later))
  /\ (exists errs,
         TaskRoutes.post (H := Node.host)
           (<["status" := JStr "done"]> {[ "title" := JStr "Write report" ]})
           (online Examples.a_store Examples.later)
         = (inr (Response 400 (JsonError (message (ValidationError errs)))),
            online Examples.a_store Examples.later)).
Proof.
  split.
  - apply (X8_create_task_rejects (H := Node.host) Examples.a_store
             Examples.later {[ "description" := JStr "No title" ]}).
    left. vm_compute. reflexivity.
  - apply (proj2 (X8_create_task_rejects (H := Node.host) Examples.a_store
                    Examples.later
                    (<["status" := JStr "done"]>
                       {[ "title" := JStr "Write report" ]})) "done").
    + vm_compute. reflexivity.
    + cbn [In]. intros [Heq|[Heq|[Heq|[]]]]; discriminate Heq.
Defined.
(** X9.  [POST /notes]: a body without content, or with a [null] or empty
    content, is answered 400 with a validation error and nothing is stored;
    a body with a non-empty content, no [_id] and castable fields creates a
    note in which every optional field the body omits has its default:
    [taskId] null, [title] empty, [color] ["#ffffa5"], [pinned] false. *)
Theorem X9_create_note `{Host}
        (d : gmap string (list document)) (now : Z) (body : gmap string js) :
  (body !! "content" = None \/ body !! "content" = Some JNull
   \/ body !! "content" = Some (JStr "") ->
   exists errs,
     NoteRoutes.post body (online d now)
     = (inr (Response 400 (JsonError (message (ValidationError errs)))),
        online d now))
  /\ (forall content,
        body !! "content" = Some (JStr content) ->
        content <> "" ->
        body !! "_id" = None ->
        castable (paths noteSchema) body = true ->
        exists note,
          NoteRoutes.post body (online d now)
          = (inr (Response 201 (JsonDoc note)),
             online (<["Note" := (notes_of d ++ [note])%list]> d) now)
          /\ note !! "content" = Some (VStr content)
          /\ (body !! "taskId" = None -> note !! "taskId" = Some VNull)
          /\ (body !! "title" = None -> note !! "title" = Some (VStr ""))
          /\ (body !! "color" = None -> note !! "color" = Some (VStr "#ffffa5"))
          /\ (body !! "pinned" = None -> note !! "pinned" = Some (VBool false))).
Proof.
  split.
  - intros Hcontent. apply post_note_invalid. rewrite validate_note.
    rewrite (hydrate_lookup _ _ _ _ "content" _ noteSchema_NoDup eq_refl).
    cbn [type default default_value].
    rewrite (required_fails _ "content" Hcontent). discriminate.
  - intros content Hcontent Hne Hid Hcast. eexists. split.
    + now apply (post_note_succeeds body d now content).
    + rewrite (new_note_field _ _ _ "content" _ ltac:(discriminate) eq_refl).
      rewrite (new_note_field _ _ _ "taskId" _ ltac:(discriminate) eq_refl).
      rewrite (new_note_field _ _ _ "title" _ ltac:(discriminate) eq_refl).
      rewrite (new_note_field _ _ _ "color" _ ltac:(discriminate) eq_refl).
      rewrite (new_note_field _ _ _ "pinned" _ ltac:(discriminate) eq_refl).
      rewrite Hcontent. repeat split; now intros ->.
Qed.

Lemma X9_create_note_witness :
  (exists errs,
      NoteRoutes.post (H := Node.host) {[ "content" := JStr "" ]}
                      (online Examples.a_store Examples.later)
      = (inr (Response 400 (JsonError (message (ValidationError errs)))),
         online Examples.a_store Examples.later))
  /\ (exists note,
         NoteRoutes.post (H := Node.host) {[ "content" := JStr "Buy milk" ]}
                         (online Examples.a_store Examples.later)
         = (inr (Response 201 (JsonDoc note)),
            online (<["Note" := (notes_of Examples.a_store ++ [note])%list]>
                      Examples.a_store) Examples.later)
         /\ note !! "content" = Some (VStr "Buy milk")
         /\ note !! "taskId" = Some VNull
         /\ note !! "title" = Some (VStr "")
         /\ note !! "color" = Some (VStr "#ffffa5")
         /\ note !! "pinned" = Some (VBool false)).
Proof.
  split.
  - apply (X9_create_note (H := Node.host) Examples.a_store Examples.later
             {[ "content" := JStr "" ]}).
    right. right. vm_compute. reflexivity.
  - destruct (proj2 (X9_create_note (H := Node.host) Examples.a_store
                       Examples.later {[ "content" := JStr "Buy milk" ]})
                    "Buy milk")
      as (note & Hrun & Hcontent & Htask & Htitle & Hcolor & Hpinned).
    + vm_compute. reflexivity.
    + discriminate.
    + vm_compute. reflexivity.
    + vm_compute. reflexivity.
    + exists note. split; [exact Hrun|]. split; [exact Hcontent|].
      split; [apply Htask; vm_compute; reflexivity|].
      split; [apply Htitle; vm_compute; reflexivity|].
      split; [apply Hcolor; vm_compute; reflexivity|].
      apply Hpinned. vm_compute. reflexivity.
Defined.

(** ** Notes by identifier *)

(** X10.  The identifier handlers of [src/routes/notes.js].  With an
    identifier the store cannot parse, [GET /notes/:id] and
    [DELETE /notes/:id] answer 500 and [PUT /notes/:id] answers 400, with an
    [error] body.  With an identifier that parses and that no stored Note
    carries, the three answer 404 with [{ error: "Note not found" }] ([PUT]
    when its update casts).  With the identifier of a stored Note,
    [GET /notes/:id] answers 200 with the note and [DELETE /notes/:id]
    answers 200 with [{ message: "Note deleted successfully" }] and takes
    exactly that note out of the collection. *)
Theorem X10_note_identifier_status `{Host}
        (d : gmap string (list document)) (now : Z) (id : string) :
  (ObjectId_of_string id = None ->
     (exists m, NoteRoutes.get_by_id id (online d now)
                = (inr (Response 500 (JsonError m)), online d now))
     /\ (exists m, NoteRoutes.delete id (online d now)
                   = (inr (Response 500 (JsonError m)), online d now))
     /\ (forall body, exists m,
            NoteRoutes.put id body (online d now)
            = (inr (Response 400 (JsonError m)), online d now)))
  /\ (forall n,
        ObjectId_of_string id = Some n ->
        Forall (fun t : document => t !! "_id" <> Some (VOid n)) (notes_of d) ->
        NoteRoutes.get_by_id id (online d now)
        = (inr (Response 404 (JsonError (Text "Note not found"))), online d now)
        /\ NoteRoutes.delete id (online d now)
           = (inr (Response 404 (JsonError (Text "Note not found"))),
              online d now)
        /\ (forall body,
              castable (paths noteSchema) (<["updatedAt" := JDate now]> body)
              = true ->
              NoteRoutes.put id body (online d now)
              = (inr (Response 404 (JsonError (Text "Note not found"))),
                 online d now)))
  /\ (forall n t,
        ObjectId_of_string id = Some n ->
        List.find (has_id n) (notes_of d) = Some t ->
        NoteRoutes.get_by_id id (online d now)
        = (inr (Response 200 (JsonDoc t)), online d now)
        /\ exists l1 l2,
            notes_of d = (l1 ++ t :: l2)%list
            /\ NoteRoutes.delete id (online d now)
               = (inr (Response 200 (JsonMessage "Note deleted successfully")),
                  online (<["Note" := (l1 ++ l2)%list]> d) now)).
Proof.
  split; [|split].
  - intros Hid. repeat split.
    + eexists. unfold NoteRoutes.get_by_id, try_catch, bind.
      rewrite (findById_malformed _ _ _ Hid). reflexivity.
    + eexists. unfold NoteRoutes.delete, try_catch, bind.
      rewrite (findByIdAndDelete_malformed _ _ _ Hid). reflexivity.
    + intros body. eexists. unfold NoteRoutes.put, try_catch, bind, Date_now.
      rewrite (findByIdAndUpdate_malformed _ _ _ _ Hid). reflexivity.
  - intros n Hid Habs. apply find_has_id_None in Habs. repeat split.
    + unfold NoteRoutes.get_by_id, try_catch, bind.
      rewrite (findById_online _ _ _ _ _ Hid). unfold notes_of in Habs.
      now rewrite Habs.
    + unfold NoteRoutes.delete, try_catch, bind.
      now rewrite (findByIdAndDelete_absent _ _ _ _ _ Hid Habs).
    + intros body Hbody. unfold NoteRoutes.put, try_catch, bind, Date_now.
      now rewrite (findByIdAndUpdate_absent Note _ _ _ _ _ Hid Hbody Habs).
  - intros n t Hid Hfind. split.
    + unfold NoteRoutes.get_by_id, try_catch, bind.
      rewrite (findById_online _ _ _ _ _ Hid). unfold notes_of in Hfind.
      now rewrite Hfind.
    + destruct (find_split _ _ _ Hfind) as (l1 & l2 & Hl & Hrem & _ & _).
      exists l1, l2. split; [exact Hl|].
      unfold NoteRoutes.delete, try_catch, bind.
      rewrite (findByIdAndDelete_found Note _ _ _ _ _ Hid Hfind).
      unfold notes_of in Hrem. now rewrite Hrem.
Qed.

Lemma X10_note_identifier_status_witness :
  (exists m, NoteRoutes.delete (H := Node.host) Examples.a_malformed_id
                               (online Notebook.a_notebook Examples.later)
             = (inr (Response 500 (JsonError m)),
                online Notebook.a_notebook Examples.later))
  /\ NoteRoutes.get_by_id (H := Node.host) Examples.another_id
                          (online Notebook.a_notebook Examples.later)
     = (inr (Response 404 (JsonError (Text "Note not found"))),
        online Notebook.a_notebook Examples.later)
  /\ NoteRoutes.get_by_id (H := Node.host) Notebook.a_note_id
                          (online Notebook.a_notebook Examples.later)
     = (inr (Response 200 (JsonDoc Notebook.a_note)),
        online Notebook.a_notebook Examples.later).
Proof.
  split; [|split].
  - apply (X10_note_identifier_status (H := Node.host) Notebook.a_notebook
             Examples.later Examples.a_malformed_id).
    vm_compute. reflexivity.
  - eapply (X10_note_identifier_status (H := Node.host) Notebook.a_notebook
              Examples.later Examples.another_id).
    + vm_compute. reflexivity.
    + repeat constructor. intros Heq. vm_compute in Heq. discriminate.
  - eapply (X10_note_identifier_status (H := Node.host) Notebook.a_notebook
              Examples.later Notebook.a_note_id).
    + vm_compute. reflexivity.
    + reflexivity.
Defined.

(** ** Listing notes with filters *)

Section FilterNotes.
Context `{Host}.

Lemma get_all_notes_filter (q : gmap string string) :
  NoteRoutes.get_all q
  = try_catch
      (let* notes := find Note (notes_filter q)
                          [("pinned", (-1)%Z); ("createdAt", (-1)%Z)] in
       res_json (JsonDocs notes))
      (fun err => res_status_json 500 (JsonError (message err))).
Proof. reflexivity. Qed.

Lemma notes_filter_lookup (q : gmap string string) :
  notes_filter q !! "taskId"
  = (if truthy (q !! "taskId")
     then Some (Equals (js_of_param (q !! "taskId"))) else None)
  /\ notes_filter q !! "content"
     = (if truthy (q !! "search")
        then Some (Regex (or_else (q !! "search") "") "i") else None)
  /\ notes_filter q !! "_id" = None
  /\ notes_filter q !! "title" = None
  /\ notes_filter q !! "color" = None
  /\ notes_filter q !! "pinned" = None
  /\ notes_filter q !! "createdAt" = None
  /\ notes_filter q !! "updatedAt" = None.
Proof.
  unfold notes_filter. cbv zeta.
  destruct (truthy (q !! "taskId")), (truthy (q !! "search"));
    repeat split; map_lookups; reflexivity.
Qed.

Lemma satisfies_oid (n : N) (v : option value) :
  satisfies (CEquals (VOid n)) v = bool_decide (v = Some (VOid n)).
Proof.
  unfold satisfies, or_else. apply bool_decide_ext.
  destruct v as [x|]; split; intros Heq; congruence.
Qed.

(** The filter of [GET /notes] casts unless its [taskId] cannot be parsed;
    when it casts, the server accepts it when the search expression is
    valid, and it matches the notes that [selected_note] describes. *)
Lemma notes_filter_cast (q : gmap string string) :
  match castFilter (paths noteSchema) (notes_filter q) with
  | inl _ => taskId_accepted q = false
  | inr cq =>
      taskId_accepted q = true
      /\ accepted cq = search_accepted q
      /\ forall t, matches cq t = selected_note q t
  end.
Proof.
  destruct (notes_filter_lookup q)
    as (Ht & Hc & Hi & Hti & Hco & Hp & Hca & Hua).
  unfold paths, noteSchema, id_path. cbn [castFilter].
  rewrite Ht, Hc, Hi, Hti, Hco, Hp, Hca, Hua.
  unfold selected_note, taskId_accepted, search_accepted, selects_taskId,
    selects_regex, truthy.
  generalize (q !! "taskId") (q !! "search").
  intros [s|] [r|];
    try destruct (String.eqb_spec s ""); try destruct (String.eqb_spec r "");
    cbn [negb js_of_param or_else type cast_condition orb];
    unfold cast, castObjectId;
    try destruct (ObjectId_of_string s) as [oid|];
    try reflexivity;
    (split; [reflexivity|]; split;
     [unfold accepted; cbn [forallb snd]; now rewrite ?andb_true_r|]);
    intros t; unfold matches; cbn [forallb fst snd];
    rewrite ?satisfies_oid; cbn [satisfies];
    now rewrite ?andb_true_r.
Qed.

(** [GET /notes] on a reachable store. *)
Lemma get_all_notes_query (q : gmap string string)
      (d : gmap string (list document)) (now : Z) :
  exists m,
    NoteRoutes.get_all q (online d now)
    = if taskId_accepted q && search_accepted q
      then (inr (Response 200
                   (JsonDocs (sort_by (precedes [("pinned", (-1)%Z);
                                                 ("createdAt", (-1)%Z)])
                                      (List.filter (selected_note q)
                                                   (notes_of d))))),
            online d now)
      else (inr (Response 500 (JsonError m)), online d now).
Proof.
  rewrite get_all_notes_filter. unfold try_catch, bind.
  pose proof (notes_filter_cast q) as Hcast.
  destruct (castFilter (paths noteSchema) (notes_filter q)) as [e|cq] eqn:Hcq.
  - rewrite Hcast. exists (message e). unfold find, query. cbn [schema Note].
    rewrite Hcq. now run.
  - destruct Hcast as (-> & Hacc & Hsel).
    rewrite (find_online Note _ _ _ _ _ Hcq), Hacc. cbn [andb].
    exists (message (MongoServerError InvalidRegex)).
    destruct (search_accepted q); [|reflexivity].
    unfold notes_of. now rewrite (List.filter_ext _ _ Hsel).
Qed.
End FilterNotes.

(** X11.  [GET /notes] with string query parameters.  When the [taskId]
    parameter, if supplied and non-empty, is an identifier the store can
    parse and the [search] parameter, if supplied and non-empty, is a
    regular expression the server accepts, the answer is 200 with exactly
    the Notes whose [taskId] is that identifier and whose content matches
    the search expression, letter case ignored; an omitted or empty
    parameter filters nothing; the list has pinned notes first and, among
    notes pinned alike, the newest first.  Otherwise the answer is 500 with
    an [error] body.  The store is left as it was. *)
Theorem X11_list_notes_filtered `{Host}
        (d : gmap string (list document)) (now : Z) (q : gmap string string) :
  (taskId_accepted q = true ->
   search_accepted q = true ->
   exists l,
     NoteRoutes.get_all q (online d now)
     = (inr (Response 200 (JsonDocs l)), online d now)
     /\ Permutation l (List.filter (selected_note q) (notes_of d))
     /\ Sorted pinned_then_newest l)
  /\ (taskId_accepted q = false \/ search_accepted q = false ->
      exists m,
        NoteRoutes.get_all q (online d now)
        = (inr (Response 500 (JsonError m)), online d now)).
Proof.
  destruct (get_all_notes_query q d now) as [m Hrun]. split.
  - intros Ht Hs. rewrite Hrun, Ht, Hs. eexists. split; [reflexivity|].
    split; [apply sort_by_perm|apply sort_pinned_then_newest].
  - intros Hbad. exists m. rewrite Hrun.
    destruct Hbad as [-> | ->]; [reflexivity|].
    now rewrite andb_false_r.
Qed.

Lemma X11_list_notes_filtered_witness :
  (exists l,
      NoteRoutes.get_all (H := Node.host) {[ "taskId" := Examples.an_id ]}
                         (online Notebook.a_notebook Examples.later)
      = (inr (Response 200 (JsonDocs l)),
         online Notebook.a_notebook Examples.later)
      /\ Permutation l
           (List.filter
              (selected_note (H := Node.host)
                             {[ "taskId" := Examples.an_id ]})
              (notes_of Notebook.a_notebook))
      /\ Sorted pinned_then_newest l)
  /\ (exists m,
         NoteRoutes.get_all (H := Node.host)
           {[ "taskId" := Examples.a_malformed_id ]}
           (online Notebook.a_notebook Examples.later)
         = (inr (Response 500 (JsonError m)),
            online Notebook.a_notebook Examples.later)).
Proof.
  split.
  - apply (X11_list_notes_filtered (H := Node.host) Notebook.a_notebook
             Examples.later {[ "taskId" := Examples.an_id ]}).
    + vm_compute. reflexivity.
    + vm_compute. reflexivity.
  - apply (X11_list_notes_filtered (H := Node.host) Notebook.a_notebook
             Examples.later {[ "taskId" := Examples.a_malformed_id ]}).
    left. vm_compute. reflexivity.
Defined.

(** ** The statistics add up *)

Section StatsSums.
Context `{Host}.

(** [GET /stats] on a reachable store. *)
Lemma stats_online (d : gmap string (list document)) (now : Z) :
  StatsRoutes.get (online d now)
  = (inr (Response 200 (JsonStats {|
            tasks := {| total := length (tasks_of d);
                        pending := count_where "status" "pending" (tasks_of d);
                        inProgress :=
                          count_where "status" "in-progress" (tasks_of d);
                        completed :=
                          count_where "status" "completed" (tasks_of d) |};
            priority := {| high := count_where "priority" "high" (tasks_of d);
                           medium :=
                             count_where "priority" "medium" (tasks_of d);
                           low := count_where "priority" "low" (tasks_of d) |};
            categories := length (categories_of d);
            notes := length (notes_of d) |})),
     online d now).
Proof.
  unfold StatsRoutes.get, try_catch, bind, Promise_all, online.
  rewrite (settle_outcomes _ _ d now (stats_counts d now) []).
  reflexivity.
Qed.

(** Counts for three different values of one field never exceed the number
    of documents, and reach it when every document holds one of the three. *)
Lemma count_where_three (p a b c : string) (l : list document) :
  a <> b -> a <> c -> b <> c ->
  count_where p a l + count_where p b l + count_where p c l <= length l
  /\ (Forall (fun t : document =>
                exists v, t !! p = Some (VStr v) /\ In v [a; b; c]) l ->
      count_where p a l + count_where p b l + count_where p c l = length l).
Proof.
  intros Hab Hac Hbc. unfold count_where.
  induction l as [|t l [IHle IHeq]]; cbn [List.filter length].
  - split; [lia|reflexivity].
  - assert (Hcases :
        (bool_decide (t !! p = Some (VStr a)) = true
         /\ bool_decide (t !! p = Some (VStr b)) = false
         /\ bool_decide (t !! p = Some (VStr c)) = false)
        \/ (bool_decide (t !! p = Some (VStr a)) = false
            /\ bool_decide (t !! p = Some (VStr b)) = true
            /\ bool_decide (t !! p = Some (VStr c)) = false)
        \/ (bool_decide (t !! p = Some (VStr a)) = false
            /\ bool_decide (t !! p = Some (VStr b)) = false
            /\ bool_decide (t !! p = Some (VStr c)) = true)
        \/ (bool_decide (t !! p = Some (VStr a)) = false
            /\ bool_decide (t !! p = Some (VStr b)) = false
            /\ bool_decide (t !! p = Some (VStr c)) = false
            /\ ~ exists v, t !! p = Some (VStr v) /\ In v [a; b; c])).
    { destruct (decide (t !! p = Some (VStr a))) as [Ha|Ha];
        [left|destruct (decide (t !! p = Some (VStr b))) as [Hb|Hb];
              [right; left
              |destruct (decide (t !! p = Some (VStr c))) as [Hc|Hc];
               [right; right; left|right; right; right]]].
      - repeat split; [now apply bool_decide_eq_true_2|..];
          apply bool_decide_eq_false_2; congruence.
      - repeat split; [|now apply bool_decide_eq_true_2|];
          apply bool_decide_eq_false_2; congruence.
      - repeat split; [| |now apply bool_decide_eq_true_2];
          apply bool_decide_eq_false_2; congruence.
      - repeat split; try (now apply bool_decide_eq_false_2).
        intros (v & Hv & [<-|[<-|[<-|[]]]]); contradiction. }
    destruct Hcases as [(-> & -> & ->)|[(-> & -> & ->)|[(-> & -> & ->)
                       |(-> & -> & -> & Hnone)]]]; cbn [length]; split;
      try lia.
    + intros [_ Hall]%Forall_cons_iff. specialize (IHeq Hall). lia.
    + intros [_ Hall]%Forall_cons_iff. specialize (IHeq Hall). lia.
    + intros [_ Hall]%Forall_cons_iff. specialize (IHeq Hall). lia.
    + intros [Hhead _]%Forall_cons_iff. contradiction.
Qed.
End StatsSums.

(** X12.  The object [GET /stats] returns is consistent with itself: the
    three status counts together never exceed the total number of Tasks, and
    neither do the three priority counts; each sum equals the total when
    every stored Task holds one of the three values. *)
Theorem X12_stats_add_up `{Host} (d : gmap string (list document)) (now : Z) :
  exists s,
    StatsRoutes.get (online d now)
    = (inr (Response 200 (JsonStats s)), online d now)
    /\ pending (tasks s) + inProgress (tasks s) + completed (tasks s)
       <= total (tasks s)
    /\ high (priority s) + medium (priority s) + low (priority s)
       <= total (tasks s)
    /\ (Forall (fun t : document =>
                  exists v, t !! "status" = Some (VStr v)
                            /\ In v ["pending"; "in-progress"; "completed"])
               (tasks_of d) ->
        pending (tasks s) + inProgress (tasks s) + completed (tasks s)
        = total (tasks s))
    /\ (Forall (fun t : document =>
                  exists v, t !! "priority" = Some (VStr v)
                            /\ In v ["high"; "medium"; "low"])
               (tasks_of d) ->
        high (priority s) + medium (priority s) + low (priority s)
        = total (tasks s)).
Proof.
  eexists. split; [apply stats_online|]. cbn [tasks priority total pending
    inProgress completed high medium low].
  destruct (count_where_three "status" "pending" "in-progress" "completed"
              (tasks_of d)) as [Hle Heq]; try discriminate.
  destruct (count_where_three "priority" "high" "medium" "low" (tasks_of d))
    as [Hle' Heq']; try discriminate.
  repeat split; assumption.
Qed.

Lemma X12_stats_add_up_witness :
  exists s,
    StatsRoutes.get (H := Node.host) (online Examples.a_store Examples.later)
    = (inr (Response 200 (JsonStats s)),
       online Examples.a_store Examples.later)
    /\ pending (tasks s) + inProgress (tasks s) + completed (tasks s)
       = total (tasks s)
    /\ high (priority s) + medium (priority s) + low (priority s)
       = total (tasks s).
Proof.
  destruct (X12_stats_add_up (H := Node.host) Examples.a_store Examples.later)
    as (s & Hrun & _ & _ & Hstatus & Hpriority).
  exists s. split; [exact Hrun|]. split.
  - apply Hstatus. repeat constructor.
    exists "pending". split; [vm_compute; reflexivity|]. cbn [In]. tauto.
  - apply Hpriority. repeat constructor.
    exists "medium". split; [vm_compute; reflexivity|]. cbn [In]. tauto.
Defined.

(** ** What the writing handlers may change *)

Section WriteEffects.
Context `{Host}.

Lemma create_effect (m : Model) (body : gmap string js) (w : world)
      (r : error + document) (w' : world) :
  bind (Model_new m body) (save m) w = (r, w') ->
  db w' = db w
  \/ exists doc n,
      doc !! "_id" = Some (VOid n)
      /\ List.find (has_id n) (docs_of (db w) m) = None
      /\ db w' = <[modelName m := (docs_of (db w) m ++ [doc])%list]> (db w).
Proof.
  destruct w as [d now fs]. rewrite create_run. cbn zeta. cbn [db].
  destruct (_ ++ _)%list; [|intros [= <- <-]; now left].
  destruct (oid_of _) as [n|] eqn:Hoid; [|intros [= <- <-]; now left].
  destruct (head fs) as [[e|]|]; try (intros [= <- <-]; now left);
    (destruct (existsb (has_id n) (docs_of d m)) eqn:Hex;
     [intros [= <- <-]; now left|]);
    intros [= <- <-]; right; eexists _, n; (split; [|split; [|reflexivity]]).
  all: try (unfold oid_of in Hoid;
            destruct (_ !! "_id") as [[]|]; try discriminate; congruence).
  all: destruct (List.find (has_id n) (docs_of d m)) as [t|] eqn:Hfind;
    [|reflexivity];
    apply find_some in Hfind as [Hin Ht];
    assert (existsb (has_id n) (docs_of d m) = true)
      by (apply existsb_exists; eauto);
    congruence.
Qed.

Lemma update_effect (m : Model) (id : string) (u : gmap string js) (w : world)
      (r : error + option document) (w' : world) :
  findByIdAndUpdate m id u w = (r, w') ->
  db w' = db w
  \/ exists t t' l1 l2,
      docs_of (db w) m = (l1 ++ t :: l2)%list
      /\ t' !! "_id" = t !! "_id"
      /\ db w' = <[modelName m := (l1 ++ t' :: l2)%list]> (db w).
Proof.
  destruct w as [d now fs]. unfold findByIdAndUpdate.
  destruct (castId id) as [e|n]; [run; intros [= <- <-]; now left|].
  destruct (castUpdate (paths (schema m)) u) as [e|set];
    [run; intros [= <- <-]; now left|].
  unfold bind at 1. cbn [lift ret]. unfold bind at 1. cbn [lift ret].
  unfold bind at 1. rewrite roundtrip_run.
  destruct (head fs) as [[e|]|]; cbn [outcome];
    try (intros [= <- <-]; now left).
  all: run; destruct (List.find (has_id n) (docs_of d m)) as [t|] eqn:Hfind;
    [|intros [= <- <-]; now left].
  all: destruct (bool_decide _) eqn:Hsame;
    [|intros [= <- <-]; now left].
  all: intros [= <- <-]; right;
    destruct (find_split _ _ _ Hfind) as (l1 & l2 & Hl & _ & Hupd & _);
    exists t, (set ∪ t), l1, l2; rewrite Hupd;
    (split; [exact Hl|split; [|reflexivity]]);
    apply bool_decide_eq_true_1 in Hsame;
    rewrite (find_has_id n _ _ Hfind);
    unfold or_else in Hsame;
    destruct (set !! "_id") as [x|] eqn:Hset;
    [subst x; now apply lookup_union_Some_l
    |rewrite lookup_union_r by assumption;
     now apply (find_has_id n (docs_of d m))].
Qed.

Lemma delete_effect (m : Model) (id : string) (w : world)
      (r : error + option document) (w' : world) :
  findByIdAndDelete m id w = (r, w') ->
  db w' = db w
  \/ exists t l1 l2,
      docs_of (db w) m = (l1 ++ t :: l2)%list
      /\ db w' = <[modelName m := (l1 ++ l2)%list]> (db w).
Proof.
  destruct w as [d now fs]. unfold findByIdAndDelete.
  destruct (castId id) as [e|n]; [run; intros [= <- <-]; now left|].
  unfold bind at 1. cbn [lift ret]. unfold bind at 1.
  rewrite roundtrip_run.
  destruct (head fs) as [[e|]|]; cbn [outcome];
    try (intros [= <- <-]; now left).
  all: run; destruct (List.find (has_id n) (docs_of d m)) as [t|] eqn:Hfind;
    [|intros [= <- <-]; now left].
  all: intros [= <- <-]; right;
    destruct (find_split _ _ _ Hfind) as (l1 & l2 & Hl & Hrem & _ & _);
    exists t, l1, l2; rewrite Hrem; now split.
Qed.

Lemma distinct_ids_replace (l1 l2 : list document) (t t' : document) :
  t' !! "_id" = t !! "_id" ->
  distinct_ids (l1 ++ t :: l2) -> distinct_ids (l1 ++ t' :: l2).
Proof.
  unfold distinct_ids. rewrite !fmap_app, !fmap_cons. now intros ->.
Qed.

Lemma distinct_ids_remove (l1 l2 : list document) (t : document) :
  distinct_ids (l1 ++ t :: l2) -> distinct_ids (l1 ++ l2).
Proof.
  unfold distinct_ids. rewrite !fmap_app, !fmap_cons.
  intros (H1 & Hdisj & H2)%NoDup_app. apply NoDup_cons in H2 as [_ H2].
  apply NoDup_app. split; [assumption|]. split; [|assumption].
  intros x Hx Hin. apply (Hdisj x Hx). now apply list_elem_of_further.
Qed.

Lemma well_kept_same (m : Model) (w w' : world) :
  db w' = db w -> well_kept m w w'.
Proof. intros Heq. unfold well_kept. rewrite Heq. now split. Qed.

Lemma create_well_kept (m : Model) (body : gmap string js) (w : world)
      (r : error + document) (w' : world) :
  bind (Model_new m body) (save m) w = (r, w') -> well_kept m w w'.
Proof.
  intros [Hsame|(doc & n & Hid & Hnone & Hdb)]%create_effect;
    [now apply well_kept_same|].
  unfold well_kept. rewrite Hdb. split.
  - intros k Hk. now rewrite lookup_insert_ne.
  - rewrite docs_of_insert. intros Hd. now apply (distinct_ids_snoc n).
Qed.

Lemma update_well_kept (m : Model) (id : string) (u : gmap string js)
      (w : world) (r : error + option document) (w' : world) :
  findByIdAndUpdate m id u w = (r, w') -> well_kept m w w'.
Proof.
  intros [Hsame|(t & t' & l1 & l2 & Hl & Hid & Hdb)]%update_effect;
    [now apply well_kept_same|].
  unfold well_kept. rewrite Hdb. split.
  - intros k Hk. now rewrite lookup_insert_ne.
  - rewrite docs_of_insert, Hl. now apply distinct_ids_replace.
Qed.

Lemma delete_well_kept (m : Model) (id : string) (w : world)
      (r : error + option document) (w' : world) :
  findByIdAndDelete m id w = (r, w') -> well_kept m w w'.
Proof.
  intros [Hsame|(t & l1 & l2 & Hl & Hdb)]%delete_effect;
    [now apply well_kept_same|].
  unfold well_kept. rewrite Hdb. split.
  - intros k Hk. now rewrite lookup_insert_ne.
  - rewrite docs_of_insert, Hl. now apply distinct_ids_remove.
Qed.
End WriteEffects.

(** X13.  The writing handlers keep the store in order, for every input
    and in every state of the world, whatever they answer: [POST], [PUT] and
    [DELETE] on tasks change no collection but the Tasks, those on notes no
    collection but the Notes, and when the stored identifiers of that
    collection are distinct before the request they are distinct after
    it. *)
Theorem X13_writes_keep_the_store `{Host}
        (w : world) (id : string) (body : gmap string js) :
  well_kept Task w (TaskRoutes.post body w).2
  /\ well_kept Task w (TaskRoutes.put id body w).2
  /\ well_kept Task w (TaskRoutes.delete id w).2
  /\ well_kept Note w (NoteRoutes.post body w).2
  /\ well_kept Note w (NoteRoutes.put id body w).2
  /\ well_kept Note w (NoteRoutes.delete id w).2.
Proof.
  split; [|split; [|split; [|split; [|split]]]].
  - rewrite post_task_run.
    destruct (bind (Model_new Task body) (save Task) w) as [[e|t] w'] eqn:Hrun;
      apply (create_well_kept _ _ _ _ _ Hrun).
  - unfold TaskRoutes.put, try_catch, bind, Date_now.
    match goal with
    | |- context [findByIdAndUpdate ?m ?i ?u w] =>
        destruct (findByIdAndUpdate m i u w) as [[e|[t|]] w'] eqn:Hrun
    end; apply (update_well_kept _ _ _ _ _ _ Hrun).
  - unfold TaskRoutes.delete, try_catch, bind.
    destruct (findByIdAndDelete Task id w) as [[e|[t|]] w'] eqn:Hrun;
      apply (delete_well_kept _ _ _ _ _ Hrun).
  - rewrite post_note_run.
    destruct (bind (Model_new Note body) (save Note) w) as [[e|t] w'] eqn:Hrun;
      apply (create_well_kept _ _ _ _ _ Hrun).
  - unfold NoteRoutes.put, try_catch, bind, Date_now.
    match goal with
    | |- context [findByIdAndUpdate ?m ?i ?u w] =>
        destruct (findByIdAndUpdate m i u w) as [[e|[t|]] w'] eqn:Hrun
    end; apply (update_well_kept _ _ _ _ _ _ Hrun).
  - unfold NoteRoutes.delete, try_catch, bind.
    destruct (findByIdAndDelete Note id w) as [[e|[t|]] w'] eqn:Hrun;
      apply (delete_well_kept _ _ _ _ _ Hrun).
Qed.

Lemma X13_writes_keep_the_store_witness :
  distinct_ids
    (tasks_of (db (TaskRoutes.put (H := Node.host) Examples.an_id
                     {[ "priority" := JStr "high" ]}
                     (online Examples.a_store Examples.later)).2)).
Proof.
  destruct (X13_writes_keep_the_store (H := Node.host)
              (online Examples.a_store Examples.later) Examples.an_id
              {[ "priority" := JStr "high" ]})
    as (_ & [_ Hkept] & _).
  apply Hkept. unfold distinct_ids. apply NoDup_singleton.
Defined.

(** ** Categories *)

Section CreateCategory.
Context `{Host}.

Lemma categorySchema_NoDup : NoDup (paths categorySchema).*1.
Proof. compute_done. Qed.

Lemma validate_category (d : document) :
  validate (paths categorySchema) d
  = ((if negb (checkRequired (d !! "name"))
      then [("name", RequiredFailed)] else [])
     ++ [])%list.
Proof. reflexivity. Qed.

Lemma new_category_field (body : gmap string js) (now : Z) (oid : N)
      (p : string) (st : SchemaType) :
  Schema_path (paths categorySchema) p = Some st ->
  (pre_save Category now (hydrate (paths categorySchema) body now oid).1) !! p
  = match body !! p with
    | Some v => match cast (type st) p v with
                | inr x => Some x
                | inl _ => None
                end
    | None => default_value (default st) now oid
    end.
Proof.
  intros Hs. cbn [pre_save Category].
  now apply hydrate_lookup; [apply categorySchema_NoDup|].
Qed.

Lemma categories_of_insert (d : gmap string (list document))
      (l : list document) :
  categories_of (<["Category" := l]> d) = l
  /\ tasks_of (<["Category" := l]> d) = tasks_of d
  /\ notes_of (<["Category" := l]> d) = notes_of d.
Proof.
  unfold categories_of, tasks_of, notes_of, docs_of.
  cbn [modelName Category Task Note].
  rewrite lookup_insert_eq.
  now rewrite !lookup_insert_ne by discriminate.
Qed.
End CreateCategory.

(** X14.  The Category model of [src/models/Category.js].  Saving
    [new Category(body)] fails with a validation error, and stores nothing,
    when the body has no name or a [null] or empty one.  With a non-empty
    name, no [_id] and castable fields it stores a category that carries the
    name, the colour ["#3498db"] and the icon ["folder"] where the body omits
    them; [GET /stats] then counts one category more, and the same tasks and
    notes as before. *)
Theorem X14_category_create `{Host}
        (d : gmap string (list document)) (now : Z) (body : gmap string js) :
  (body !! "name" = None \/ body !! "name" = Some JNull
   \/ body !! "name" = Some (JStr "") ->
   exists errs,
     bind (Model_new Category body) (save Category) (online d now)
     = (inl (ValidationError errs), online d now))
  /\ (forall name,
        body !! "name" = Some (JStr name) ->
        name <> "" ->
        body !! "_id" = None ->
        castable (paths categorySchema) body = true ->
        exists c d',
          bind (Model_new Category body) (save Category) (online d now)
          = (inr c, online d' now)
          /\ d' = <["Category" := (categories_of d ++ [c])%list]> d
          /\ c !! "name" = Some (VStr name)
          /\ (body !! "color" = None -> c !! "color" = Some (VStr "#3498db"))
          /\ (body !! "icon" = None -> c !! "icon" = Some (VStr "folder"))
          /\ forall later s s',
              StatsRoutes.get (online d later)
              = (inr (Response 200 (JsonStats s)), online d later) ->
              StatsRoutes.get (online d' later)
              = (inr (Response 200 (JsonStats s')), online d' later) ->
              categories s' = S (categories s)
              /\ tasks s' = tasks s /\ priority s' = priority s
              /\ notes s' = notes s).
Proof.
  split.
  - intros Hname. rewrite create_online. cbn zeta.
    destruct (_ ++ _)%list eqn:Herrs; [|now eexists].
    apply app_eq_nil in Herrs as [_ Herrs]. exfalso. revert Herrs.
    cbn [schema Category]. rewrite validate_category.
    rewrite (hydrate_lookup _ _ _ _ "name" _ categorySchema_NoDup eq_refl).
    cbn [type default default_value].
    rewrite (required_fails _ "name" Hname). discriminate.
  - intros name Hname Hne Hid Hcast. eexists _, _. split; [|split].
    + apply (create_succeeds Category); [assumption| |].
      * cbn [schema Category]. rewrite validate_category.
        rewrite (hydrate_lookup _ _ _ _ "name" _ categorySchema_NoDup eq_refl).
        rewrite Hname. cbn [cast type castString checkRequired].
        now destruct (String.eqb_spec name "").
      * cbn [schema]. unfold oid_of.
        rewrite (new_category_field _ _ _ "_id" _ eq_refl), Hid.
        reflexivity.
    + reflexivity.
    + cbn [schema Category].
      rewrite (new_category_field _ _ _ "name" _ eq_refl).
      rewrite (new_category_field _ _ _ "color" _ eq_refl).
      rewrite (new_category_field _ _ _ "icon" _ eq_refl).
      rewrite Hname.
      split; [reflexivity|]. split; [now intros ->|]. split; [now intros ->|].
      intros later s s'. rewrite !stats_online.
      match goal with
      | |- context [<[modelName Category := ?l]> d] =>
          destruct (categories_of_insert d l) as (Hc & Ht & Hn);
          change (<[modelName Category := l]> d) with (<["Category" := l]> d)
      end.
      rewrite Hc, Ht, Hn. intros [= <-] [= <-].
      cbn [categories tasks priority notes].
      rewrite length_app. cbn [length]. unfold categories_of.
      split; [lia|]. now repeat split.
Qed.

Lemma X14_category_create_witness :
  (exists errs,
      bind (Model_new (H := Node.host) Category {[ "color" := JStr "#ff0000" ]})
           (save Category) (online Examples.a_store Examples.later)
      = (inl (ValidationError errs), online Examples.a_store Examples.later))
  /\ (exists c d',
         bind (Model_new (H := Node.host) Category {[ "name" := JStr "Work" ]})
              (save Category) (online Examples.a_store Examples.later)
         = (inr c, online d' Examples.later)
         /\ c !! "name" = Some (VStr "Work")
         /\ c !! "color" = Some (VStr "#3498db")
         /\ c !! "icon" = Some (VStr "folder")).
Proof.
  split.
  - apply (X14_category_create (H := Node.host) Examples.a_store
             Examples.later {[ "color" := JStr "#ff0000" ]}).
    left. vm_compute. reflexivity.
  - destruct (proj2 (X14_category_create (H := Node.host) Examples.a_store
                       Examples.later {[ "name" := JStr "Work" ]}) "Work")
      as (c & d' & Hrun & _ & Hname & Hcolor & Hicon & _).
    + vm_compute. reflexivity.
    + discriminate.
    + vm_compute. reflexivity.
    + vm_compute. reflexivity.
    + exists c, d'. split; [exact Hrun|]. split; [exact Hname|].
      split; [apply Hcolor; vm_compute; reflexivity|].
      apply Hicon. vm_compute. reflexivity.
Defined.

(** ** The browser-side cache *)

Section Registry.

Lemma findIndex_Some {A} (P : A -> bool) (l : list A) (i : nat) :
  DataManager.findIndex P l = Some i ->
  exists l1 x l2,
    l = (l1 ++ x :: l2)%list
    /\ P x = true
    /\ Forall (fun y => P y = false) l1
    /\ delete i l = (l1 ++ l2)%list
    /\ forall y, <[i := y]> l = (l1 ++ y :: l2)%list.
Proof.
  revert i. induction l as [|x l IH]; intros i; [discriminate|].
  cbn [DataManager.findIndex]. destruct (P x) eqn:Hx.
  - intros [= <-]. exists [], x, l. repeat split; [assumption|constructor].
  - destruct (DataManager.findIndex P l) as [j|]; [|discriminate].
    intros [= <-].
    destruct (IH j eq_refl) as (l1 & y & l2 & -> & Hy & Hl1 & Hdel & Hins).
    exists (x :: l1), y, l2. split; [reflexivity|]. split; [assumption|].
    split; [now constructor|]. split.
    + exact (f_equal (cons x) Hdel).
    + intros z. exact (f_equal (cons x) (Hins z)).
Qed.

Lemma findIndex_None {A} (P : A -> bool) (l : list A) :
  DataManager.findIndex P l = None -> Forall (fun y => P y = false) l.
Proof.
  induction l as [|x l IH]; [constructor|].
  cbn [DataManager.findIndex]. destruct (P x) eqn:Hx; [discriminate|].
  destruct (DataManager.findIndex P l); [discriminate|].
  intros _. constructor; [assumption|now apply IH].
Qed.

Lemma find_none_Forall {A} (P : A -> bool) (l : list A) :
  Forall (fun y => P y = false) l -> List.find P l = None.
Proof.
  induction 1 as [|x l Hx _ IH]; [reflexivity|].
  cbn [List.find]. now rewrite Hx.
Qed.

Lemma find_middle {A} (P : A -> bool) (l1 l2 : list A) (x : A) :
  Forall (fun y => P y = false) l1 ->
  List.find P (l1 ++ x :: l2) = List.find P (x :: l2).
Proof.
  induction 1 as [|y l Hy _ IH]; [reflexivity|].
  cbn [app List.find]. now rewrite Hy.
Qed.

Lemma findIndex_find {A} (P : A -> bool) (l : list A) :
  DataManager.findIndex P l = None <-> List.find P l = None.
Proof.
  induction l as [|x l IH]; [easy|].
  cbn [DataManager.findIndex List.find]. destruct (P x); [easy|].
  rewrite <- IH. now destruct (DataManager.findIndex P l).
Qed.

Lemma indexOf_absent (cb : DataManager.callback)
      (subs : list DataManager.callback) :
  ~ In cb subs -> DataManager.indexOf cb subs = None.
Proof.
  unfold DataManager.indexOf.
  induction subs as [|x subs IH]; [reflexivity|]. intros Hnin.
  cbn [DataManager.findIndex]. destruct (Nat.eqb_spec cb x) as [->|_].
  - exfalso. apply Hnin. now left.
  - rewrite IH; [reflexivity|]. intros Hin. apply Hnin. now right.
Qed.

Lemma indexOf_first (cb : DataManager.callback)
      (l1 l2 : list DataManager.callback) :
  ~ In cb l1 ->
  exists i, DataManager.indexOf cb (l1 ++ cb :: l2) = Some i
            /\ forall l3, delete i ((l1 ++ cb :: l2) ++ l3)%list
                          = (l1 ++ l2 ++ l3)%list.
Proof.
  unfold DataManager.indexOf.
  induction l1 as [|x l1 IH]; intros Hnin.
  - exists 0. cbn [app DataManager.findIndex]. now rewrite Nat.eqb_refl.
  - destruct IH as (i & Hi & Hdel).
    { intros Hin. apply Hnin. now right. }
    exists (S i). cbn [app DataManager.findIndex].
    destruct (Nat.eqb_spec cb x) as [->|_].
    + exfalso. apply Hnin. now left.
    + rewrite Hi. split; [reflexivity|]. intros l3.
      exact (f_equal (cons x) (Hdel l3)).
Qed.

Lemma listeners_with_subscribers (event e : string)
      (subs : list DataManager.callback) (this : DataManager.t) :
  DataManager.listeners e
    (DataManager.with_subscribers
       (<[event := subs]> (DataManager.subscribers this)) this)
  = if String.eqb e event then subs else DataManager.listeners e this.
Proof.
  unfold DataManager.listeners, DataManager.with_subscribers.
  cbn [DataManager.subscribers].
  destruct (String.eqb_spec e event) as [->|Hne].
  - now rewrite lookup_insert_eq.
  - now rewrite lookup_insert_ne by congruence.
Qed.

Lemma listeners_unsubscribe_other (event e : string)
      (cb : DataManager.callback) (this : DataManager.t) :
  e <> event ->
  DataManager.listeners e (DataManager.unsubscribe event cb this)
  = DataManager.listeners e this.
Proof.
  intros Hne. unfold DataManager.unsubscribe.
  destruct (DataManager.subscribers this !! event) as [subs|]; [|reflexivity].
  destruct (DataManager.indexOf cb subs); [|reflexivity].
  rewrite listeners_with_subscribers.
  now destruct (String.eqb_spec e event).
Qed.
End Registry.

(** X15.  [subscribe] appends the callback to the subscribers of its event
    and leaves the other events and the cached lists alone.  The function
    it returns undoes the subscription when the callback was not subscribed
    to that event before; when it was, the function removes the earlier
    registration, so that the callback ends up last. *)
Theorem X15_unsubscribe_after_subscribe
        (this : DataManager.t) (event : string) (cb : DataManager.callback) :
  let this1 := (DataManager.subscribe event cb this).2 in
  let this2 := (DataManager.subscribe event cb this).1 this1 in
  DataManager.listeners event this1
  = (DataManager.listeners event this ++ [cb])%list
  /\ (forall e, e <> event ->
                DataManager.listeners e this1 = DataManager.listeners e this
                /\ DataManager.listeners e this2
                   = DataManager.listeners e this)
  /\ (~ In cb (DataManager.listeners event this) ->
      DataManager.listeners event this2 = DataManager.listeners event this)
  /\ (forall l1 l2,
        DataManager.listeners event this = (l1 ++ cb :: l2)%list ->
        ~ In cb l1 ->
        DataManager.listeners event this2 = (l1 ++ l2 ++ [cb])%list)
  /\ DataManager.tasks this2 = DataManager.tasks this
  /\ DataManager.categories this2 = DataManager.categories this
  /\ DataManager.notes this2 = DataManager.notes this.
Proof.
  cbn zeta. unfold DataManager.subscribe. cbn [fst snd].
  fold (DataManager.listeners event this).
  set (l := DataManager.listeners event this).
  set (this1 := DataManager.with_subscribers _ this).
  assert (Hfield : DataManager.subscribers this1 !! event
                   = Some (l ++ [cb])%list).
  { unfold this1, DataManager.with_subscribers. cbn [DataManager.subscribers].
    apply lookup_insert_eq. }
  assert (Hone : forall e, DataManager.listeners e this1
                           = if String.eqb e event then (l ++ [cb])%list
                             else DataManager.listeners e this).
  { intros e. apply listeners_with_subscribers. }
  assert (Hunsub : forall i,
             DataManager.indexOf cb (l ++ [cb]) = Some i ->
             DataManager.unsubscribe event cb this1
             = DataManager.with_subscribers
                 (<[event := delete i (l ++ [cb])%list]>
                    (DataManager.subscribers this1)) this1).
  { intros i Hi. unfold DataManager.unsubscribe. now rewrite Hfield, Hi. }
  split; [|split; [|split; [|split]]].
  - rewrite Hone. now rewrite String.eqb_refl.
  - intros e Hne. rewrite listeners_unsubscribe_other by assumption.
    rewrite Hone. destruct (String.eqb_spec e event); [contradiction|].
    now split.
  - intros Hnin.
    destruct (indexOf_first cb l [] Hnin) as (i & Hi & Hdel).
    specialize (Hdel []). rewrite !app_nil_r in Hdel.
    rewrite (Hunsub i Hi), listeners_with_subscribers, String.eqb_refl.
    exact Hdel.
  - intros l1 l2 Hl Hnin.
    destruct (indexOf_first cb l1 l2 Hnin) as (i & Hi & Hdel).
    assert (Hi' : DataManager.indexOf cb (l ++ [cb]) = Some i).
    { rewrite Hl. unfold DataManager.indexOf in *.
      clear -Hi Hnin. revert i Hi.
      induction l1 as [|x l1 IH]; intros i.
      - cbn [app DataManager.findIndex]. now rewrite Nat.eqb_refl.
      - cbn [app DataManager.findIndex].
        destruct (Nat.eqb cb x); [easy|].
        destruct (DataManager.findIndex (Nat.eqb cb) (l1 ++ cb :: l2))
          as [j|] eqn:Hj; [|discriminate].
        rewrite (IH ltac:(intros Hin; apply Hnin; now right) j eq_refl).
        easy. }
    rewrite (Hunsub i Hi'), listeners_with_subscribers, String.eqb_refl.
    rewrite Hl. apply Hdel.
  - unfold DataManager.unsubscribe. rewrite Hfield.
    destruct (DataManager.indexOf cb (l ++ [cb])); now repeat split.
Qed.

Lemma X15_unsubscribe_after_subscribe_witness :
  DataManager.listeners "taskCreated"
    ((DataManager.subscribe "taskCreated" 8 Browser.one_subscriber).1
       (DataManager.subscribe "taskCreated" 8 Browser.one_subscriber).2)
  = [7]
  /\ DataManager.listeners "taskCreated"
       ((DataManager.subscribe "taskCreated" 7 Browser.two_subscribers).1
          (DataManager.subscribe "taskCreated" 7 Browser.two_subscribers).2)
     = [8; 7].
Proof.
  split.
  - destruct (X15_unsubscribe_after_subscribe Browser.one_subscriber
                "taskCreated" 8) as (_ & _ & Hfresh & _).
    rewrite Hfresh; [reflexivity|].
    vm_compute. intros [Heq|[]]. discriminate Heq.
  - destruct (X15_unsubscribe_after_subscribe Browser.two_subscribers
                "taskCreated" 7) as (_ & _ & _ & Hmoved & _).
    apply (Hmoved [] [8]); [reflexivity|]. intros [].
Defined.

Section Notifying.
Variable run : DataManager.callback -> DataManager.data
               -> option DataManager.exn.

Lemma forEach_quiet (subs : list DataManager.callback) (d : DataManager.data) :
  Forall (fun cb => run cb d = None) subs ->
  DataManager.forEach run subs d = ((fun cb => (cb, d)) <$> subs, None).
Proof.
  induction 1 as [|cb subs Hcb _ IH]; [reflexivity|].
  cbn [DataManager.forEach]. now rewrite Hcb, IH.
Qed.

Lemma forEach_throws (subs : list DataManager.callback) (d : DataManager.data)
      (cb : DataManager.callback) (e : DataManager.exn) :
  In cb subs -> run cb d = Some e ->
  exists log e', DataManager.forEach run subs d = (log, Some e').
Proof.
  induction subs as [|x subs IH]; [intros []|].
  intros [->|Hin] Hcb; cbn [DataManager.forEach].
  - rewrite Hcb. now eexists _, _.
  - destruct (run x d); [now eexists _, _|].
    destruct (IH Hin Hcb) as (log & e' & ->). now eexists _, _.
Qed.

Lemma notify_quiet (event : string) (d : DataManager.data)
      (this : DataManager.t) :
  Forall (fun cb => run cb d = None) (DataManager.listeners event this) ->
  DataManager.notify run event d this
  = ((fun cb => (cb, d)) <$> DataManager.listeners event this, None).
Proof.
  unfold DataManager.notify, DataManager.listeners.
  destruct (DataManager.subscribers this !! event) as [subs|];
    [apply forEach_quiet|reflexivity].
Qed.

Lemma notify_throws (event : string) (d : DataManager.data)
      (this : DataManager.t) (cb : DataManager.callback)
      (e : DataManager.exn) :
  In cb (DataManager.listeners event this) -> run cb d = Some e ->
  exists log e', DataManager.notify run event d this = (log, Some e').
Proof.
  unfold DataManager.notify, DataManager.listeners.
  destruct (DataManager.subscribers this !! event) as [subs|];
    [apply forEach_throws|intros []].
Qed.

(** The [catch] block always rethrows and never touches the cache. *)
Lemma caught_rethrows {A} (type : string) (error : DataManager.exn)
      (this : DataManager.t) (log : list DataManager.call) :
  exists e' log',
    DataManager.caught (A := A) run type error this log = (inl e', this, log').
Proof.
  unfold DataManager.caught.
  destruct (DataManager.notify run "error" _ this) as [log' [e'|]];
    now eexists _, _.
Qed.

Lemma caught_quiet {A} (type : string) (error : DataManager.exn)
      (this : DataManager.t) (log : list DataManager.call) :
  Forall (fun cb => run cb (DataManager.Failure type error) = None)
         (DataManager.listeners "error" this) ->
  DataManager.caught (A := A) run type error this log
  = (inl error, this,
     (log ++ ((fun cb => (cb, DataManager.Failure type error))
                <$> DataManager.listeners "error" this))%list).
Proof.
  intros Hq. unfold DataManager.caught. now rewrite (notify_quiet _ _ _ Hq).
Qed.

(** A method body that changes the cache to [this'], notifies the
    subscribers of [event] and returns [a]. *)
Lemma notified {A} (event type : string) (d : DataManager.data) (a : A)
      (this' : DataManager.t) :
  exists r log,
    match DataManager.notify run event d this' with
    | (log, Some error) => DataManager.caught run type error this' log
    | (log, None) => (inr a, this', log)
    end = (r, this', log)
    /\ (Forall (fun cb => run cb d = None)
               (DataManager.listeners event this') ->
        r = inr a
        /\ log = (fun cb => (cb, d)) <$> DataManager.listeners event this')
    /\ (forall cb e,
          In cb (DataManager.listeners event this') ->
          run cb d = Some e -> exists e', r = inl e').
Proof.
  destruct (DataManager.notify run event d this') as [log [error|]] eqn:Hn.
  - destruct (caught_rethrows (A := A) type error this' log)
      as (e' & log' & ->).
    eexists _, _. split; [reflexivity|]. split.
    + intros Hq. rewrite (notify_quiet _ _ _ Hq) in Hn. discriminate.
    + intros _ _ _ _. now eexists.
  - eexists _, _. split; [reflexivity|]. split.
    + intros Hq. rewrite (notify_quiet _ _ _ Hq) in Hn.
      now injection Hn as <-.
    + intros cb e Hin Hcb.
      destruct (notify_throws _ _ _ _ _ Hin Hcb) as (l & e' & Hthrows).
      rewrite Hthrows in Hn. discriminate.
Qed.
End Notifying.

(** X16.  [createTask], once the API has answered with the new task, puts
    it first in the cached list, where [getTaskById] finds it under its own
    identifier, and leaves the categories, the notes and the subscribers as
    they were.  The method returns the task after calling every
    [taskCreated] subscriber in order when none of them throws; when one of
    them throws, it rejects, although the task stays in the cache. *)
Theorem X16_created_task_is_cached
        (run : DataManager.callback -> DataManager.data
               -> option DataManager.exn)
        (task : DataManager.item) (this : DataManager.t) :
  exists r log,
    DataManager.createTask run (inr task) this
    = (r, DataManager.with_tasks (task :: DataManager.tasks this) this, log)
    /\ (forall id, DataManager.goes_by id task = true ->
                   DataManager.getTaskById id
                     (DataManager.with_tasks (task :: DataManager.tasks this)
                                             this)
                   = Some task)
    /\ (Forall (fun cb => run cb (DataManager.Item task) = None)
               (DataManager.listeners "taskCreated" this) ->
        r = inr task
        /\ log = (fun cb => (cb, DataManager.Item task))
                   <$> DataManager.listeners "taskCreated" this)
    /\ (forall cb e,
          In cb (DataManager.listeners "taskCreated" this) ->
          run cb (DataManager.Item task) = Some e ->
          exists e', r = inl e').
Proof.
  unfold DataManager.createTask.
  destruct (notified run "taskCreated" "createTask" (DataManager.Item task)
              task (DataManager.with_tasks (task :: DataManager.tasks this)
                                           this))
    as (r & log & Hrun & Hquiet & Hthrows).
  exists r, log. split; [exact Hrun|]. split; [|split].
  - intros id Hid. unfold DataManager.getTaskById, DataManager.with_tasks.
    cbn [DataManager.tasks List.find]. now rewrite Hid.
  - exact Hquiet.
  - exact Hthrows.
Qed.

Lemma X16_created_task_is_cached_witness :
  (exists log,
      DataManager.createTask Browser.quiet (inr Browser.a_newer_task)
                             Browser.a_cache
      = (inr Browser.a_newer_task,
         DataManager.with_tasks
           (Browser.a_newer_task :: DataManager.tasks Browser.a_cache)
           Browser.a_cache, log))
  /\ (exists e log,
         DataManager.createTask Browser.run (inr Browser.a_newer_task)
                                Browser.a_cache
         = (inl e,
            DataManager.with_tasks
              (Browser.a_newer_task :: DataManager.tasks Browser.a_cache)
              Browser.a_cache, log))
  /\ DataManager.getTaskById Examples.an_id
       (DataManager.with_tasks
          (Browser.a_newer_task :: DataManager.tasks Browser.a_cache)
          Browser.a_cache)
     = Some Browser.a_newer_task.
Proof.
  split; [|split].
  - destruct (X16_created_task_is_cached Browser.quiet Browser.a_newer_task
                Browser.a_cache) as (r & log & Hrun & _ & Hquiet & _).
    destruct Hquiet as [-> _]; [|now exists log].
    apply Forall_forall. reflexivity.
  - destruct (X16_created_task_is_cached Browser.run Browser.a_newer_task
                Browser.a_cache) as (r & log & Hrun & _ & _ & Hthrows).
    destruct (Hthrows 8 "subscriber failed") as [e ->].
    + vm_compute. tauto.
    + reflexivity.
    + now exists e, log.
  - destruct (X16_created_task_is_cached Browser.quiet Browser.a_newer_task
                Browser.a_cache) as (_ & _ & _ & Hfound & _).
    apply Hfound. vm_compute. reflexivity.
Defined.

(** X17.  When the API call fails, [loadTasks], [createTask], [updateTask],
    [deleteTask] and [createCategory] leave the DataManager exactly as it
    was and reject.  When no [error] subscriber throws, they reject with the
    error of the API after passing it, with the name of the method, to every
    [error] subscriber in order. *)
Theorem X17_failed_request_keeps_cache
        (run : DataManager.callback -> DataManager.data
               -> option DataManager.exn)
        (error : DataManager.exn) (id : string) (this : DataManager.t) :
  ((exists e log, DataManager.loadTasks run (inl error) this
                  = (inl e, this, log))
   /\ (exists e log, DataManager.createTask run (inl error) this
                     = (inl e, this, log))
   /\ (exists e log, DataManager.updateTask run id (inl error) this
                     = (inl e, this, log))
   /\ (exists e log, DataManager.deleteTask run id (inl error) this
                     = (inl e, this, log))
   /\ (exists e log, DataManager.createCategory run (inl error) this
                     = (inl e, this, log)))
  /\ ((forall cb type, In cb (DataManager.listeners "error" this) ->
                       run cb (DataManager.Failure type error) = None) ->
      let told type :=
        (fun cb => (cb, DataManager.Failure type error))
          <$> DataManager.listeners "error" this in
      DataManager.loadTasks run (inl error) this
      = (inl error, this, told "loadTasks")
      /\ DataManager.createTask run (inl error) this
         = (inl error, this, told "createTask")
      /\ DataManager.updateTask run id (inl error) this
         = (inl error, this, told "updateTask")
      /\ DataManager.deleteTask run id (inl error) this
         = (inl error, this, told "deleteTask")
      /\ DataManager.createCategory run (inl error) this
         = (inl error, this, told "createCategory")).
Proof.
  split.
  - repeat split; apply caught_rethrows.
  - intros Hq told.
    assert (Hquiet : forall type,
               Forall (fun cb => run cb (DataManager.Failure type error) = None)
                      (DataManager.listeners "error" this)).
    { intros type. apply Forall_forall. intros cb Hin%list_elem_of_In.
      now apply Hq. }
    unfold DataManager.loadTasks, DataManager.createTask,
      DataManager.updateTask, DataManager.deleteTask,
      DataManager.createCategory.
    repeat split; now rewrite caught_quiet.
Qed.

Lemma X17_failed_request_keeps_cache_witness :
  DataManager.deleteTask Browser.run Examples.an_id (inl "Task not found")
    (DataManager.subscribe "error" 7 Browser.a_cache).2
  = (inl "Task not found",
     (DataManager.subscribe "error" 7 Browser.a_cache).2,
     [(7, DataManager.Failure "deleteTask" "Task not found")]).
Proof.
  apply (X17_failed_request_keeps_cache Browser.run "Task not found"
           Examples.an_id (DataManager.subscribe "error" 7 Browser.a_cache).2).
  intros cb type Hin. vm_compute in Hin. destruct Hin as [<-|[]]. reflexivity.
Defined.

Section CacheLists.

Lemma kept_not_matching (id : string) (t : DataManager.item) :
  negb (bool_decide (t !! "_id" = Some (JStr id)))
  && negb (bool_decide (t !! "id" = Some (JStr id)))
  = negb (DataManager.goes_by id t).
Proof. unfold DataManager.goes_by. now rewrite negb_orb. Qed.

Lemma find_filter_out {A} (P : A -> bool) (l : list A) :
  List.find P (List.filter (fun x => negb (P x)) l) = None.
Proof.
  induction l as [|x l IH]; [reflexivity|].
  cbn [List.filter]. destruct (P x) eqn:Hx; cbn [negb]; [assumption|].
  cbn [List.find]. now rewrite Hx.
Qed.

Lemma find_filter_other {A} (P Q : A -> bool) (l : list A) :
  (forall x, In x l -> Q x = true -> P x = false) ->
  List.find Q (List.filter (fun x => negb (P x)) l) = List.find Q l.
Proof.
  induction l as [|x l IH]; [reflexivity|]. intros Hdisj.
  assert (IH' := IH (fun y Hy => Hdisj y (or_intror Hy))).
  cbn [List.filter List.find]. destruct (Q x) eqn:Hq.
  - rewrite (Hdisj x (or_introl eq_refl) Hq). cbn [negb List.find].
    now rewrite Hq.
  - destruct (P x); cbn [negb List.find]; [assumption|]. now rewrite Hq.
Qed.

Lemma find_app_found {A} (P : A -> bool) (l l' : list A) (x : A) :
  List.find P l = Some x -> List.find P (l ++ l') = Some x.
Proof.
  induction l as [|y l IH]; [discriminate|].
  cbn [app List.find]. now destruct (P y).
Qed.

Lemma find_app_missing {A} (P : A -> bool) (l l' : list A) :
  List.find P l = None -> List.find P (l ++ l') = List.find P l'.
Proof.
  induction l as [|y l IH]; [reflexivity|].
  cbn [app List.find]. now destruct (P y).
Qed.
End CacheLists.

(** X18.  [deleteTask(id)], once the API has confirmed the deletion,
    removes from the cached list every task whose [_id] or [id] is [id] and
    keeps the others in their order: [getTaskById(id)] is then [undefined],
    and a lookup under another identifier answers as before unless a task
    it could find also went by [id].  The other lists and the subscribers
    are left as they were, also when a [taskDeleted] subscriber throws. *)
Theorem X18_deleted_task_leaves_cache
        (run : DataManager.callback -> DataManager.data
               -> option DataManager.exn)
        (id : string) (this : DataManager.t) :
  exists r log this',
    DataManager.deleteTask run id (inr tt) this = (r, this', log)
    /\ this' = DataManager.with_tasks (DataManager.tasks this') this
    /\ DataManager.tasks this'
       = List.filter (fun t => negb (DataManager.goes_by id t))
                     (DataManager.tasks this)
    /\ DataManager.getTaskById id this' = None
    /\ (forall id',
          (forall t, In t (DataManager.tasks this) ->
                     DataManager.goes_by id' t = true ->
                     DataManager.goes_by id t = false) ->
          DataManager.getTaskById id' this' = DataManager.getTaskById id' this)
    /\ (Forall (fun cb => run cb (DataManager.Id id) = None)
               (DataManager.listeners "taskDeleted" this) ->
        r = inr true).
Proof.
  unfold DataManager.deleteTask.
  set (this' := DataManager.with_tasks _ this).
  destruct (notified run "taskDeleted" "deleteTask" (DataManager.Id id)
              true this') as (r & log & Hrun & Hquiet & _).
  exists r, log, this'. split; [exact Hrun|]. split; [reflexivity|].
  assert (Htasks : DataManager.tasks this'
                   = List.filter (fun t => negb (DataManager.goes_by id t))
                                 (DataManager.tasks this)).
  { unfold this', DataManager.with_tasks. cbn [DataManager.tasks].
    apply filter_ext. intros t. apply kept_not_matching. }
  split; [exact Htasks|]. split; [|split].
  - unfold DataManager.getTaskById. rewrite Htasks. apply find_filter_out.
  - intros id' Hdisj. unfold DataManager.getTaskById. rewrite Htasks.
    now apply find_filter_other.
  - intros Hq. now apply Hquiet.
Qed.

Lemma X18_deleted_task_leaves_cache_witness :
  exists r log this',
    DataManager.deleteTask Browser.quiet Examples.an_id (inr tt)
                           Browser.a_cache
    = (r, this', log)
    /\ r = inr true
    /\ DataManager.getTaskById Examples.an_id this' = None
    /\ DataManager.getTaskById Examples.another_id this'
       = Some Browser.another_task.
Proof.
  destruct (X18_deleted_task_leaves_cache Browser.quiet Examples.an_id
              Browser.a_cache)
    as (r & log & this' & Hrun & _ & _ & Hgone & Hothers & Hquiet).
  exists r, log, this'. split; [exact Hrun|]. split; [|split].
  - apply Hquiet. apply Forall_forall. reflexivity.
  - exact Hgone.
  - rewrite Hothers; [reflexivity|].
    intros t Hin. unfold Browser.a_cache, DataManager.with_tasks in Hin.
    cbn [DataManager.tasks In] in Hin. destruct Hin as [<-|[<-|[]]].
    + intros _. vm_compute. reflexivity.
    + intros Hm. vm_compute in Hm. discriminate.
Defined.

(** X19.  [updateTask(id, data)], once the API has answered with the
    updated task, keeps the length of the cached list.  With no cached task
    under [id] the DataManager is unchanged; otherwise the first such task,
    and only that one, is replaced by the task the API returned, which
    [getTaskById(id)] then finds when it goes by [id] itself. *)
Theorem X19_updated_task_in_cache
        (run : DataManager.callback -> DataManager.data
               -> option DataManager.exn)
        (id : string) (task : DataManager.item) (this : DataManager.t) :
  exists r log this',
    DataManager.updateTask run id (inr task) this = (r, this', log)
    /\ length (DataManager.tasks this') = length (DataManager.tasks this)
    /\ (DataManager.getTaskById id this = None -> this' = this)
    /\ (forall old,
          DataManager.getTaskById id this = Some old ->
          exists l1 l2,
            DataManager.tasks this = (l1 ++ old :: l2)%list
            /\ Forall (fun t => DataManager.goes_by id t = false) l1
            /\ this' = DataManager.with_tasks (l1 ++ task :: l2)%list this
            /\ (DataManager.goes_by id task = true ->
                DataManager.getTaskById id this' = Some task))
    /\ (Forall (fun cb => run cb (DataManager.Item task) = None)
               (DataManager.listeners "taskUpdated" this) ->
        r = inr task).
Proof.
  unfold DataManager.updateTask.
  set (this' := match DataManager.findIndex _ _ with
                | Some index => _
                | None => this
                end).
  destruct (notified run "taskUpdated" "updateTask" (DataManager.Item task)
              task this') as (r & log & Hrun & Hquiet & _).
  exists r, log, this'. split; [exact Hrun|].
  assert (Hsubs : DataManager.listeners "taskUpdated" this'
                  = DataManager.listeners "taskUpdated" this).
  { unfold this'. now destruct (DataManager.findIndex _ _). }
  split; [|split; [|split]].
  - unfold this'. destruct (DataManager.findIndex _ _); [|reflexivity].
    unfold DataManager.with_tasks. cbn [DataManager.tasks].
    apply length_insert.
  - unfold DataManager.getTaskById. intros Hnone%findIndex_find.
    unfold this'. now rewrite Hnone.
  - unfold DataManager.getTaskById. intros old Hold. unfold this'.
    destruct (DataManager.findIndex (DataManager.goes_by id)
                                    (DataManager.tasks this))
      as [index|] eqn:Hindex.
    + destruct (findIndex_Some _ _ _ Hindex)
        as (l1 & x & l2 & Hl & Hx & Hl1 & _ & Hins).
      rewrite Hl, (find_middle _ _ _ _ Hl1) in Hold.
      cbn [List.find] in Hold. rewrite Hx in Hold. injection Hold as ->.
      exists l1, l2. split; [exact Hl|]. split; [exact Hl1|].
      rewrite Hins. split; [reflexivity|]. intros Htask.
      unfold DataManager.with_tasks. cbn [DataManager.tasks].
      rewrite (find_middle _ _ _ _ Hl1). cbn [List.find]. now rewrite Htask.
    + apply findIndex_find in Hindex. congruence.
  - intros Hq. apply Hquiet. now rewrite Hsubs.
Qed.

Lemma X19_updated_task_in_cache_witness :
  exists r log this',
    DataManager.updateTask Browser.quiet Examples.an_id
                           (inr Browser.a_newer_task) Browser.a_cache
    = (r, this', log)
    /\ r = inr Browser.a_newer_task
    /\ length (DataManager.tasks this') = 2
    /\ DataManager.getTaskById Examples.an_id this'
       = Some Browser.a_newer_task.
Proof.
  destruct (X19_updated_task_in_cache Browser.quiet Examples.an_id
              Browser.a_newer_task Browser.a_cache)
    as (r & log & this' & Hrun & Hlength & _ & Hfound & Hquiet).
  exists r, log, this'. split; [exact Hrun|]. split; [|split].
  - apply Hquiet. apply Forall_forall. reflexivity.
  - rewrite Hlength. reflexivity.
  - destruct (Hfound Browser.a_cached_task) as (l1 & l2 & _ & _ & _ & Hget);
      [reflexivity|].
    apply Hget. vm_compute. reflexivity.
Defined.

(** X20.  [createCategory], once the API has answered with the new
    category, puts it last in the cached list.  Every lookup by identifier
    that found a category before therefore still finds the same one, also
    under the identifier of the new category; the new category is found
    under an identifier of its own only when no cached category went by it
    already. *)
Theorem X20_created_category_goes_last
        (run : DataManager.callback -> DataManager.data
               -> option DataManager.exn)
        (category : DataManager.item) (this : DataManager.t) :
  exists r log,
    DataManager.createCategory run (inr category) this
    = (r,
       DataManager.with_categories
         (DataManager.categories this ++ [category])%list this,
       log)
    /\ (forall id old,
          DataManager.getCategoryById id this = Some old ->
          DataManager.getCategoryById id
            (DataManager.with_categories
               (DataManager.categories this ++ [category])%list this)
          = Some old)
    /\ (forall id,
          DataManager.getCategoryById id this = None ->
          DataManager.goes_by id category = true ->
          DataManager.getCategoryById id
            (DataManager.with_categories
               (DataManager.categories this ++ [category])%list this)
          = Some category)
    /\ (Forall (fun cb => run cb (DataManager.Item category) = None)
               (DataManager.listeners "categoryCreated" this) ->
        r = inr category).
Proof.
  unfold DataManager.createCategory.
  destruct (notified run "categoryCreated" "createCategory"
              (DataManager.Item category) category
              (DataManager.with_categories
                 (DataManager.categories this ++ [category])%list this))
    as (r & log & Hrun & Hquiet & _).
  exists r, log. split; [exact Hrun|].
  unfold DataManager.getCategoryById, DataManager.with_categories.
  cbn [DataManager.categories]. split; [|split].
  - intros id old Hold. now apply find_app_found.
  - intros id Hnone Hid. rewrite (find_app_missing _ _ _ Hnone).
    cbn [List.find]. now rewrite Hid.
  - intros Hq. now apply Hquiet.
Qed.

Lemma X20_created_category_goes_last_witness :
  DataManager.getCategoryById Examples.an_id
    (DataManager.with_categories
       (DataManager.categories
          (DataManager.with_categories [Browser.a_cached_task] Browser.a_cache)
        ++ [Browser.a_newer_task])%list
       (DataManager.with_categories [Browser.a_cached_task] Browser.a_cache))
  = Some Browser.a_cached_task.
Proof.
  destruct (X20_created_category_goes_last Browser.quiet Browser.a_newer_task
              (DataManager.with_categories [Browser.a_cached_task] Browser.a_cache))
    as (_ & _ & _ & Hstale & _).
  apply Hstale. reflexivity.
Defined.
